(** * IP-based attendance: decision engine and dual-store persistence

    A shallow embedding of [server.js] (the Express handlers
    [POST /api/attendance/mark] and [GET /api/attendance/records], with
    the helpers [extractClientIp], [isPrivateIp], [possibleProxy]) and of
    the JSON database module that server.js requires as [./db] ([loadDb],
    [saveDb], [addAttendance], [getAttendanceForStudent], [setExpectedIp],
    [getExpectedIp], [getAllAttendance]); it is called db.js below.

    Conventions of the embedding.
    - A JavaScript string is a [string]; its characters are code units
      below 256.  Values that the code only tests for truthiness
      ([undefined], [null], the empty string) are the empty string.
    - The two files [db.json] and [attendance.xlsx] are the fields of a
      [World]; every file operation that can throw in Node returns in the
      monad [M], whose left results are the thrown errors.
    - [console.log] and the cell styling of ExcelJS (fonts, fills, column
      widths) have no effect on any value read back and are left out. *)

From Stdlib Require Import ZArith String Ascii List Bool Lia.
From stdpp Require Import base option gmap strings list.

Local Open Scope Z_scope.

(** ** JavaScript string primitives used by the sources *)

Module JsString.

(** [s.startsWith(p)] *)
Definition startsWith (p s : string) : bool := String.prefix p s.

(** [s.includes(c)] for a one-character needle *)
Fixpoint includes (c : ascii) (s : string) : bool :=
  match s with
  | EmptyString => false
  | String a s' => if Ascii.eqb a c then true else includes c s'
  end.

(** [s.split(c)] for a one-character separator; never the empty list *)
Fixpoint split (sep : ascii) (s : string) : list string :=
  match s with
  | EmptyString => [EmptyString]
  | String a s' =>
      if Ascii.eqb a sep then EmptyString :: split sep s'
      else match split sep s' with
           | [] => [String a EmptyString]
           | h :: t => String a h :: t
           end
  end.

(** [s.split(c)[0]] *)
Definition split0 (sep : ascii) (s : string) : string :=
  match split sep s with
  | [] => EmptyString
  | h :: _ => h
  end.

(** White space removed by [trim], among the code units below 256:
    TAB, LF, VT, FF, CR, SPACE and NBSP. *)
Definition isWhiteSpace (a : ascii) : bool :=
  match a with
  | "009" | "010" | "011" | "012" | "013" | " " | "160" => true
  | _ => false
  end%char.

Fixpoint trimStart (s : string) : string :=
  match s with
  | EmptyString => EmptyString
  | String a s' => if isWhiteSpace a then trimStart s' else s
  end.

Fixpoint trimEnd (s : string) : string :=
  match s with
  | EmptyString => EmptyString
  | String a s' =>
      match trimEnd s' with
      | EmptyString => if isWhiteSpace a then EmptyString else String a EmptyString
      | r => String a r
      end
  end.

(** [s.trim()] *)
Definition trim (s : string) : string := trimEnd (trimStart s).

Fixpoint drop (n : nat) (s : string) : string :=
  match n, s with
  | O, _ => s
  | S _, EmptyString => EmptyString
  | S n', String _ s' => drop n' s'
  end.

(** [s.replace(pat, rep)] with a string pattern: the first occurrence
    only. *)
Fixpoint replace (pat rep s : string) : string :=
  if String.prefix pat s then String.append rep (drop (String.length pat) s)
  else match s with
       | EmptyString => EmptyString
       | String a s' => String a (replace pat rep s')
       end.

(** [s.slice(0, n)] *)
Definition slice0 (n : nat) (s : string) : string := String.substring 0 n s.

(** [s.toLowerCase()] on code units below 256: the letters A to Z and the
    Latin-1 capitals from 192 to 222, without the sign at 215, move to their
    small forms 32 places up. *)
Definition lowerChar (a : ascii) : ascii :=
  let n := nat_of_ascii a in
  if ((65 <=? n) && (n <=? 90) || (192 <=? n) && (n <=? 222) && negb (n =? 215))%nat
  then ascii_of_nat (n + 32)
  else a.

Fixpoint toLowerCase (s : string) : string :=
  match s with
  | EmptyString => EmptyString
  | String a s' => String (lowerChar a) (toLowerCase s')
  end.

(** Truthiness of a string: [!!s] *)
Definition truthy (s : string) : bool := negb (String.eqb s EmptyString).

(** [a || b] on strings *)
Definition or (a b : string) : string := if truthy a then a else b.

End JsString.

(** A JSON scalar as it appears in a response body or a stored record. *)
Inductive jsval : Type :=
  | JNull
  | JBool (b : bool)
  | JStr (s : string).

(** ** Request, configuration *)

(** The parts of an Express request the handlers read.  An absent header,
    body member or socket address is the empty string (all of them are only
    tested for truthiness before use). *)
Record Request : Type := mkRequest {
  body_student_id : string;
  body_student_name : string;
  x_forwarded_for : string;
  socket_remoteAddress : string;
  connection_remoteAddress : string;
  authorization : string
}.

(** [process.env.ALLOWED_WIFI_IP], [process.env.ADMIN_TOKEN] and
    [process.env.NODE_ENV]; unset is the empty string. *)
Record Config : Type := mkConfig {
  ALLOWED_IP : string;
  ADMIN_TOKEN : string;
  NODE_ENV : string
}.

(** ** Utility functions of server.js *)

(** [extractClientIp(req)], server.js 54-91.  No operation in its [try]
    block throws on strings, so the [catch] is dead. *)
Definition extractClientIp (req : Request) : string :=
  let ip := x_forwarded_for req in
  let ip := if negb (JsString.truthy ip) && JsString.truthy (socket_remoteAddress req)
            then socket_remoteAddress req else ip in
  let ip := if negb (JsString.truthy ip) && JsString.truthy (connection_remoteAddress req)
            then connection_remoteAddress req else ip in
  let ip := if JsString.truthy ip && JsString.includes "," ip
            then JsString.trim (JsString.split0 "," ip) else ip in
  let ip := if JsString.truthy ip && JsString.startsWith "::ffff:" ip
            then JsString.replace "::ffff:" "" ip else ip in
  let ip := if String.eqb ip "::1" then "127.0.0.1"%string else ip in
  JsString.or ip "".

(** [isPrivateIp(ip)], server.js 98-122. *)
Definition isPrivateIp (ip : string) : bool :=
  if negb (JsString.truthy ip) then false
  else
    JsString.startsWith "10." ip ||
    JsString.startsWith "192.168." ip ||
    JsString.startsWith "172.16." ip ||
    JsString.startsWith "172.17." ip ||
    JsString.startsWith "172.18." ip ||
    JsString.startsWith "172.19." ip ||
    JsString.startsWith "172.20." ip ||
    JsString.startsWith "172.21." ip ||
    JsString.startsWith "172.22." ip ||
    JsString.startsWith "172.23." ip ||
    JsString.startsWith "172.24." ip ||
    JsString.startsWith "172.25." ip ||
    JsString.startsWith "172.26." ip ||
    JsString.startsWith "172.27." ip ||
    JsString.startsWith "172.28." ip ||
    JsString.startsWith "172.29." ip ||
    JsString.startsWith "172.30." ip ||
    JsString.startsWith "172.31." ip ||
    String.eqb ip "127.0.0.1" ||
    String.eqb ip "localhost".

(** [possibleProxy(req)], server.js 129-132: [raw && raw.split(',').length > 1],
    so the empty string itself when the header is absent. *)
Definition possibleProxy (req : Request) : jsval :=
  let raw := JsString.or (x_forwarded_for req) "" in
  if JsString.truthy raw
  then JBool (Nat.ltb 1 (List.length (JsString.split "," raw)))
  else JStr raw.

(** ** The attendance rules, server.js 219-244 *)

(** The pair [(status, reason)] assigned by the rule cascade.  [allowedIp]
    is the JavaScript value [db.getExpectedIp(id) || ALLOWED_IP || ''], so
    "no expected address" is the empty string. *)
Definition attendanceLogic (clientIp : string) (isPrivate : bool) (allowedIp : string)
  : string * string :=
  if isPrivate then ("Absent", "private_ip")
  else if negb (JsString.truthy allowedIp) then ("Absent", "missing_expected_ip")
  else if String.eqb clientIp allowedIp then ("Present", "ip_matched")
  else ("Absent", "ip_mismatch").

(** ** The JavaScript [Date] built-ins the sources call *)

(** An instant is a number of milliseconds since the epoch, the time value
    of a [Date] object. *)
Definition Instant : Type := Z.

(** The three [Date] operations used by the sources.  The code is
    embedded over this interface; [FixedOffset.runtime] below is the
    instance for a server whose local zone is a fixed offset from UTC. *)
Class DateRuntime : Type := {
  (** [d.toISOString()] *)
  toISOString : Instant -> string;
  (** [d.toLocaleTimeString('en-US', {hour12: false, hour: '2-digit',
      minute: '2-digit', second: '2-digit'})] *)
  toLocaleTimeString : Instant -> string;
  (** [new Date(s)]; [None] is the invalid date, whose [getTime()] is NaN *)
  Date_parse : string -> option Instant
}.

Module FixedOffset.

Definition msPerDay : Z := 86400000.

(** 10000-01-01T00:00:00.000Z, the first instant whose year has five
    digits. *)
Definition endOfTime : Instant := 253402300800000.

(** Civil date (year, month, day) of a day number counted from
    1970-01-01, in the proleptic Gregorian calendar. *)
Definition civil_from_days (z : Z) : Z * Z * Z :=
  let z := z + 719468 in
  let era := z / 146097 in
  let doe := z - era * 146097 in
  let yoe := (doe - doe / 1460 + doe / 36524 - doe / 146096) / 365 in
  let y := yoe + era * 400 in
  let doy := doe - (365 * yoe + yoe / 4 - yoe / 100) in
  let mp := (5 * doy + 2) / 153 in
  let d := doy - (153 * mp + 2) / 5 + 1 in
  let m := if mp <? 10 then mp + 3 else mp - 9 in
  (if m <=? 2 then y + 1 else y, m, d).

Definition days_from_civil (y m d : Z) : Z :=
  let y := if m <=? 2 then y - 1 else y in
  let era := y / 400 in
  let yoe := y - era * 400 in
  let doy := (153 * (if 2 <? m then m - 3 else m + 9) + 2) / 5 + d - 1 in
  let doe := yoe * 365 + yoe / 4 - yoe / 100 + doy in
  era * 146097 + doe - 719468.

Definition digit (n : Z) : ascii := ascii_of_nat (48 + Z.to_nat (n mod 10)).

Definition pad2 (n : Z) : string :=
  String (digit (n / 10)) (String (digit n) EmptyString).

Definition pad3 (n : Z) : string := String (digit (n / 100)) (pad2 n).

Definition pad4 (n : Z) : string := String (digit (n / 1000)) (pad3 n).

Definition pad6 (n : Z) : string :=
  String (digit (n / 100000)) (String (digit (n / 10000)) (pad4 n)).

(** The year of an ISO string: four digits for the years 0000 to 9999, a
    sign and six digits for the others. *)
Definition yearString (y : Z) : string :=
  if (0 <=? y) && (y <=? 9999) then pad4 y
  else String (if y <? 0 then "-"%char else "+"%char) (pad6 (Z.abs y)).

(** The [YYYY-MM-DD] rendering of a day number. *)
Definition dayString (day : Z) : string :=
  let '(y, m, d) := civil_from_days day in
  yearString y +:+ "-" +:+ pad2 m +:+ "-" +:+ pad2 d.

(** The [YYYY-MM-DD] rendering of the day that contains instant [t] (the
    year in its expanded form outside the years 0000 to 9999). *)
Definition isoDate (t : Instant) : string := dayString (t / msPerDay).

(** The [HH:MM:SS] rendering of the time of day of instant [t]. *)
Definition clockTime (t : Instant) : string :=
  let ms := t mod msPerDay in
  pad2 (ms / 3600000) +:+ ":" +:+ pad2 (ms / 60000 mod 60) +:+ ":" +:+
  pad2 (ms / 1000 mod 60).

(** [YYYY-MM-DDTHH:mm:ss.sssZ], with the expanded year outside the years
    0000 to 9999. *)
Definition isoString (t : Instant) : string :=
  isoDate t +:+ "T" +:+ clockTime t +:+ "." +:+ pad3 (t mod 1000) +:+ "Z".

(** Local time of day in a zone [off] minutes east of UTC. *)
Definition localeTimeString (off : Z) (t : Instant) : string :=
  clockTime (t + off * 60000).

(** The calendar date, in that zone, of instant [t]. *)
Definition localDate (off : Z) (t : Instant) : string :=
  isoDate (t + off * 60000).

Definition digitVal (a : ascii) : option Z :=
  let n := Z.of_nat (nat_of_ascii a) in
  if (48 <=? n) && (n <=? 57) then Some (n - 48) else None.

Fixpoint number (acc : Z) (s : string) : option Z :=
  match s with
  | EmptyString => Some acc
  | String a s' =>
      match digitVal a with
      | Some v => number (10 * acc + v) s'
      | None => None
      end
  end.

Definition field (s : string) (i len : nat) : option Z :=
  number 0 (String.substring i len s).

Definition charAt (s : string) (i : nat) (c : ascii) : bool :=
  match String.get i s with
  | Some a => Ascii.eqb a c
  | None => false
  end.

(** [new Date(s)] on the 24-character format that [toISOString] writes for
    the years 0000 to 9999, which is the format of every timestamp the
    server stores.  The other forms that [new Date] reads (a date alone, an
    expanded year, the legacy formats) are not parsed here: on them this
    function answers [None], and nothing below is stated about them.  As in
    V8, a day from 1 to 31 is accepted in every month. *)
Definition parseIso (s : string) : option Instant :=
  if Nat.eqb (String.length s) 24 && charAt s 4 "-" && charAt s 7 "-" &&
     charAt s 10 "T" && charAt s 13 ":" && charAt s 16 ":" &&
     charAt s 19 "." && charAt s 23 "Z"
  then
    y ← field s 0 4; m ← field s 5 2; d ← field s 8 2;
    h ← field s 11 2; mi ← field s 14 2; sec ← field s 17 2;
    ms ← field s 20 3;
    if (1 <=? m) && (m <=? 12) && (1 <=? d) && (d <=? 31) &&
       (h <=? 23) && (mi <=? 59) && (sec <=? 59)
    then Some (days_from_civil y m d * msPerDay +
               h * 3600000 + mi * 60000 + sec * 1000 + ms)
    else None
  else None.

Definition runtime (off : Z) : DateRuntime :=
  {| toISOString := isoString;
     toLocaleTimeString := localeTimeString off;
     Date_parse := parseIso |}.

End FixedOffset.

(** ** The two stores as files, and the monad of file operations *)

(** One element of [db.users]: [{ expectedIp, updatedAt }]. *)
Record UserEntry : Type := mkUserEntry {
  expectedIp : string;
  updatedAt : string
}.

(** One element of [db.attendance], with the members written by the mark
    handler (server.js 369-379). *)
Record AttendanceRecord : Type := mkAttendanceRecord {
  timestamp : string;
  student_id : string;
  student_name : string;
  status : string;
  clientIp : string;
  allowedIp : jsval;
  isPrivate : bool;
  proxy : jsval;
  reason : string
}.

(** The object stored in [db.json].  A member is [None] when the parsed
    object lacks it ([db.users] and [db.attendance] are both tested for
    that by the code).  [db.users] is the map of the object's own members,
    from student ids to entries. *)
Record Db : Type := mkDb {
  users : option (gmap string UserEntry);
  attendance : option (list AttendanceRecord)
}.

(** The text of [db.json]: either text on which [JSON.parse] throws, or the
    [JSON.stringify] of a database object.  Every text the module writes is
    of the second kind; JSON texts of other values ([null], arrays,
    numbers) are never written by it and are not represented. *)
Inductive DbText : Type :=
  | DbGarbage
  | DbJson (d : Db).

(** A worksheet row is the list of its cell values from column 1 on; the
    rows of a worksheet are numbered from 1 in list order. *)
Definition Row : Type := list string.

Record Worksheet : Type := mkWorksheet {
  ws_name : string;
  ws_rows : list Row
}.

Definition Workbook : Type := list Worksheet.

(** The content of [attendance.xlsx]: bytes ExcelJS cannot load, or a
    workbook. *)
Inductive XlsxData : Type :=
  | XlsxGarbage
  | XlsxBook (wb : Workbook).

(** The file system as the server sees it.  [None] is a file that does not
    exist; a file that is not writable makes every write to it throw. *)
Record World : Type := mkWorld {
  db_file : option DbText;
  db_writable : bool;
  xlsx_file : option XlsxData;
  xlsx_writable : bool
}.

(** A thrown JavaScript [Error], with its message. *)
Inductive exn : Type :=
  | Error (message : string).

(** Computations over the file system that may throw. *)
Definition M (A : Type) : Type := World -> (exn + A) * World.

#[export] Instance M_ret : MRet M := fun A a w => (inr a, w).

#[export] Instance M_bind : MBind M := fun A B f m w =>
  match m w with
  | (inl e, w') => (inl e, w')
  | (inr a, w') => f a w'
  end.

Definition throw {A : Type} (e : exn) : M A := fun w => (inl e, w).

(** [try { body } catch (e) { handler e }] *)
Definition try_catch {A : Type} (body : M A) (handler : exn -> M A) : M A :=
  fun w =>
    match body w with
    | (inl e, w') => handler e w'
    | r => r
    end.

(** ** db.js *)

Module db.

Definition existsSync : M bool :=
  fun w => (inr (bool_decide (is_Some (db_file w))), w).

(** [fs.writeFileSync(DB_FILE, JSON.stringify(data, null, 2))] *)
Definition writeFileSync (data : Db) : M unit :=
  fun w =>
    if db_writable w
    then (inr tt, mkWorld (Some (DbJson data)) (db_writable w) (xlsx_file w) (xlsx_writable w))
    else (inl (Error "EACCES: permission denied, open 'db.json'"), w).

(** [fs.readFileSync(DB_FILE, 'utf-8')] *)
Definition readFileSync : M DbText :=
  fun w =>
    match db_file w with
    | Some t => (inr t, w)
    | None => (inl (Error "ENOENT: no such file or directory, open 'db.json'"), w)
    end.

Definition JSON_parse (data : DbText) : M Db :=
  match data with
  | DbJson d => mret d
  | DbGarbage => throw (Error "Unexpected token in JSON")
  end.

(** [{ users: {}, attendance: [] }] *)
Definition initialDb : Db := {| users := Some ∅; attendance := Some [] |}.

(** [loadDb()], db.js 10-25 *)
Definition loadDb : M Db :=
  try_catch
    (ex ← existsSync;
     if negb ex then
       writeFileSync initialDb;; mret initialDb
     else
       data ← readFileSync;
       JSON_parse data)
    (fun _ => mret initialDb).

(** [saveDb(data)], db.js 31-38 *)
Definition saveDb (data : Db) : M unit :=
  try_catch (writeFileSync data)
    (fun _ => throw (Error "Failed to save to database")).

(** [db.attendance.push(record)]: a [TypeError] when the object has no
    [attendance] member. *)
Definition push (d : Db) (record : AttendanceRecord) : M Db :=
  match attendance d with
  | Some l => mret {| users := users d; attendance := Some (l ++ [record]) |}
  | None => throw (Error "Cannot read properties of undefined (reading 'push')")
  end.

(** [addAttendance(record)], db.js 44-54 *)
Definition addAttendance (record : AttendanceRecord) : M unit :=
  try_catch
    (d ← loadDb;
     d' ← push d record;
     saveDb d')
    (fun error => throw error).

(** [getAttendanceForStudent(studentId)], db.js 61-69 *)
Definition getAttendanceForStudent (studentId : string) : M (list AttendanceRecord) :=
  try_catch
    (d ← loadDb;
     match attendance d with
     | Some l => mret (List.filter (fun record => String.eqb (student_id record) studentId) l)
     | None => throw (Error "Cannot read properties of undefined (reading 'filter')")
     end)
    (fun _ => mret []).

(** [users[key] = entry] on an object made by [JSON.parse] or by [{}],
    as [JSON.stringify] then sees it.  The name [__proto__] is special: when
    the object has no own member of that name, the assignment reaches the
    setter inherited from [Object.prototype], which replaces the prototype
    and creates no member, so the object is written out as it was.  When a
    parsed text did give the object an own member [__proto__], the
    assignment replaces that member like any other. *)
Definition assign (key : string) (entry : UserEntry) (us : gmap string UserEntry)
  : gmap string UserEntry :=
  if String.eqb key "__proto__" && negb (bool_decide (is_Some (us !! key)))
  then us
  else <[key := entry]> us.

(** [setExpectedIp(studentId, expectedIp)], db.js 76-89; [now] is the
    instant read by [new Date()]. *)
Definition setExpectedIp {rt : DateRuntime} (now : Instant) (studentId expectedIp : string)
  : M unit :=
  try_catch
    (d ← loadDb;
     let us := match users d with Some us => us | None => ∅ end in
     saveDb {| users := Some (assign studentId (mkUserEntry expectedIp (toISOString now)) us);
               attendance := attendance d |})
    (fun error => throw error).

(** [getExpectedIp(studentId)], db.js 96-107; [null] is the empty
    string. *)
Definition getExpectedIp (studentId : string) : M string :=
  try_catch
    (d ← loadDb;
     match users d with
     | None => mret ""
     | Some us =>
         match us !! studentId with
         | None => mret ""
         | Some u => mret (JsString.or (expectedIp u) "")
         end
     end)
    (fun _ => mret "").

(** [getAllAttendance()], db.js 113-121 *)
Definition getAllAttendance : M (list AttendanceRecord) :=
  try_catch
    (d ← loadDb;
     mret (match attendance d with Some l => l | None => [] end))
    (fun _ => mret []).

End db.

(** ** The ExcelJS operations used on attendance.xlsx *)

(** The library is used through five operations.  A workbook in the file
    system stands for what [readFile] returns on that file.  [getWorksheet]
    compares sheet names as they are written, [addWorksheet] compares them
    without regard to letter case; a [readFile] that throws leaves the
    workbook without sheets; the text of a cell is not always loaded back as
    it was written. *)

Module ExcelJS.

(** *** Cell text through a write and a read *)

(** The writer leaves out the control characters that XML cannot hold:
    every code unit below 32 other than TAB, LF and CR, and DEL. *)
Definition isDropped (a : ascii) : bool :=
  let n := nat_of_ascii a in
  ((n <=? 8) || (n =? 11) || (n =? 12) || (14 <=? n) && (n <=? 31) || (n =? 127))%nat.

Fixpoint dropControl (s : string) : string :=
  match s with
  | EmptyString => EmptyString
  | String a s' => if isDropped a then dropControl s' else String a (dropControl s')
  end.

(** The XML reader turns CR LF and a lone CR into LF. *)
Fixpoint normalizeEol (s : string) : string :=
  match s with
  | EmptyString => EmptyString
  | String a s' =>
      if Ascii.eqb a "013"
      then match s' with
           | String b _ => if Ascii.eqb b "010" then normalizeEol s'
                           else String "010" (normalizeEol s')
           | EmptyString => String "010" EmptyString
           end
      else String a (normalizeEol s')
  end.

(** A digit of an escape: 0-9 and A-F, capitals only. *)
Definition hexVal (a : ascii) : option nat :=
  let n := nat_of_ascii a in
  if ((48 <=? n) && (n <=? 57))%nat then Some (n - 48)%nat
  else if ((65 <=? n) && (n <=? 70))%nat then Some (n - 55)%nat
  else None.

(** The code unit named by an escape [_xHHHH_] at the head of [s].  The
    strings here hold code units below 256, so an escape of a larger one has
    no value in them and is not taken for an escape. *)
Definition escapeAt (s : string) : option ascii :=
  match s with
  | String u (String x (String h1 (String h2 (String h3 (String h4 (String v _)))))) =>
      if Ascii.eqb u "_" && Ascii.eqb x "x" && Ascii.eqb v "_"
      then match hexVal h1, hexVal h2, hexVal h3, hexVal h4 with
           | Some O, Some O, Some c, Some d => Some (ascii_of_nat (16 * c + d))
           | _, _, _, _ => None
           end
      else None
  | _ => None
  end.

(** The reader replaces every escape, from left to right and without
    overlap, by its code unit; [skip] counts the code units of an escape
    still to be passed over. *)
Fixpoint decodeEscapes (skip : nat) (s : string) : string :=
  match s with
  | EmptyString => EmptyString
  | String a s' =>
      match skip with
      | S k => decodeEscapes k s'
      | O =>
          match escapeAt s with
          | Some code => String code (decodeEscapes 6 s')
          | None => String a (decodeEscapes 0 s')
          end
      end
  end.

(** What is read back for a cell written with text [s]. *)
Definition storedText (s : string) : string :=
  decodeEscapes 0 (normalizeEol (dropControl s)).

(** The workbook that a written workbook is loaded back as. *)
Definition stored (wb : Workbook) : Workbook :=
  List.map (fun ws => mkWorksheet (ws_name ws) (List.map (List.map storedText) (ws_rows ws))) wb.

(** *** The operations *)

Definition existsSync : M bool :=
  fun w => (inr (bool_decide (is_Some (xlsx_file w))), w).

(** [workbook.xlsx.readFile(filePath)]: the sheets of the file, or a
    throw when the file is absent or cannot be loaded. *)
Definition readFile : M Workbook :=
  fun w =>
    match xlsx_file w with
    | Some (XlsxBook wb) => (inr wb, w)
    | Some XlsxGarbage => (inl (Error "Can't find end of central directory"), w)
    | None => (inl (Error "File not found: attendance.xlsx"), w)
    end.

(** [workbook.getWorksheet(name)]: the first sheet of that name *)
Definition getWorksheet (name : string) (wb : Workbook) : option Worksheet :=
  List.find (fun ws => String.eqb (ws_name ws) name) wb.

(** Whether a sheet of the workbook has this name up to letter case. *)
Definition nameTaken (name : string) (wb : Workbook) : bool :=
  existsb
    (fun ws => String.eqb (JsString.toLowerCase (ws_name ws)) (JsString.toLowerCase name))
    wb.

(** [workbook.addWorksheet(name)]: a new empty sheet after the others.  The
    library throws when a sheet of the workbook has the name already, letter
    case aside.  (It also refuses an empty name, the name History, a name
    with one of the characters * ? : \ / [ ] and a name that starts or ends
    with a single quote; the server passes the one name Attendance.) *)
Definition addWorksheet (name : string) (wb : Workbook) : exn + Workbook :=
  if nameTaken name wb
  then inl (Error ("Worksheet name already exists: " +:+ name))
  else inr (wb ++ [mkWorksheet name []]).

(** [worksheet.addRow(values)] on the sheet that [getWorksheet name]
    denotes: the row goes after the last row of that sheet. *)
Fixpoint addRow (name : string) (values : Row) (wb : Workbook) : Workbook :=
  match wb with
  | [] => []
  | ws :: rest =>
      if String.eqb (ws_name ws) name
      then mkWorksheet (ws_name ws) (ws_rows ws ++ [values]) :: rest
      else ws :: addRow name values rest
  end.

(** [workbook.xlsx.writeFile(filePath)] *)
Definition writeFile (wb : Workbook) : M unit :=
  fun w =>
    if xlsx_writable w
    then (inr tt,
          mkWorld (db_file w) (db_writable w) (Some (XlsxBook (stored wb))) (xlsx_writable w))
    else (inl (Error "EACCES: permission denied, open 'attendance.xlsx'"), w).

End ExcelJS.

(** ** Responses *)

(** One element of the array returned by [GET /api/attendance/records]. *)
Record ReportRow : Type := mkReportRow {
  id : string;
  name : string;
  date : string;
  time : string;
  ip : string;
  rstatus : string
}.

Inductive Body : Type :=
  | BObject (members : list (string * jsval))
  | BArray (rows : list ReportRow).

(** [res.status(code).json(body)]; [res.json(body)] has code 200. *)
Record Response : Type := mkResponse {
  http_status : Z;
  body : Body
}.

Definition json (code : Z) (members : list (string * jsval)) : Response :=
  mkResponse code (BObject members).

(** [x || null] on a string *)
Definition orNull (s : string) : jsval := if JsString.truthy s then JStr s else JNull.

(** ** POST /api/attendance/mark, server.js 159-418 *)

(** The header row, server.js 308-315. *)
Definition headerRow : Row := ["ID"; "Name"; "Date"; "Time"; "IP Address"; "Status"].

(** The [catch] block of server.js 302-331: add the sheet and its header
    row.  A throw of [addWorksheet] leaves the block. *)
Definition createAttendanceSheet (workbook : Workbook) : exn + Workbook :=
  match ExcelJS.addWorksheet "Attendance" workbook with
  | inr added => inr (ExcelJS.addRow "Attendance" headerRow added)
  | inl e => inl e
  end.

(** Server.js 289-331: the workbook after the inner [try]/[catch].  The
    local [workbook] starts empty; [readFile] fills it; the [catch] block
    runs when [readFile] throws (the workbook is then still empty) or when
    no sheet is named Attendance, and adds that sheet with its header. *)
Definition openAttendanceSheet : M Workbook :=
  fun w =>
    match ExcelJS.readFile w with
    | (inr workbook, w') =>
        match ExcelJS.getWorksheet "Attendance" workbook with
        | Some _ => (inr workbook, w')
        | None => (createAttendanceSheet workbook, w')
        end
    | (inl _, w') => (createAttendanceSheet [], w')
    end.

(** Server.js 289-356: open or create the sheet, add the data row, write
    the file. *)
Definition saveToExcel (dataRow : Row) : M unit :=
  workbook ← openAttendanceSheet;
  ExcelJS.writeFile (ExcelJS.addRow "Attendance" dataRow workbook).

(** The three readings of the system clock made by one request, in program
    order: the duplicate check (255), the Excel save (277) and the JSON
    save (368). *)
Record MarkClock : Type := mkMarkClock {
  t_today : Instant;
  t_excel : Instant;
  t_json : Instant
}.

(** Server.js 257-259: the first record of the student's history dated
    [today] with status Present. *)
Definition alreadyMarkedPresent (today : string) (attendanceToday : list AttendanceRecord)
  : option AttendanceRecord :=
  List.find
    (fun record =>
       String.eqb (JsString.slice0 10 (JsString.or (timestamp record) "")) today &&
       String.eqb (status record) "Present")
    attendanceToday.

Section Handlers.

Context {rt : DateRuntime}.
Variable cfg : Config.

Definition mark (clk : MarkClock) (req : Request) : M Response :=
  let student_id := body_student_id req in
  let student_name := body_student_name req in
  if negb (JsString.truthy student_id) || negb (JsString.truthy student_name) then
    mret (json 400 [("message", JStr "Student ID and name are required.");
                    ("success", JBool false)])
  else
  let clientIp := JsString.or (extractClientIp req) "" in
  if negb (JsString.truthy clientIp) then
    mret (json 400 [("message", JStr "Could not determine your IP address.");
                    ("success", JBool false)])
  else
  (* GET DATABASE RECORDS *)
  rules ← try_catch
    (e ← db.getExpectedIp student_id;
     mret (inr (JsString.or (JsString.or e (ALLOWED_IP cfg)) "",
                isPrivateIp clientIp, possibleProxy req)))
    (fun _ => mret (inl (json 500
       [("message", JStr "Database error. Could not retrieve student IP rules.");
        ("success", JBool false)])));
  match rules with
  | inl response => mret response
  | inr (allowedIp, isPrivate, proxy) =>
  (* ATTENDANCE LOGIC: nothing in this block throws, its catch is dead *)
  let '(status, reason) := attendanceLogic clientIp isPrivate allowedIp in
  (* PREVENT DUPLICATES *)
  duplicate ← try_catch
    (let today := JsString.slice0 10 (toISOString (t_today clk)) in
     attendanceToday ← db.getAttendanceForStudent student_id;
     match alreadyMarkedPresent today attendanceToday with
     | Some found =>
         if String.eqb status "Present" then
           mret (Some (json 200
             [("message", JStr ("Already marked present today (" +:+ timestamp found +:+ ")."));
              ("success", JBool true);
              ("alreadyMarked", JBool true);
              ("status", JStr "Present")]))
         else mret None
     | None => mret None
     end)
    (fun _ => mret None);
  match duplicate with
  | Some response => mret response
  | None =>
  (* SAVE TO EXCEL *)
  try_catch
    (let timestamp := t_excel clk in
     let dateStr := JsString.split0 "T" (toISOString timestamp) in
     let timeStr := toLocaleTimeString timestamp in
     saveToExcel [student_id; student_name; dateStr; timeStr; clientIp; status])
    (fun _ => mret tt);;
  (* SAVE TO JSON DATABASE *)
  failed ← try_catch
    (let timestamp := toISOString (t_json clk) in
     db.addAttendance
       (mkAttendanceRecord timestamp student_id student_name status clientIp
          (orNull allowedIp) isPrivate proxy reason);;
     mret None)
    (fun _ => mret (Some (json 500
       [("message", JStr "Server error saving attendance to database.");
        ("success", JBool false)])));
  match failed with
  | Some response => mret response
  | None =>
  (* SUCCESS RESPONSE *)
  mret (json 200
    [("message",
      JStr (if String.eqb status "Present"
            then "Successfully marked Present (IP matched: " +:+ clientIp +:+ ")."
            else "Marked Absent (IP " +:+ clientIp +:+ " does not match expected IP " +:+
                 JsString.or allowedIp "(none)" +:+ ")."));
     ("success", JBool true);
     ("status", JStr status);
     ("clientIp", JStr clientIp);
     ("expectedIp", orNull allowedIp);
     ("isPrivate", JBool isPrivate);
     ("proxy", proxy);
     ("reason", JStr reason)])
  end end end.

(** The response of the outer [catch] of the records handler, server.js
    645-653. *)
Definition internalError (message : string) (e : exn) : Response :=
  json 500
    ([("success", JBool false); ("message", JStr message)] ++
     if String.eqb (NODE_ENV cfg) "development"
     then [("error", JStr (let 'Error m := e in m))] else []).

Definition handle_mark (clk : MarkClock) (req : Request) (w : World) : Response * World :=
  match mark clk req w with
  | (inr response, w') => (response, w')
  | (inl e, w') =>
      (json 500
         ([("message", JStr "Internal server error. Please try again later.");
           ("success", JBool false)] ++
          if String.eqb (NODE_ENV cfg) "development"
          then [("error", JStr (let 'Error m := e in m))] else []), w')
  end.

End Handlers.

(** ** GET /api/attendance/records, server.js 547-654 *)

(** [values[k] ? String(values[k]).trim() : ''] for the 1-indexed
    [row.values]. *)
Definition cellText (values : Row) (k : nat) : string :=
  match nth_error values (k - 1) with
  | Some v => if JsString.truthy v then JsString.trim v else ""
  | None => ""
  end.

(** The body of the [eachRow] callback below the header test, server.js
    573-601: the record pushed for a row, if any. *)
Definition readRow (values : Row) : option ReportRow :=
  let id := cellText values 1 in
  let name := cellText values 2 in
  let date := cellText values 3 in
  let time := cellText values 4 in
  let ip := cellText values 5 in
  let status := cellText values 6 in
  if JsString.truthy id || JsString.truthy name
  then Some (mkReportRow id name date time ip status)
  else None.

(** [sheet.eachRow((row, rowNumber) => ...)] from row [rowNumber] on,
    pushing onto [records]. *)
Fixpoint eachRow (rowNumber : nat) (rows : list Row) (records : list ReportRow)
  : list ReportRow :=
  match rows with
  | [] => records
  | values :: rest =>
      eachRow (S rowNumber) rest
        (if Nat.eqb rowNumber 1 then records
         else match readRow values with
              | Some r => records ++ [r]
              | None => records
              end)
  end.

Section Records.

Context {rt : DateRuntime}.
Variable cfg : Config.

(** The callback of [getAllAttendance().map], server.js 608-638. *)
Definition fallbackRow (record : AttendanceRecord) : ReportRow :=
  let '(date, time) :=
    match Date_parse (timestamp record) with
    | Some dateObj =>
        (JsString.split0 "T" (toISOString dateObj), toLocaleTimeString dateObj)
    | None => (""%string, ""%string)
    end in
  mkReportRow (JsString.or (student_id record) "") (JsString.or (student_name record) "")
    date time (JsString.or (clientIp record) "") (JsString.or (status record) "").

(** Server.js 559-639: the value of [records] after the inner
    [try]/[catch]. *)
Definition fetchRecords : M (list ReportRow) :=
  try_catch
    (ex ← ExcelJS.existsSync;
     if ex : bool then
       workbook ← ExcelJS.readFile;
       match
         match ExcelJS.getWorksheet "Attendance" workbook with
         | Some sheet => Some sheet
         | None => head workbook
         end
       with
       | Some sheet => mret (eachRow 1 (ws_rows sheet) [])
       | None => mret (@nil ReportRow)
       end
     else mret (@nil ReportRow))
    (fun _ =>
       all ← db.getAllAttendance;
       mret (List.map fallbackRow all)).

Definition records (req : Request) : M Response :=
  let token := JsString.or (authorization req) "" in
  if negb (JsString.truthy (ADMIN_TOKEN cfg)) || negb (String.eqb token (ADMIN_TOKEN cfg)) then
    mret (json 401 [("success", JBool false); ("message", JStr "Unauthorized")])
  else
    rows ← fetchRecords;
    mret (mkResponse 200 (BArray rows)).

Definition handle_records (req : Request) (w : World) : Response * World :=
  match records req w with
  | (inr response, w') => (response, w')
  | (inl e, w') => (internalError cfg "Server error fetching records" e, w')
  end.

End Records.

(** ** Derived notions used to state the results *)

(** The database object every [loadDb()] returns in world [w]. *)
Definition currentDb (w : World) : Db :=
  match db_file w with
  | Some (DbJson d) => d
  | _ => db.initialDb
  end.

(** The world after a [loadDb()]: an absent [db.json] is created when the
    file can be written. *)
Definition afterLoad (w : World) : World :=
  match db_file w with
  | None =>
      if db_writable w
      then mkWorld (Some (DbJson db.initialDb)) (db_writable w) (xlsx_file w) (xlsx_writable w)
      else w
  | Some _ => w
  end.

(** The value of [getExpectedIp(studentId)] on a database object. *)
Definition expectedIpOf (d : Db) (studentId : string) : string :=
  match users d with
  | None => ""
  | Some us =>
      match us !! studentId with
      | None => ""
      | Some u => JsString.or (expectedIp u) ""
      end
  end.

(** The value of [getAttendanceForStudent(studentId)] on a database
    object. *)
Definition historyOf (d : Db) (studentId : string) : list AttendanceRecord :=
  match attendance d with
  | Some l => List.filter (fun record => String.eqb (student_id record) studentId) l
  | None => []
  end.

(** The workbook held by the mark handler when it adds the data row, or
    what [addWorksheet] threw. *)
Definition openedWorkbook (xf : option XlsxData) : exn + Workbook :=
  match xf with
  | Some (XlsxBook wb) =>
      match ExcelJS.getWorksheet "Attendance" wb with
      | Some _ => inr wb
      | None => createAttendanceSheet wb
      end
  | _ => createAttendanceSheet []
  end.

(** The world after the Excel block of the mark handler. *)
Definition afterExcel (dataRow : Row) (w : World) : World :=
  match openedWorkbook (xlsx_file w) with
  | inr workbook =>
      if xlsx_writable w
      then mkWorld (db_file w) (db_writable w)
             (Some (XlsxBook (ExcelJS.stored (ExcelJS.addRow "Attendance" dataRow workbook))))
             (xlsx_writable w)
      else w
  | inl _ => w
  end.

(** The workbook has a sheet that the Excel block can write to: one named
    Attendance, or room for one (no sheet whose name is Attendance in
    another letter case). *)
Definition sheetAvailable (xf : option XlsxData) : bool :=
  match xf with
  | Some (XlsxBook wb) =>
      match ExcelJS.getWorksheet "Attendance" wb with
      | Some _ => true
      | None => negb (ExcelJS.nameTaken "Attendance" wb)
      end
  | _ => true
  end.

(** The rows of the Attendance sheet as the Excel block finds or makes
    them, before the data row. *)
Definition rowsBefore (xf : option XlsxData) : list Row :=
  match xf with
  | Some (XlsxBook wb) =>
      match ExcelJS.getWorksheet "Attendance" wb with
      | Some located => ws_rows located
      | None => [headerRow]
      end
  | _ => [headerRow]
  end.

(** Text that a write and a read leave as it is: printable code units
    (32 to 126, and 160 to 255) and no underscore followed by [x]. *)
Definition plainChar (a : ascii) : bool :=
  let n := nat_of_ascii a in
  ((32 <=? n) && (n <=? 126) || (160 <=? n))%nat.

Fixpoint plainText (s : string) : bool :=
  match s with
  | EmptyString => true
  | String a s' =>
      plainChar a &&
      negb (Ascii.eqb a "_" && match s' with
                               | String b _ => Ascii.eqb b "x"
                               | EmptyString => false
                               end) &&
      plainText s'
  end.

Definition plainRow (values : Row) : bool := forallb plainText values.

Definition plainWorkbook (wb : Workbook) : bool :=
  forallb (fun ws => plainText (ws_name ws) && forallb plainRow (ws_rows ws)) wb.

(** The rows of the sheet that [getWorksheet('Attendance')] denotes. *)
Definition attendanceRows (wb : Workbook) : list Row :=
  match ExcelJS.getWorksheet "Attendance" wb with
  | Some sheet => ws_rows sheet
  | None => []
  end.

(** The three bodies sent by the mark handler once the request is valid. *)
Definition alreadyMarkedResponse (found : AttendanceRecord) : Response :=
  json 200
    [("message", JStr ("Already marked present today (" +:+ timestamp found +:+ ")."));
     ("success", JBool true);
     ("alreadyMarked", JBool true);
     ("status", JStr "Present")].

Definition saveErrorResponse : Response :=
  json 500
    [("message", JStr "Server error saving attendance to database.");
     ("success", JBool false)].

Definition successResponse (clientIp allowedIp : string) (isPrivate : bool) (proxy : jsval)
  (status reason : string) : Response :=
  json 200
    [("message",
      JStr (if String.eqb status "Present"
            then "Successfully marked Present (IP matched: " +:+ clientIp +:+ ")."
            else "Marked Absent (IP " +:+ clientIp +:+ " does not match expected IP " +:+
                 JsString.or allowedIp "(none)" +:+ ")."));
     ("success", JBool true);
     ("status", JStr status);
     ("clientIp", JStr clientIp);
     ("expectedIp", orNull allowedIp);
     ("isPrivate", JBool isPrivate);
     ("proxy", proxy);
     ("reason", JStr reason)].

(** The response to a request that fails validation (server.js 169-175)
    or address extraction (189-198). *)
Definition rejection (req : Request) : Response :=
  if negb (JsString.truthy (body_student_id req)) ||
     negb (JsString.truthy (body_student_name req))
  then json 400 [("message", JStr "Student ID and name are required.");
                 ("success", JBool false)]
  else json 400 [("message", JStr "Could not determine your IP address.");
                 ("success", JBool false)].

(** A member of a response object. *)
Definition member (key : string) (r : Response) : option jsval :=
  match body r with
  | BObject members => snd <$> List.find (fun kv => String.eqb (fst kv) key) members
  | BArray _ => None
  end.

(** The values a valid submission is decided on. *)
Record Decision : Type := mkDecision {
  d_clientIp : string;
  d_allowedIp : string;
  d_isPrivate : bool;
  d_proxy : jsval;
  d_status : string;
  d_reason : string
}.

Definition decide_submission (cfg : Config) (req : Request) (d : Db) : Decision :=
  let clientIp := extractClientIp req in
  let allowedIp := JsString.or (JsString.or (expectedIpOf d (body_student_id req)) (ALLOWED_IP cfg)) "" in
  let isPrivate := isPrivateIp clientIp in
  let sr := attendanceLogic clientIp isPrivate allowedIp in
  mkDecision clientIp allowedIp isPrivate (possibleProxy req) (fst sr) (snd sr).

(** The record and the row a non-suppressed submission stores. *)
Definition storedRecord {rt : DateRuntime} (clk : MarkClock) (req : Request) (dc : Decision)
  : AttendanceRecord :=
  mkAttendanceRecord (toISOString (t_json clk)) (body_student_id req) (body_student_name req)
    (d_status dc) (d_clientIp dc) (orNull (d_allowedIp dc)) (d_isPrivate dc) (d_proxy dc)
    (d_reason dc).

Definition storedRow {rt : DateRuntime} (clk : MarkClock) (req : Request) (dc : Decision) : Row :=
  [body_student_id req; body_student_name req;
   JsString.split0 "T" (toISOString (t_excel clk)); toLocaleTimeString (t_excel clk);
   d_clientIp dc; d_status dc].

(** A request that passes validation and address extraction. *)
Definition accepted (req : Request) : bool :=
  JsString.truthy (body_student_id req) && JsString.truthy (body_student_name req) &&
  JsString.truthy (extractClientIp req).

(** The history guard: the record that suppresses the submission, if any. *)
Definition suppressedBy {rt : DateRuntime} (clk : MarkClock) (req : Request) (dc : Decision) (d : Db)
  : option AttendanceRecord :=
  match alreadyMarkedPresent (JsString.slice0 10 (toISOString (t_today clk)))
          (historyOf d (body_student_id req)) with
  | Some found => if String.eqb (d_status dc) "Present" then Some found else None
  | None => None
  end.

(** The world after the JSON block appended [record]. *)
Definition afterAppend (record : AttendanceRecord) (l : list AttendanceRecord) (w : World)
  : World :=
  mkWorld (Some (DbJson (mkDb (users (currentDb w)) (Some (l ++ [record])))))
    (db_writable w) (xlsx_file w) (xlsx_writable w).

(** Response and final world of an accepted submission. *)
Definition markOutcome {rt : DateRuntime} (cfg : Config) (clk : MarkClock) (req : Request) (w : World) : Response * World :=
  let d := currentDb w in
  let dc := decide_submission cfg req d in
  match suppressedBy clk req dc d with
  | Some found => (alreadyMarkedResponse found, afterLoad w)
  | None =>
      let w1 := afterExcel (storedRow clk req dc) (afterLoad w) in
      match attendance d with
      | Some l =>
          if db_writable w
          then (successResponse (d_clientIp dc) (d_allowedIp dc) (d_isPrivate dc)
                  (d_proxy dc) (d_status dc) (d_reason dc),
                afterAppend (storedRecord clk req dc) l w1)
          else (saveErrorResponse, w1)
      | None => (saveErrorResponse, w1)
      end
  end.

(** The registry of a database object, with [{}] for a missing member. *)
Definition usersOf (d : Db) : gmap string UserEntry :=
  match users d with
  | Some us => us
  | None => ∅
  end.

(** What the guard looks for in the stored records: a record of the
    student, dated [today], with status Present. *)
Definition presentOn (today studentId : string) (r : AttendanceRecord) : Prop :=
  student_id r = studentId /\
  JsString.slice0 10 (timestamp r) = today /\
  status r = "Present".

(** The sheet [getWorksheet('Attendance') || worksheets[0]]. *)
Definition reportSheet (wb : Workbook) : option Worksheet :=
  match ExcelJS.getWorksheet "Attendance" wb with
  | Some sheet => Some sheet
  | None => head wb
  end.

(** ** Sample data *)

Module Sample.

(** A server five and a half hours east of UTC. *)
Definition rt : DateRuntime := FixedOffset.runtime 330.

Definition cfg : Config := mkConfig "" "admin" "".

(** 2024-01-01T23:30:00.000Z and the two later readings of one request. *)
Definition clk : MarkClock := mkMarkClock 1704151800000 1704151800005 1704151800010.

Definition registry : gmap string UserEntry :=
  {[ "U002"%string := mkUserEntry "203.0.113.9" "2024-01-01T09:00:00.000Z" ]}.

Definition present : AttendanceRecord :=
  mkAttendanceRecord "2024-01-01T08:15:00.000Z" "U002" "Ada" "Present" "203.0.113.9"
    (JStr "203.0.113.9") false (JStr "") "ip_matched".

(** Nothing stored yet, both files writable. *)
Definition fresh : World := mkWorld None true None true.

(** U002 registered, no attendance yet. *)
Definition registered : World :=
  mkWorld (Some (DbJson (mkDb (Some registry) (Some [])))) true None true.

(** U002 registered and already present today. *)
Definition marked : World :=
  mkWorld (Some (DbJson (mkDb (Some registry) (Some [present])))) true None true.

(** As [registered], with attendance.xlsx not writable. *)
Definition readonly_xlsx : World :=
  mkWorld (Some (DbJson (mkDb (Some registry) (Some [])))) true None false.

(** As [marked]: records in db.json, attendance.xlsx deleted. *)
Definition deleted_xlsx : World := marked.

(** As [marked], with bytes in attendance.xlsx that ExcelJS cannot load. *)
Definition corrupt_xlsx : World :=
  mkWorld (Some (DbJson (mkDb (Some registry) (Some [present])))) true (Some XlsxGarbage) true.

(** The Present row of today is in attendance.xlsx only; db.json has no
    attendance record. *)
Definition xlsx_only : World :=
  mkWorld (Some (DbJson (mkDb (Some registry) (Some [])))) true
    (Some (XlsxBook
             [mkWorksheet "Attendance"
                [["ID"; "Name"; "Date"; "Time"; "IP Address"; "Status"];
                 ["U002"; "Ada"; "2024-01-01"; "13:45:00"; "203.0.113.9"; "Present"]]]))
    true.

(** As [registered], with an attendance.xlsx whose sheet was renamed to
    lower case. *)
Definition renamed_sheet : World :=
  mkWorld (Some (DbJson (mkDb (Some registry) (Some [])))) true
    (Some (XlsxBook
             [mkWorksheet "attendance"
                [["ID"; "Name"; "Date"; "Time"; "IP Address"; "Status"];
                 ["U001"; "Grace"; "2023-12-31"; "09:00:00"; "198.51.100.7"; "Absent"]]]))
    true.

Definition ada : Request := mkRequest "U002" "Ada" "203.0.113.9" "" "" "admin".

(** The same student from another address. *)
Definition ada_elsewhere : Request := mkRequest "U002" "Ada" "198.51.100.7" "" "" "admin".

(** A display name with a leading blank. *)
Definition padded : Request := mkRequest "U002" " Ada" "203.0.113.9" "" "" "admin".

(** A display name that ends with the escape of the letter A. *)
Definition escaped : Request := mkRequest "U002" "Ada_x0041_" "203.0.113.9" "" "" "admin".

End Sample.

(** ** The other routes of server.js *)

(** GET /api/my-ip, server.js 421-444.  Nothing in its [try] block throws
    and it reads no file. *)
Definition my_ip (req : Request) : Response :=
  let clientIp := JsString.or (extractClientIp req) "(unknown)" in
  let isPrivate := isPrivateIp clientIp in
  let possibleProxyChain := possibleProxy req in
  json 200
    [("success", JBool true);
     ("clientIp", JStr clientIp);
     ("isPrivate", JBool isPrivate);
     ("possibleProxy", possibleProxyChain);
     ("note", JStr (if isPrivate then "You are on a private/local network"
                    else "You are on a public network"))].

(** The parts of a request that POST /api/set-expected-ip reads: the
    authorization header, the [token] query parameter and the two body
    members. *)
Record SetRequest : Type := mkSetRequest {
  set_authorization : string;
  set_query_token : string;
  set_student_id : string;
  set_expected_ip : string
}.

(** What GET /api/attendance/download sends: a JSON answer, or the file
    under a download name. *)
Inductive DownloadResult : Type :=
  | SendJson (response : Response)
  | SendFile (filename : string) (content : XlsxData).

Section AdminRoutes.

Context {rt : DateRuntime}.
Variable cfg : Config.

(** GET /api/expected-ip/:studentId, server.js 447-470 *)
Definition expected_ip (studentId : string) : M Response :=
  if negb (JsString.truthy studentId) then
    mret (json 400 [("success", JBool false); ("message", JStr "Student ID is required")])
  else
    ip ← db.getExpectedIp studentId;
    mret (json 200
      [("success", JBool true);
       ("studentId", JStr studentId);
       ("expectedIp", orNull ip)]).

Definition handle_expected_ip (studentId : string) (w : World) : Response * World :=
  match expected_ip studentId w with
  | (inr response, w') => (response, w')
  | (inl e, w') => (internalError cfg "Server error retrieving expected IP" e, w')
  end.

(** POST /api/set-expected-ip, server.js 473-508; [now] is the instant
    read by [setExpectedIp]. *)
Definition set_expected_ip_route (now : Instant) (req : SetRequest) : M Response :=
  let token := JsString.or (JsString.or (set_authorization req) (set_query_token req)) "" in
  if negb (JsString.truthy (ADMIN_TOKEN cfg)) || negb (String.eqb token (ADMIN_TOKEN cfg)) then
    mret (json 401 [("success", JBool false); ("message", JStr "Unauthorized")])
  else
  let student_id := set_student_id req in
  let expected_ip := set_expected_ip req in
  if negb (JsString.truthy student_id) || negb (JsString.truthy expected_ip) then
    mret (json 400 [("success", JBool false);
                    ("message", JStr "student_id and expected_ip are required")])
  else
    db.setExpectedIp now student_id expected_ip;;
    mret (json 200
      [("success", JBool true);
       ("message", JStr "Expected IP saved successfully");
       ("student_id", JStr student_id);
       ("expected_ip", JStr expected_ip)]).

Definition handle_set_expected_ip (now : Instant) (req : SetRequest) (w : World)
  : Response * World :=
  match set_expected_ip_route now req w with
  | (inr response, w') => (response, w')
  | (inl e, w') => (internalError cfg "Server error saving expected IP" e, w')
  end.

(** GET /api/attendance/download, server.js 511-544; [res.download] sends
    the bytes of the file as they are. *)
Definition download (query_token authorization_header : string) : M DownloadResult :=
  let token := JsString.or (JsString.or query_token authorization_header) "" in
  if negb (JsString.truthy (ADMIN_TOKEN cfg)) || negb (String.eqb token (ADMIN_TOKEN cfg)) then
    mret (SendJson (json 401 [("success", JBool false); ("message", JStr "Unauthorized")]))
  else
    fun w =>
      match xlsx_file w with
      | None =>
          (inr (SendJson (json 404 [("success", JBool false);
                                    ("message", JStr "No attendance records yet")])), w)
      | Some content => (inr (SendFile "attendance.xlsx" content), w)
      end.

Definition handle_download (query_token authorization_header : string) (w : World)
  : DownloadResult * World :=
  match download query_token authorization_header w with
  | (inr result, w') => (result, w')
  | (inl e, w') => (SendJson (internalError cfg "Server error downloading file" e), w')
  end.

End AdminRoutes.

(** The admin test shared by the three protected routes, server.js 477,
    515 and 551: [!(!ADMIN_TOKEN || token !== ADMIN_TOKEN)]. *)
Definition authorized (cfg : Config) (token : string) : bool :=
  JsString.truthy (ADMIN_TOKEN cfg) && String.eqb token (ADMIN_TOKEN cfg).

(** The token each route tests: header then query for set-expected-ip,
    query then header for download, header alone for records. *)
Definition setToken (req : SetRequest) : string :=
  JsString.or (JsString.or (set_authorization req) (set_query_token req)) "".

Definition downloadToken (query_token authorization_header : string) : string :=
  JsString.or (JsString.or query_token authorization_header) "".

Definition recordsToken (req : Request) : string :=
  JsString.or (authorization req) "".

Definition unauthorizedResponse : Response :=
  json 401 [("success", JBool false); ("message", JStr "Unauthorized")].

(** ** The form of public/js/app.js *)

(** The request sent by the submit handler, app.js 16-31: the two input
    values are trimmed and posted as JSON, with no authorization header.  The
    address fields are what the server sees of the connection. *)
Definition submitForm (idValue nameValue : string)
  (forwarded socketAddress connectionAddress : string) : Request :=
  let studentId := JsString.trim idValue in
  let studentName := JsString.trim nameValue in
  mkRequest studentId studentName forwarded socketAddress connectionAddress "".

(** [showToast(message, type)], app.js 3-14: the text the toast gets and
    its class; every type other than ['error'] is shown as a success. *)
Record Toast : Type := mkToast {
  textContent : option jsval;
  toastClass : string
}.

Definition showToast (message : option jsval) (type : string) : Toast :=
  mkToast message (if String.eqb type "error" then "error" else "success").

(** [response.ok]: a status from 200 to 299. *)
Definition response_ok (r : Response) : bool :=
  (200 <=? http_status r) && (http_status r <=? 299).

(** Lines 26-27 of the submit handler: the toast shown for an answer. *)
Definition submitToast (r : Response) : Toast :=
  showToast (member "message" r) (if response_ok r then "success" else "error").

(** ** Dotted-decimal addresses *)

(** The decimal numeral of an octet, without leading zeros. *)
Definition octet (n : Z) : string :=
  if n <? 10 then String (FixedOffset.digit n) EmptyString
  else if n <? 100 then
    String (FixedOffset.digit (n / 10)) (String (FixedOffset.digit n) EmptyString)
  else
    String (FixedOffset.digit (n / 100))
      (String (FixedOffset.digit (n / 10)) (String (FixedOffset.digit n) EmptyString)).

(** The text [a.b.c.d]. *)
Definition dottedQuad (a b c d : Z) : string :=
  octet a +:+ "." +:+ octet b +:+ "." +:+ octet c +:+ "." +:+ octet d.

(** The private-use ranges 10.0.0.0/8, 172.16.0.0/12 and 192.168.0.0/16,
    and the one loopback address 127.0.0.1. *)
Definition inPrivateRange (a b c d : Z) : bool :=
  (a =? 10) ||
  ((a =? 172) && (16 <=? b) && (b <=? 31)) ||
  ((a =? 192) && (b =? 168)) ||
  ((a =? 127) && (b =? 0) && (c =? 0) && (d =? 1)).

(** ** The at-most-one-Present invariant *)

(** No two records of the list are Present records of one student dated
    the same day (same first ten characters of the timestamp). *)
Definition presentOncePerDay (l : list AttendanceRecord) : Prop :=
  forall i j r1 r2,
    l !! i = Some r1 -> l !! j = Some r2 ->
    student_id r1 = student_id r2 ->
    JsString.slice0 10 (timestamp r1) = JsString.slice0 10 (timestamp r2) ->
    status r1 = "Present" -> status r2 = "Present" ->
    i = j.

(** The attendance list of a world, empty when the member is missing. *)
Definition attendanceOf (w : World) : list AttendanceRecord :=
  match attendance (currentDb w) with
  | Some l => l
  | None => []
  end.

(** ** The mark handler between its [await]s *)

(** The handler is an [async] function: it runs without interruption up to
    an [await], and other requests can run before it goes on.  It awaits
    twice, [readFile] (server.js 295) and [writeFile] (356); everything else
    it calls, the functions of db.js included, is synchronous.  A request
    that waits keeps its local variables.  The awaited file operation is
    taken to act at the moment the handler goes on. *)
Inductive MarkTask : Type :=
  | Answered (response : Response)
  | AtReadFile (dc : Decision)
  | AtWriteFile (dc : Decision) (workbook : Workbook).

Section Stages.

Context {rt : DateRuntime}.
Variable cfg : Config.

(** Server.js 159-295: from the start of the handler to the call of
    [readFile]. *)
Definition mark_begin (clk : MarkClock) (req : Request) : M MarkTask :=
  let student_id := body_student_id req in
  let student_name := body_student_name req in
  if negb (JsString.truthy student_id) || negb (JsString.truthy student_name) then
    mret (Answered (json 400 [("message", JStr "Student ID and name are required.");
                              ("success", JBool false)]))
  else
  let clientIp := JsString.or (extractClientIp req) "" in
  if negb (JsString.truthy clientIp) then
    mret (Answered (json 400 [("message", JStr "Could not determine your IP address.");
                              ("success", JBool false)]))
  else
  rules ← try_catch
    (e ← db.getExpectedIp student_id;
     mret (inr (JsString.or (JsString.or e (ALLOWED_IP cfg)) "",
                isPrivateIp clientIp, possibleProxy req)))
    (fun _ => mret (inl (json 500
       [("message", JStr "Database error. Could not retrieve student IP rules.");
        ("success", JBool false)])));
  match rules with
  | inl response => mret (Answered response)
  | inr (allowedIp, isPrivate, proxy) =>
  let '(status, reason) := attendanceLogic clientIp isPrivate allowedIp in
  duplicate ← try_catch
    (let today := JsString.slice0 10 (toISOString (t_today clk)) in
     attendanceToday ← db.getAttendanceForStudent student_id;
     match alreadyMarkedPresent today attendanceToday with
     | Some found =>
         if String.eqb status "Present" then
           mret (Some (json 200
             [("message", JStr ("Already marked present today (" +:+ timestamp found +:+ ")."));
              ("success", JBool true);
              ("alreadyMarked", JBool true);
              ("status", JStr "Present")]))
         else mret None
     | None => mret None
     end)
    (fun _ => mret None);
  match duplicate with
  | Some response => mret (Answered response)
  | None => mret (AtReadFile (mkDecision clientIp allowedIp isPrivate proxy status reason))
  end
  end.

(** Server.js 366-405: the JSON save and the answer. *)
Definition mark_finish (clk : MarkClock) (req : Request) (dc : Decision) : M MarkTask :=
  failed ← try_catch
    (db.addAttendance (storedRecord clk req dc);;
     mret None)
    (fun _ => mret (Some saveErrorResponse));
  match failed with
  | Some response => mret (Answered response)
  | None =>
      mret (Answered (successResponse (d_clientIp dc) (d_allowedIp dc) (d_isPrivate dc)
                        (d_proxy dc) (d_status dc) (d_reason dc)))
  end.

(** Server.js 295-356: [readFile] has settled; the sheet is found or made
    and the data row added, up to the call of [writeFile].  When
    [addWorksheet] throws, the [catch] at 359 logs it and the handler goes
    on to the JSON save at once. *)
Definition mark_afterRead (clk : MarkClock) (req : Request) (dc : Decision) : M MarkTask :=
  opened ← try_catch
    (workbook ← openAttendanceSheet;
     mret (Some (ExcelJS.addRow "Attendance" (storedRow clk req dc) workbook)))
    (fun _ => mret None);
  match opened with
  | Some workbook => mret (AtWriteFile dc workbook)
  | None => mark_finish clk req dc
  end.

(** Server.js 356-405: [writeFile] has settled, with the file written or
    with a throw that the [catch] at 359 logs; then the JSON save and the
    answer. *)
Definition mark_afterWrite (clk : MarkClock) (req : Request) (dc : Decision)
  (workbook : Workbook) : M MarkTask :=
  try_catch (ExcelJS.writeFile workbook) (fun _ => mret tt);;
  mark_finish clk req dc.

(** The handler goes on from where it waits. *)
Definition resume (clk : MarkClock) (req : Request) (task : MarkTask) : M MarkTask :=
  match task with
  | Answered response => mret (Answered response)
  | AtReadFile dc => mark_afterRead clk req dc
  | AtWriteFile dc workbook => mark_afterWrite clk req dc workbook
  end.

(** One request served with no other request in between. *)
Definition runAlone (clk : MarkClock) (req : Request) : M MarkTask :=
  first ← mark_begin clk req;
  second ← resume clk req first;
  resume clk req second.

(** The same request sent twice, the second one arriving while the first
    waits for [readFile], and the two going on in turn. *)
Definition runOverlapped (clk1 clk2 : MarkClock) (req : Request) : M (MarkTask * MarkTask) :=
  a1 ← mark_begin clk1 req;
  b1 ← mark_begin clk2 req;
  a2 ← resume clk1 req a1;
  b2 ← resume clk2 req b1;
  a3 ← resume clk1 req a2;
  b3 ← resume clk2 req b2;
  mret (a3, b3).

End Stages.

(** ** Running the monad *)

Lemma bind_run {A B : Type} (m : M A) (f : A -> M B) (w : World) :
  (m ≫= f) w =
  match m w with
  | (inl e, w') => (inl e, w')
  | (inr a, w') => f a w'
  end.
Proof. reflexivity. Qed.

Lemma try_catch_run {A : Type} (body : M A) (handler : exn -> M A) (w : World) :
  try_catch body handler w =
  match body w with
  | (inl e, w') => handler e w'
  | r => r
  end.
Proof. reflexivity. Qed.

Lemma or_empty_r (s : string) : JsString.or s "" = s.
Proof. destruct s; reflexivity. Qed.

Lemma truthy_true (s : string) : JsString.truthy s = true <-> s <> EmptyString.
Proof. destruct s; cbn; split; intros; congruence. Qed.

(** ** db.js, step by step *)

Lemma loadDb_run (w : World) : db.loadDb w = (inr (currentDb w), afterLoad w).
Proof.
  destruct w as [[[|d]|] [] xf xw]; reflexivity.
Qed.

Lemma afterLoad_idem (w : World) : afterLoad (afterLoad w) = afterLoad w.
Proof. destruct w as [[[|d]|] [] xf xw]; reflexivity. Qed.

Lemma currentDb_afterLoad (w : World) : currentDb (afterLoad w) = currentDb w.
Proof. destruct w as [[[|d]|] [] xf xw]; reflexivity. Qed.

Lemma getExpectedIp_run (studentId : string) (w : World) :
  db.getExpectedIp studentId w = (inr (expectedIpOf (currentDb w) studentId), afterLoad w).
Proof.
  unfold db.getExpectedIp. rewrite try_catch_run, bind_run, loadDb_run.
  unfold expectedIpOf. destruct (users (currentDb w)) as [us|]; [|reflexivity].
  destruct (us !! studentId); reflexivity.
Qed.

Lemma getAttendanceForStudent_run (studentId : string) (w : World) :
  db.getAttendanceForStudent studentId w = (inr (historyOf (currentDb w) studentId), afterLoad w).
Proof.
  unfold db.getAttendanceForStudent. rewrite try_catch_run, bind_run, loadDb_run.
  unfold historyOf. destruct (attendance (currentDb w)); reflexivity.
Qed.

Lemma getAllAttendance_run (w : World) :
  db.getAllAttendance w =
  (inr (match attendance (currentDb w) with Some l => l | None => [] end), afterLoad w).
Proof.
  unfold db.getAllAttendance. rewrite try_catch_run, bind_run, loadDb_run. reflexivity.
Qed.

Lemma addAttendance_run (record : AttendanceRecord) (w : World) :
  db.addAttendance record w =
  match attendance (currentDb w) with
  | Some l =>
      if db_writable w
      then (inr tt,
            mkWorld (Some (DbJson (mkDb (users (currentDb w)) (Some (l ++ [record])))))
              (db_writable w) (xlsx_file w) (xlsx_writable w))
      else (inl (Error "Failed to save to database"), w)
  | None =>
      (inl (Error "Cannot read properties of undefined (reading 'push')"), afterLoad w)
  end.
Proof.
  unfold db.addAttendance. rewrite try_catch_run, bind_run, loadDb_run.
  rewrite bind_run. unfold db.push.
  destruct (attendance (currentDb w)) as [l|]; [|reflexivity].
  destruct w as [[[|d]|] [] xf xw]; reflexivity.
Qed.

Lemma setExpectedIp_run {rt : DateRuntime} (now : Instant) (studentId ip : string) (w : World) :
  db.setExpectedIp now studentId ip w =
  let d := currentDb w in
  let us := match users d with Some us => us | None => ∅ end in
  if db_writable w
  then (inr tt,
        mkWorld
          (Some (DbJson (mkDb (Some (db.assign studentId (mkUserEntry ip (toISOString now)) us))
                           (attendance d))))
          (db_writable w) (xlsx_file w) (xlsx_writable w))
  else (inl (Error "Failed to save to database"), w).
Proof.
  unfold db.setExpectedIp. rewrite try_catch_run, bind_run, loadDb_run.
  destruct w as [[[|d]|] [] xf xw]; reflexivity.
Qed.

(** ** The Excel block, step by step *)

Lemma openAttendanceSheet_run (w : World) :
  openAttendanceSheet w = (openedWorkbook (xlsx_file w), w).
Proof.
  unfold openAttendanceSheet, openedWorkbook, ExcelJS.readFile.
  destruct (xlsx_file w) as [[|wb]|]; try reflexivity.
  destruct (ExcelJS.getWorksheet "Attendance" wb); reflexivity.
Qed.

Lemma saveToExcel_run (dataRow : Row) (w : World) :
  saveToExcel dataRow w =
  match openedWorkbook (xlsx_file w) with
  | inr _ =>
      if xlsx_writable w
      then (inr tt, afterExcel dataRow w)
      else (inl (Error "EACCES: permission denied, open 'attendance.xlsx'"), w)
  | inl e => (inl e, w)
  end.
Proof.
  unfold saveToExcel. rewrite bind_run, openAttendanceSheet_run.
  unfold ExcelJS.writeFile, afterExcel.
  destruct (openedWorkbook (xlsx_file w)); [reflexivity|].
  destruct (xlsx_writable w); reflexivity.
Qed.

(** The Excel block inside its [try]/[catch], server.js 276-364: whatever
    it throws is logged, and the handler goes on in the world the block
    left. *)
Lemma saveToExcel_caught (dataRow : Row) (w : World) :
  try_catch (saveToExcel dataRow) (fun _ => mret tt) w = (inr tt, afterExcel dataRow w).
Proof.
  rewrite try_catch_run, saveToExcel_run. unfold afterExcel.
  destruct (openedWorkbook (xlsx_file w)); [reflexivity|].
  destruct (xlsx_writable w); reflexivity.
Qed.

(** ** The mark handler, step by step *)

Section MarkRun.

Context {rt : DateRuntime}.
Variable cfg : Config.

Lemma afterExcel_db (row : Row) (w : World) :
  db_file (afterExcel row w) = db_file w /\
  db_writable (afterExcel row w) = db_writable w.
Proof.
  unfold afterExcel.
  destruct (openedWorkbook (xlsx_file w)); [|destruct (xlsx_writable w)]; split; reflexivity.
Qed.

Lemma currentDb_afterExcel (row : Row) (w : World) :
  currentDb (afterExcel row w) = currentDb w.
Proof. unfold currentDb. destruct (afterExcel_db row w) as [-> _]. reflexivity. Qed.

Lemma afterLoad_afterExcel (row : Row) (w : World) :
  afterLoad (afterExcel row (afterLoad w)) = afterExcel row (afterLoad w).
Proof.
  unfold afterExcel.
  destruct (openedWorkbook (xlsx_file (afterLoad w))); [apply afterLoad_idem|].
  destruct (xlsx_writable (afterLoad w)); [|apply afterLoad_idem].
  destruct w as [[[|d]|] [] xf xw]; reflexivity.
Qed.

Lemma db_writable_afterLoad (w : World) : db_writable (afterLoad w) = db_writable w.
Proof. destruct w as [[[|d]|] [] xf xw]; reflexivity. Qed.

Lemma mark_run (clk : MarkClock) (req : Request) (w : World) :
  accepted req = true ->
  mark cfg clk req w = (inr (fst (markOutcome cfg clk req w)), snd (markOutcome cfg clk req w)).
Proof.
  unfold accepted. rewrite !andb_true_iff. intros [[Hid Hname] Hip].
  unfold mark, markOutcome. rewrite Hid, Hname. cbn [negb orb].
  rewrite or_empty_r, Hip. cbn [negb].
  rewrite bind_run, try_catch_run, bind_run, getExpectedIp_run.
  cbn [mret M_ret].
  unfold suppressedBy, decide_submission, storedRecord, storedRow.
  cbn [d_clientIp d_allowedIp d_isPrivate d_proxy d_status d_reason].
  rewrite !or_empty_r.
  destruct (attendanceLogic _ _ _) as [status0 reason0]. cbn [fst snd].
  rewrite bind_run, try_catch_run, bind_run, getAttendanceForStudent_run.
  rewrite afterLoad_idem, currentDb_afterLoad.
  assert (Htail : forall row record (k : option Response -> M Response),
    (try_catch (saveToExcel row) (fun _ => mret tt) ≫= fun _ : () =>
     try_catch (db.addAttendance record ≫= fun _ : () => mret None)
       (fun _ => mret (Some saveErrorResponse)) ≫= k) (afterLoad w) =
    let w1 := afterExcel row (afterLoad w) in
    match attendance (currentDb w) with
    | Some l =>
        if db_writable w then k None (afterAppend record l w1)
        else k (Some saveErrorResponse) w1
    | None => k (Some saveErrorResponse) w1
    end).
  { intros row record k.
    rewrite bind_run, saveToExcel_caught.
    rewrite bind_run, try_catch_run, bind_run, addAttendance_run. unfold afterAppend.
    rewrite afterLoad_afterExcel, !currentDb_afterExcel, !currentDb_afterLoad.
    destruct (afterExcel_db row (afterLoad w)) as [_ ->].
    rewrite !db_writable_afterLoad. cbn zeta.
    destruct (attendance (currentDb w)); [destruct (db_writable w)|]; reflexivity. }
  unfold successResponse.
  destruct (alreadyMarkedPresent _ _) as [found|];
    [destruct (String.eqb status0 "Present") eqn:Hst|]; cbn [mret M_ret];
    try reflexivity;
    (etransitivity; [apply Htail|]); cbn zeta;
    (destruct (attendance (currentDb w)); [destruct (db_writable w)|]); reflexivity.
Qed.

Lemma handle_mark_accepted (clk : MarkClock) (req : Request) (w : World) :
  accepted req = true ->
  handle_mark cfg clk req w = markOutcome cfg clk req w.
Proof.
  intros Hacc. unfold handle_mark. rewrite (mark_run clk req w Hacc).
  destruct (markOutcome cfg clk req w); reflexivity.
Qed.

Lemma mark_rejected_run (clk : MarkClock) (req : Request) (w : World) :
  accepted req = false ->
  mark cfg clk req w = (inr (rejection req), w).
Proof.
  unfold accepted, mark, rejection. intros Hacc.
  destruct (JsString.truthy (body_student_id req)); [|reflexivity].
  destruct (JsString.truthy (body_student_name req)); [|reflexivity].
  cbn [negb orb andb] in *. rewrite or_empty_r, Hacc. reflexivity.
Qed.

Lemma handle_mark_rejected (clk : MarkClock) (req : Request) (w : World) :
  accepted req = false ->
  handle_mark cfg clk req w = (rejection req, w).
Proof.
  intros Hacc. unfold handle_mark. rewrite (mark_rejected_run clk req w Hacc). reflexivity.
Qed.

(** Every inner block of the handler catches what it throws, so the outer
    [catch] (server.js 406-417) is never entered. *)
Lemma mark_never_throws (clk : MarkClock) (req : Request) (w : World) :
  exists response w', mark cfg clk req w = (inr response, w').
Proof.
  destruct (accepted req) eqn:Hacc.
  - rewrite (mark_run clk req w Hacc). eauto.
  - rewrite (mark_rejected_run clk req w Hacc). eauto.
Qed.

(** The handler as a total function of the request and the world. *)
Lemma handle_mark_run (clk : MarkClock) (req : Request) (w : World) :
  handle_mark cfg clk req w =
  if accepted req then markOutcome cfg clk req w else (rejection req, w).
Proof.
  destruct (accepted req) eqn:Hacc;
    [apply handle_mark_accepted | apply handle_mark_rejected]; assumption.
Qed.

(** The response never depends on attendance.xlsx: neither the rules nor
    the duplicate check read it, and a failed write to it is only
    logged. *)
Lemma handle_mark_response_ignores_xlsx (clk : MarkClock) (req : Request) (w : World)
  (xf : option XlsxData) (xw : bool) :
  fst (handle_mark cfg clk req (mkWorld (db_file w) (db_writable w) xf xw)) =
  fst (handle_mark cfg clk req w).
Proof.
  rewrite !handle_mark_run. destruct (accepted req); [|reflexivity].
  unfold markOutcome, currentDb. cbn [db_file db_writable].
  destruct (suppressedBy _ _ _ _); [reflexivity|].
  destruct (attendance _); [destruct (db_writable w)|]; reflexivity.
Qed.

End MarkRun.

(** ** The decision rules *)

Lemma attendanceLogic_status (clientIp : string) (isPrivate : bool) (allowedIp : string) :
  fst (attendanceLogic clientIp isPrivate allowedIp) = "Present" <->
  snd (attendanceLogic clientIp isPrivate allowedIp) = "ip_matched".
Proof.
  unfold attendanceLogic.
  destruct isPrivate; [cbn; split; discriminate|].
  destruct (JsString.truthy allowedIp); cbn [negb]; [|cbn; split; discriminate].
  destruct (String.eqb clientIp allowedIp); cbn; split; congruence.
Qed.

Lemma attendanceLogic_two_valued (clientIp : string) (isPrivate : bool) (allowedIp : string) :
  fst (attendanceLogic clientIp isPrivate allowedIp) = "Present" \/
  fst (attendanceLogic clientIp isPrivate allowedIp) = "Absent".
Proof.
  unfold attendanceLogic.
  destruct isPrivate; [right; reflexivity|].
  destruct (JsString.truthy allowedIp); cbn [negb]; [|right; reflexivity].
  destruct (String.eqb clientIp allowedIp); [left|right]; reflexivity.
Qed.

Lemma member_reason_markOutcome {rt : DateRuntime} (cfg : Config) (clk : MarkClock)
  (req : Request) (w : World) :
  let r := fst (markOutcome cfg clk req w) in
  let dc := decide_submission cfg req (currentDb w) in
  member "reason" r = None \/
  (member "status" r = Some (JStr (d_status dc)) /\
   member "reason" r = Some (JStr (d_reason dc))).
Proof.
  cbn zeta. unfold markOutcome.
  destruct (suppressedBy _ _ _ _); [left; reflexivity|].
  destruct (attendance _); [destruct (db_writable w)|];
    [right; split; reflexivity | left; reflexivity | left; reflexivity].
Qed.

(** C2.  The rules are applied in a fixed order: a private address is Absent
    with reason private_ip whatever the expected address is (even the same
    address); else a missing expected address is Absent with reason
    missing_expected_ip; else string equality of the two addresses is
    Present with reason ip_matched; else Absent with reason ip_mismatch.
    Present occurs exactly with ip_matched.  Every response of the mark
    handler that carries a reason carries the status and reason these rules
    give for the extracted address, its private classification and the
    expected address looked up for the student. *)
Theorem attendanceLogic_priority :
  (forall clientIp allowedIp,
     attendanceLogic clientIp true allowedIp = ("Absent", "private_ip")) /\
  (forall clientIp,
     attendanceLogic clientIp false "" = ("Absent", "missing_expected_ip")) /\
  (forall clientIp allowedIp,
     allowedIp <> "" -> clientIp = allowedIp ->
     attendanceLogic clientIp false allowedIp = ("Present", "ip_matched")) /\
  (forall clientIp allowedIp,
     allowedIp <> "" -> clientIp <> allowedIp ->
     attendanceLogic clientIp false allowedIp = ("Absent", "ip_mismatch")) /\
  (forall clientIp isPrivate allowedIp,
     fst (attendanceLogic clientIp isPrivate allowedIp) = "Present" <->
     snd (attendanceLogic clientIp isPrivate allowedIp) = "ip_matched") /\
  (forall (rt : DateRuntime) cfg clk req w,
     let r := fst (handle_mark cfg clk req w) in
     let clientIp := extractClientIp req in
     let allowedIp :=
       JsString.or (JsString.or (expectedIpOf (currentDb w) (body_student_id req))
                      (ALLOWED_IP cfg)) "" in
     let rule := attendanceLogic clientIp (isPrivateIp clientIp) allowedIp in
     member "reason" r = None \/
     (member "status" r = Some (JStr (fst rule)) /\
      member "reason" r = Some (JStr (snd rule)))).
Proof.
  repeat split.
  - intros clientIp allowedIp Hne Heq. unfold attendanceLogic.
    apply truthy_true in Hne. rewrite Hne. cbn [negb].
    subst clientIp. rewrite String.eqb_refl. reflexivity.
  - intros clientIp allowedIp Hne Hneq. unfold attendanceLogic.
    apply truthy_true in Hne. rewrite Hne. cbn [negb].
    apply String.eqb_neq in Hneq. rewrite Hneq. reflexivity.
  - apply attendanceLogic_status.
  - apply attendanceLogic_status.
  - intros rt cfg clk req w. cbn zeta. rewrite handle_mark_run.
    destruct (accepted req).
    + apply (member_reason_markOutcome cfg clk req w).
    + left. unfold rejection.
      destruct (negb _ || negb _); reflexivity.
Qed.

(** The loopback address is private, so a student whose expected address is
    the loopback address is Absent when submitting from it. *)
Lemma attendanceLogic_priority_witness :
  isPrivateIp "127.0.0.1" = true /\
  attendanceLogic "127.0.0.1" (isPrivateIp "127.0.0.1") "127.0.0.1" = ("Absent", "private_ip") /\
  attendanceLogic "203.0.113.9" false "203.0.113.9" = ("Present", "ip_matched") /\
  attendanceLogic "198.51.100.7" false "203.0.113.9" = ("Absent", "ip_mismatch").
Proof.
  destruct attendanceLogic_priority as (Hpriv & _ & Hmatch & Hmis & _).
  split; [reflexivity|]. split; [apply Hpriv|].
  split; [apply Hmatch; [discriminate|reflexivity] | apply Hmis; discriminate].
Defined.

(** ** The Document Store *)

(** C8.  [loadDb()] returns a database object in every world and never
    throws.  When db.json is missing (whether or not the initial file can be
    written) or holds text that [JSON.parse] rejects, the object returned
    has an empty [users] map and an empty [attendance] list; a parsable file
    is returned as it is. *)
Theorem loadDb_never_fails :
  (forall w, exists d w', db.loadDb w = (inr d, w')) /\
  (forall wr xf xw,
     exists w', db.loadDb (mkWorld None wr xf xw) =
                (inr {| users := Some ∅; attendance := Some [] |}, w')) /\
  (forall wr xf xw,
     db.loadDb (mkWorld (Some DbGarbage) wr xf xw) =
     (inr {| users := Some ∅; attendance := Some [] |},
      mkWorld (Some DbGarbage) wr xf xw)) /\
  (forall d wr xf xw,
     db.loadDb (mkWorld (Some (DbJson d)) wr xf xw) =
     (inr d, mkWorld (Some (DbJson d)) wr xf xw)).
Proof.
  split; [|split; [|split]].
  - intros w. rewrite loadDb_run. eauto.
  - intros wr xf xw. rewrite loadDb_run. eexists. reflexivity.
  - intros wr xf xw. rewrite loadDb_run. reflexivity.
  - intros d wr xf xw. rewrite loadDb_run. reflexivity.
Qed.

Lemma currentDb_stored (d : Db) (dw : bool) (xf : option XlsxData) (xw : bool) :
  currentDb (mkWorld (Some (DbJson d)) dw xf xw) = d.
Proof. reflexivity. Qed.

(** ** Assignment to a member of the registry *)

Lemma assign_lookup_ne (key other : string) (entry : UserEntry) (us : gmap string UserEntry) :
  other <> key -> db.assign key entry us !! other = us !! other.
Proof.
  intros Hne. unfold db.assign.
  destruct (String.eqb key "__proto__" && negb (bool_decide (is_Some (us !! key))));
    [reflexivity|].
  apply lookup_insert_ne. congruence.
Qed.

Lemma assign_lookup_eq (key : string) (entry : UserEntry) (us : gmap string UserEntry) :
  key <> "__proto__" \/ is_Some (us !! key) ->
  db.assign key entry us !! key = Some entry.
Proof.
  intros Hstored. unfold db.assign.
  destruct (String.eqb key "__proto__" && negb (bool_decide (is_Some (us !! key)))) eqn:Hskip;
    [exfalso|apply lookup_insert_eq].
  apply andb_true_iff in Hskip as [Hkey Hown].
  apply String.eqb_eq in Hkey. apply negb_true_iff, bool_decide_eq_false in Hown.
  destruct Hstored as [Hne|Hsome]; [apply Hne, Hkey|apply Hown, Hsome].
Qed.

Lemma assign_proto_absent (key : string) (entry : UserEntry) (us : gmap string UserEntry) :
  key = "__proto__" -> us !! key = None -> db.assign key entry us = us.
Proof.
  intros -> Hnone. unfold db.assign. rewrite Hnone. reflexivity.
Qed.

(** C10.  Frame of the two writers of db.js, in every world.
    [setExpectedIp]: when db.json can be written it succeeds; the stored
    registry then maps the student to the new entry (new address, new
    [updatedAt], nothing of an old entry kept) for every id other than
    [__proto__], and for [__proto__] too when the registry already has a
    member of that name; for [__proto__] without such a member the stored
    registry is the old one.  When db.json cannot be written it throws and
    changes nothing.  In every case every other student's entry and the
    attendance member are as before.  [addAttendance]: when db.json can be
    written and the database has an attendance list it succeeds and the
    stored list is the old list followed by the one new record; otherwise it
    throws and changes nothing.  In both cases the registry is as before.
    Neither touches attendance.xlsx. *)
Theorem db_writers_frame (rt : DateRuntime) (w : World) :
  (forall now studentId ip,
     let out := db.setExpectedIp now studentId ip w in
     let d := currentDb w in
     let d' := currentDb (snd out) in
     (if db_writable w
      then fst out = inr tt /\
           db_file (snd out) = Some (DbJson d') /\
           (studentId <> "__proto__" \/ is_Some (usersOf d !! studentId) ->
            usersOf d' !! studentId = Some (mkUserEntry ip (toISOString now))) /\
           (studentId = "__proto__" -> usersOf d !! studentId = None ->
            usersOf d' = usersOf d)
      else (exists e, fst out = inl e) /\ snd out = w) /\
     (forall other, other <> studentId -> usersOf d' !! other = usersOf d !! other) /\
     attendance d' = attendance d /\
     xlsx_file (snd out) = xlsx_file w /\
     xlsx_writable (snd out) = xlsx_writable w) /\
  (forall record,
     let out := db.addAttendance record w in
     let d := currentDb w in
     let d' := currentDb (snd out) in
     match attendance d with
     | Some l =>
         if db_writable w
         then fst out = inr tt /\
              db_file (snd out) = Some (DbJson d') /\
              attendance d' = Some (l ++ [record])
         else (exists e, fst out = inl e) /\ snd out = w
     | None => (exists e, fst out = inl e) /\ snd out = w
     end /\
     users d' = users d /\
     xlsx_file (snd out) = xlsx_file w /\
     xlsx_writable (snd out) = xlsx_writable w).
Proof.
  split.
  - intros now studentId ip. cbn zeta. rewrite setExpectedIp_run. cbn zeta.
    destruct (db_writable w) eqn:Hw; cbn [fst snd].
    + rewrite !currentDb_stored. unfold usersOf. cbn [users attendance].
      split; [split; [reflexivity|split; [reflexivity|split]]|].
      * apply assign_lookup_eq.
      * apply assign_proto_absent.
      * split; [|split; [reflexivity|split; reflexivity]].
        intros other Hne. apply assign_lookup_ne, Hne.
    + split; [split; [eauto|reflexivity]|].
      split; [reflexivity|]. split; [reflexivity|]. split; reflexivity.
  - intros record. cbn zeta. rewrite addAttendance_run.
    destruct (attendance (currentDb w)) as [l|] eqn:Hl; [destruct (db_writable w) eqn:Hw|];
      cbn [fst snd].
    + rewrite !currentDb_stored. cbn [attendance users].
      split; [split; [reflexivity|split; reflexivity]|].
      split; [reflexivity|]. split; reflexivity.
    + split; [split; [eauto|reflexivity]|].
      split; [reflexivity|]. split; reflexivity.
    + assert (Hload : afterLoad w = w).
      { unfold afterLoad, currentDb in *.
        destruct (db_file w) as [[|d0]|]; try reflexivity. cbn in Hl. discriminate. }
      rewrite Hload.
      split; [split; [eauto|reflexivity]|].
      split; [reflexivity|]. split; reflexivity.
Qed.

Lemma db_writers_frame_witness :
  let out := db.setExpectedIp (rt := Sample.rt) 1704151800000 "U001" "198.51.100.7"
               Sample.marked in
  fst out = inr tt /\
  usersOf (currentDb (snd out)) !! "U001"%string =
    Some (mkUserEntry "198.51.100.7" "2024-01-01T23:30:00.000Z") /\
  usersOf (currentDb (snd out)) !! "U002"%string =
    Some (mkUserEntry "203.0.113.9" "2024-01-01T09:00:00.000Z") /\
  attendance (currentDb (snd out)) = Some [Sample.present] /\
  let unstored := db.setExpectedIp (rt := Sample.rt) 1704151800000 "__proto__" "198.51.100.7"
                    Sample.marked in
  fst unstored = inr tt /\
  usersOf (currentDb (snd unstored)) = usersOf (currentDb Sample.marked) /\
  usersOf (currentDb (snd unstored)) !! "__proto__"%string = None.
Proof.
  destruct (db_writers_frame Sample.rt Sample.marked) as [Hset _].
  destruct (Hset 1704151800000 "U001"%string "198.51.100.7"%string)
    as ((Hok & _ & Hnew & _) & Hother & Hatt & _).
  destruct (Hset 1704151800000 "__proto__"%string "198.51.100.7"%string)
    as ((Hok' & _ & _ & Hkept) & _).
  cbn zeta. split; [exact Hok|]. split; [apply Hnew; left; discriminate|].
  split; [rewrite (Hother "U002"%string) by discriminate; reflexivity|].
  split; [exact Hatt|]. split; [exact Hok'|].
  assert (Hnone : usersOf (currentDb Sample.marked) !! "__proto__"%string = None)
    by (vm_compute; reflexivity).
  split; [exact (Hkept eq_refl Hnone)|].
  cbn zeta in Hkept. rewrite (Hkept eq_refl Hnone). exact Hnone.
Defined.

(** ** The history guard *)

Section HistoryGuard.

Context {rt : DateRuntime}.

Lemma alreadyMarkedPresent_Some today studentId (d : Db) l found :
  attendance d = Some l ->
  alreadyMarkedPresent today (historyOf d studentId) = Some found ->
  In found l /\ presentOn today studentId found.
Proof.
  intros Hl Hfind. unfold alreadyMarkedPresent, historyOf in Hfind. rewrite Hl in Hfind.
  apply List.find_some in Hfind as [Hin Htest].
  apply List.filter_In in Hin as [Hin Hid].
  apply andb_true_iff in Htest as [Hday Hst]. rewrite or_empty_r in Hday.
  apply String.eqb_eq in Hid, Hday, Hst.
  split; [assumption|]. repeat split; assumption.
Qed.

Lemma alreadyMarkedPresent_complete today studentId (d : Db) l r :
  attendance d = Some l ->
  In r l -> presentOn today studentId r ->
  exists found, alreadyMarkedPresent today (historyOf d studentId) = Some found.
Proof.
  intros Hl Hin (Hid & Hday & Hst).
  destruct (alreadyMarkedPresent today (historyOf d studentId)) as [found|] eqn:Hfind;
    [eauto|exfalso].
  unfold alreadyMarkedPresent, historyOf in Hfind. rewrite Hl in Hfind.
  assert (Hr : In r (List.filter (fun record => String.eqb (student_id record) studentId) l)).
  { apply List.filter_In. split; [assumption|]. apply String.eqb_eq. assumption. }
  pose proof (List.find_none _ _ Hfind r Hr) as Htest. cbn beta in Htest.
  rewrite or_empty_r, Hday, Hst, !String.eqb_refl in Htest. discriminate.
Qed.

Lemma currentDb_file (w : World) (d : Db) :
  db_file w = Some (DbJson d) -> currentDb w = d /\ afterLoad w = w.
Proof. intros Hf. unfold currentDb, afterLoad. rewrite Hf. split; reflexivity. Qed.

End HistoryGuard.

(** C1.  Take an accepted submission of a student against a database with
    attendance list [l], and let [today] be the first ten characters of the
    ISO rendering of the current instant.  If the rules give Present and
    [l] holds a Present record of the student dated [today], the handler
    answers with [alreadyMarked: true] and the timestamp of such a record,
    and leaves both files exactly as they were.  If the rules give Absent,
    the answer is never an [alreadyMarked] one, whatever [l] holds, and when
    db.json is writable the new record is appended to [l]. *)
Theorem present_suppressed_absent_recorded (rt : DateRuntime) (cfg : Config)
  (clk : MarkClock) (req : Request) (w : World) (d : Db) (l : list AttendanceRecord) :
  accepted req = true ->
  db_file w = Some (DbJson d) ->
  attendance d = Some l ->
  let today := JsString.slice0 10 (toISOString (t_today clk)) in
  let dc := decide_submission cfg req d in
  (d_status dc = "Present" ->
   (exists r, In r l /\ presentOn today (body_student_id req) r) ->
   exists found,
     In found l /\ presentOn today (body_student_id req) found /\
     handle_mark cfg clk req w = (alreadyMarkedResponse found, w)) /\
  (d_status dc = "Absent" ->
   member "alreadyMarked" (fst (handle_mark cfg clk req w)) = None /\
   (db_writable w = true ->
    fst (handle_mark cfg clk req w) =
      successResponse (d_clientIp dc) (d_allowedIp dc) (d_isPrivate dc) (d_proxy dc)
        "Absent" (d_reason dc) /\
    db_file (snd (handle_mark cfg clk req w)) =
      Some (DbJson (mkDb (users d) (Some (l ++ [storedRecord clk req dc])))))).
Proof.
  intros Hacc Hfile Hl today dc.
  destruct (currentDb_file w d Hfile) as [Hcur Hload].
  rewrite (handle_mark_accepted cfg clk req w Hacc).
  unfold markOutcome. rewrite Hcur, Hload, Hl. fold dc. unfold suppressedBy. fold today.
  split.
  - intros Hst (r & Hin & Hr).
    destruct (alreadyMarkedPresent_complete today _ d l r Hl Hin Hr) as [found Hfind].
    rewrite Hfind, Hst. cbn [String.eqb Ascii.eqb Bool.eqb].
    destruct (alreadyMarkedPresent_Some today _ d l found Hl Hfind) as [Hfin Hfon].
    exists found. repeat split; solve [assumption | apply Hfon].
  - intros Hst. rewrite Hst.
    assert (Hnone : match alreadyMarkedPresent today (historyOf d (body_student_id req)) with
                    | Some found => if String.eqb "Absent" "Present" then Some found else None
                    | None => None
                    end = None).
    { destruct (alreadyMarkedPresent _ _); reflexivity. }
    rewrite Hnone. destruct (db_writable w); cbn [fst snd].
    + split; [reflexivity|]. intros _. split; [reflexivity|].
      unfold afterAppend. cbn [db_file]. rewrite currentDb_afterExcel, Hcur. reflexivity.
    + split; [reflexivity|]. discriminate.
Qed.

Lemma present_suppressed_absent_recorded_witness :
  handle_mark (rt := Sample.rt) Sample.cfg Sample.clk Sample.ada Sample.marked =
    (json 200
       [("message", JStr "Already marked present today (2024-01-01T08:15:00.000Z).");
        ("success", JBool true); ("alreadyMarked", JBool true); ("status", JStr "Present")],
     Sample.marked) /\
  member "alreadyMarked"
    (fst (handle_mark (rt := Sample.rt) Sample.cfg Sample.clk Sample.ada_elsewhere Sample.marked))
  = None.
Proof.
  split.
  - destruct (present_suppressed_absent_recorded Sample.rt Sample.cfg Sample.clk Sample.ada
                Sample.marked _ _ eq_refl eq_refl eq_refl) as [Hsup _].
    destruct Hsup as (found & Hin & _ & Hrun).
    + reflexivity.
    + exists Sample.present. split; [left; reflexivity|]. repeat split; reflexivity.
    + destruct Hin as [<-|[]]. exact Hrun.
  - destruct (present_suppressed_absent_recorded Sample.rt Sample.cfg Sample.clk
                Sample.ada_elsewhere Sample.marked _ _ eq_refl eq_refl eq_refl) as [_ Habs].
    apply Habs. reflexivity.
Defined.

(** ** The persistence coordinator *)

(** Whether the Excel block gets a workbook to write. *)
Lemma createAttendanceSheet_run (workbook : Workbook) :
  createAttendanceSheet workbook =
  if ExcelJS.nameTaken "Attendance" workbook
  then inl (Error "Worksheet name already exists: Attendance")
  else inr (ExcelJS.addRow "Attendance" headerRow (workbook ++ [mkWorksheet "Attendance" []])).
Proof.
  unfold createAttendanceSheet, ExcelJS.addWorksheet.
  destruct (ExcelJS.nameTaken "Attendance" workbook); reflexivity.
Qed.

Lemma openedWorkbook_clash (xf : option XlsxData) :
  sheetAvailable xf = false ->
  openedWorkbook xf = inl (Error "Worksheet name already exists: Attendance").
Proof.
  unfold sheetAvailable, openedWorkbook.
  destruct xf as [[|wb]|]; try discriminate.
  destruct (ExcelJS.getWorksheet "Attendance" wb); [discriminate|].
  rewrite createAttendanceSheet_run.
  destruct (ExcelJS.nameTaken "Attendance" wb); [reflexivity|discriminate].
Qed.

Lemma openedWorkbook_available (xf : option XlsxData) :
  sheetAvailable xf = true ->
  openedWorkbook xf =
  inr match xf with
      | Some (XlsxBook wb) =>
          match ExcelJS.getWorksheet "Attendance" wb with
          | Some _ => wb
          | None =>
              ExcelJS.addRow "Attendance" headerRow (wb ++ [mkWorksheet "Attendance" []])
          end
      | _ => [mkWorksheet "Attendance" [headerRow]]
      end.
Proof.
  unfold sheetAvailable, openedWorkbook.
  destruct xf as [[|wb]|]; try reflexivity.
  destruct (ExcelJS.getWorksheet "Attendance" wb); [reflexivity|].
  rewrite createAttendanceSheet_run.
  destruct (ExcelJS.nameTaken "Attendance" wb); [discriminate|reflexivity].
Qed.

(** When the two appends throw. *)
Lemma saveToExcel_throws_iff (dataRow : Row) (w : World) :
  (exists e w', saveToExcel dataRow w = (inl e, w')) <->
  (xlsx_writable w = false \/ sheetAvailable (xlsx_file w) = false).
Proof.
  rewrite saveToExcel_run.
  destruct (sheetAvailable (xlsx_file w)) eqn:Hav.
  - rewrite (openedWorkbook_available _ Hav). destruct (xlsx_writable w); split.
    + intros (e & w' & Heq). discriminate.
    + intros [Hno|Hno]; discriminate.
    + intros _. left. reflexivity.
    + intros _. eauto.
  - rewrite (openedWorkbook_clash _ Hav). split; [intros _; right; reflexivity|eauto].
Qed.

(** The world after the Excel block, case by case. *)
Lemma afterLoad_xlsx (w : World) :
  xlsx_file (afterLoad w) = xlsx_file w /\ xlsx_writable (afterLoad w) = xlsx_writable w.
Proof. destruct w as [[[|d]|] [] xf xw]; split; reflexivity. Qed.

Lemma afterExcel_readonly (row : Row) (w : World) :
  xlsx_writable w = false -> afterExcel row w = w.
Proof.
  intros Hx. unfold afterExcel. rewrite Hx. destruct (openedWorkbook (xlsx_file w)); reflexivity.
Qed.

Lemma afterExcel_clash (row : Row) (w : World) :
  sheetAvailable (xlsx_file w) = false -> afterExcel row w = w.
Proof. intros Hav. unfold afterExcel. rewrite (openedWorkbook_clash _ Hav). reflexivity. Qed.

Lemma afterExcel_written (row : Row) (w : World) (opened : Workbook) :
  xlsx_writable w = true ->
  openedWorkbook (xlsx_file w) = inr opened ->
  afterExcel row w =
  mkWorld (db_file w) (db_writable w)
    (Some (XlsxBook (ExcelJS.stored (ExcelJS.addRow "Attendance" row opened)))) true.
Proof. intros Hx Hopen. unfold afterExcel. rewrite Hopen, Hx. reflexivity. Qed.

Lemma xlsx_writable_afterExcel (row : Row) (w : World) :
  xlsx_writable (afterExcel row w) = xlsx_writable w.
Proof.
  unfold afterExcel. destruct (openedWorkbook (xlsx_file w)); [reflexivity|].
  destruct (xlsx_writable w) eqn:Hx; [reflexivity|exact Hx].
Qed.

Lemma addAttendance_throws_iff (record : AttendanceRecord) (w : World) :
  (exists e w', db.addAttendance record w = (inl e, w')) <->
  (db_writable w = false \/ attendance (currentDb w) = None).
Proof.
  rewrite addAttendance_run.
  destruct (attendance (currentDb w)) as [l|]; [destruct (db_writable w)|]; split;
    try (intros (e & w' & Heq); discriminate); try (intros [?|?]; discriminate);
    eauto.
Qed.

(** C5.  For an accepted submission that the history guard lets through:
    if the Document Store append fails (db.json is not writable, or the
    stored object has no attendance list) the answer is the 500 response
    "Server error saving attendance to database."; if it succeeds, the
    answer is the 200 response carrying the status and reason of the rules
    and db.json holds the old records followed by the new one.  Both hold
    in every state of attendance.xlsx, in particular when it is not writable
    and the Excel append throws. *)
Theorem document_store_failure_is_fatal (rt : DateRuntime) (cfg : Config) (clk : MarkClock)
  (req : Request) (w : World) :
  accepted req = true ->
  let d := currentDb w in
  let dc := decide_submission cfg req d in
  suppressedBy clk req dc d = None ->
  let out := handle_mark cfg clk req w in
  (db_writable w = false \/ attendance d = None ->
   fst out = saveErrorResponse /\ http_status (fst out) = 500) /\
  (forall l,
     db_writable w = true -> attendance d = Some l ->
     fst out = successResponse (d_clientIp dc) (d_allowedIp dc) (d_isPrivate dc) (d_proxy dc)
                 (d_status dc) (d_reason dc) /\
     http_status (fst out) = 200 /\
     member "status" (fst out) = Some (JStr (d_status dc)) /\
     member "reason" (fst out) = Some (JStr (d_reason dc)) /\
     db_file (snd out) = Some (DbJson (mkDb (users d) (Some (l ++ [storedRecord clk req dc]))))) /\
  (xlsx_writable w = false -> xlsx_file (snd out) = xlsx_file w).
Proof.
  intros Hacc d dc Hsup out. subst out.
  rewrite (handle_mark_accepted cfg clk req w Hacc). unfold markOutcome.
  fold d. fold dc. rewrite Hsup. split; [|split].
  - intros Hfail.
    assert (Hout : fst (match attendance d with
                        | Some l =>
                            if db_writable w
                            then (successResponse (d_clientIp dc) (d_allowedIp dc)
                                    (d_isPrivate dc) (d_proxy dc) (d_status dc) (d_reason dc),
                                  afterAppend (storedRecord clk req dc) l
                                    (afterExcel (storedRow clk req dc) (afterLoad w)))
                            else (saveErrorResponse,
                                  afterExcel (storedRow clk req dc) (afterLoad w))
                        | None => (saveErrorResponse,
                                   afterExcel (storedRow clk req dc) (afterLoad w))
                        end) = saveErrorResponse).
    { destruct Hfail as [Hw|Hatt]; [rewrite Hw; destruct (attendance d)|rewrite Hatt];
        reflexivity. }
    rewrite Hout. split; reflexivity.
  - intros l Hw Hatt. rewrite Hatt, Hw. cbn [fst snd].
    split; [reflexivity|]. split; [reflexivity|]. split; [reflexivity|].
    split; [reflexivity|].
    unfold afterAppend. cbn [db_file].
    rewrite currentDb_afterExcel, currentDb_afterLoad. reflexivity.
  - intros Hx.
    assert (Hw1 : xlsx_file (afterExcel (storedRow clk req dc) (afterLoad w)) = xlsx_file w).
    { destruct (afterLoad_xlsx w) as [Hfile Hperm].
      rewrite afterExcel_readonly by (rewrite Hperm; exact Hx). exact Hfile. }
    destruct (attendance d); [destruct (db_writable w)|]; cbn [snd]; exact Hw1.
Qed.

Lemma document_store_failure_is_fatal_witness :
  fst (handle_mark (rt := Sample.rt) Sample.cfg Sample.clk Sample.ada
         (mkWorld (db_file Sample.registered) false None true)) = saveErrorResponse /\
  member "status"
    (fst (handle_mark (rt := Sample.rt) Sample.cfg Sample.clk Sample.ada Sample.readonly_xlsx))
  = Some (JStr "Present").
Proof.
  split.
  - apply (document_store_failure_is_fatal Sample.rt Sample.cfg Sample.clk Sample.ada
             (mkWorld (db_file Sample.registered) false None true) eq_refl eq_refl).
    left. reflexivity.
  - apply (document_store_failure_is_fatal Sample.rt Sample.cfg Sample.clk Sample.ada
             Sample.readonly_xlsx eq_refl eq_refl) with (l := []); reflexivity.
Defined.

(** C3 (as stated, refuted).  U002 submits from the expected address while
    attendance.xlsx cannot be written.  The Excel append throws and no file
    is created, the record is appended to db.json, and the answer is the
    ordinary success object: it has no member beyond message, success,
    status, clientIp, expectedIp, isPrivate, proxy and reason, and it is
    equal to the answer given when attendance.xlsx can be written.  So no
    flag computed from the answer tells the two cases apart. *)
Lemma degraded_flag_absent :
  let failed := handle_mark (rt := Sample.rt) Sample.cfg Sample.clk Sample.ada Sample.readonly_xlsx in
  let written := handle_mark (rt := Sample.rt) Sample.cfg Sample.clk Sample.ada Sample.registered in
  (exists e, saveToExcel
               ["U002"; "Ada"; "2024-01-01"; "05:00:00"; "203.0.113.9"; "Present"]%string
               Sample.readonly_xlsx = (inl e, Sample.readonly_xlsx)) /\
  xlsx_file (snd failed) = None /\
  (exists record,
     db_file (snd failed) = Some (DbJson (mkDb (Some Sample.registry) (Some [record])))) /\
  fst failed =
    json 200
      [("message", JStr "Successfully marked Present (IP matched: 203.0.113.9).");
       ("success", JBool true); ("status", JStr "Present");
       ("clientIp", JStr "203.0.113.9"); ("expectedIp", JStr "203.0.113.9");
       ("isPrivate", JBool false); ("proxy", JBool false); ("reason", JStr "ip_matched")] /\
  xlsx_file (snd written) <> None /\
  ~ (exists degraded : Response -> bool,
       degraded (fst failed) = true /\ degraded (fst written) = false).
Proof.
  cbn zeta. split; [eexists; reflexivity|]. split; [reflexivity|].
  split; [eexists; reflexivity|]. split; [reflexivity|]. split; [discriminate|].
  intros (degraded & Htrue & Hfalse).
  change (fst (handle_mark (rt := Sample.rt) Sample.cfg Sample.clk Sample.ada Sample.registered))
    with (fst (handle_mark (rt := Sample.rt) Sample.cfg Sample.clk Sample.ada Sample.readonly_xlsx))
    in Hfalse.
  congruence.
Qed.

(** C3 (amended).  For an accepted submission that the history guard lets
    through, with attendance.xlsx not writable and the Document Store
    append succeeding: the answer is the 200 success object with the status
    and reason of the rules, nothing is written to attendance.xlsx, the
    record is in db.json, and the answer is the same as in any other state
    of attendance.xlsx; the failed Excel write is not visible in it. *)
Theorem tabular_failure_only_logged (rt : DateRuntime) (cfg : Config) (clk : MarkClock)
  (req : Request) (w : World) (l : list AttendanceRecord) :
  accepted req = true ->
  let d := currentDb w in
  let dc := decide_submission cfg req d in
  suppressedBy clk req dc d = None ->
  xlsx_writable w = false ->
  db_writable w = true ->
  attendance d = Some l ->
  let out := handle_mark cfg clk req w in
  fst out = successResponse (d_clientIp dc) (d_allowedIp dc) (d_isPrivate dc) (d_proxy dc)
              (d_status dc) (d_reason dc) /\
  http_status (fst out) = 200 /\
  member "success" (fst out) = Some (JBool true) /\
  xlsx_file (snd out) = xlsx_file w /\
  db_file (snd out) = Some (DbJson (mkDb (users d) (Some (l ++ [storedRecord clk req dc])))) /\
  (forall xf xw,
     fst (handle_mark cfg clk req (mkWorld (db_file w) (db_writable w) xf xw)) = fst out).
Proof.
  intros Hacc d dc Hsup Hx Hw Hatt out. subst out.
  split; [|split; [|split; [|split; [|split]]]];
    try apply handle_mark_response_ignores_xlsx.
  all: rewrite (handle_mark_accepted cfg clk req w Hacc); unfold markOutcome;
    fold d; fold dc; rewrite Hsup, Hatt, Hw; cbn [fst snd]; try reflexivity.
  - cbn [afterAppend xlsx_file].
    destruct (afterLoad_xlsx w) as [Hfile Hperm].
    rewrite afterExcel_readonly by (rewrite Hperm; exact Hx). exact Hfile.
  - unfold afterAppend. cbn [db_file].
    rewrite currentDb_afterExcel, currentDb_afterLoad. reflexivity.
Qed.

Lemma tabular_failure_only_logged_witness :
  http_status
    (fst (handle_mark (rt := Sample.rt) Sample.cfg Sample.clk Sample.ada Sample.readonly_xlsx))
  = 200 /\
  xlsx_file
    (snd (handle_mark (rt := Sample.rt) Sample.cfg Sample.clk Sample.ada Sample.readonly_xlsx))
  = None.
Proof.
  pose proof (tabular_failure_only_logged Sample.rt Sample.cfg Sample.clk Sample.ada
                Sample.readonly_xlsx [] eq_refl eq_refl eq_refl eq_refl eq_refl)
    as (_ & Hcode & _ & Hfile & _).
  split; [exact Hcode | exact Hfile].
Defined.

(** ** The Tabular Store *)

Section Workbooks.

Variable name : string.

Lemma getWorksheet_addRow (values : Row) (wb : Workbook) (sheet : Worksheet) :
  ExcelJS.getWorksheet name wb = Some sheet ->
  ExcelJS.getWorksheet name (ExcelJS.addRow name values wb) =
  Some (mkWorksheet (ws_name sheet) (ws_rows sheet ++ [values])).
Proof.
  unfold ExcelJS.getWorksheet.
  induction wb as [|ws rest IH]; cbn [List.find ExcelJS.addRow]; [discriminate|].
  destruct (String.eqb (ws_name ws) name) eqn:Hname.
  - intros [= <-]. cbn [List.find ws_name]. rewrite Hname. reflexivity.
  - intros Hrest. cbn [List.find]. rewrite Hname. apply IH, Hrest.
Qed.

Lemma getWorksheet_added (wb : Workbook) :
  ExcelJS.getWorksheet name wb = None ->
  ExcelJS.getWorksheet name (wb ++ [mkWorksheet name []]) = Some (mkWorksheet name []).
Proof.
  unfold ExcelJS.getWorksheet.
  induction wb as [|ws rest IH]; cbn [List.find app ws_name].
  - rewrite String.eqb_refl. reflexivity.
  - destruct (String.eqb (ws_name ws) name); [discriminate|]. exact IH.
Qed.

(** Adding a row keeps every sheet in place, with its name, keeps its
    rows as the first rows, and leaves a sheet of another name as it is. *)
Lemma addRow_keeps_rows (values : Row) (wb : Workbook) (i : nat) (sheet : Worksheet) :
  wb !! i = Some sheet ->
  exists sheet',
    ExcelJS.addRow name values wb !! i = Some sheet' /\
    ws_name sheet' = ws_name sheet /\
    ws_rows sheet `prefix_of` ws_rows sheet' /\
    (ws_name sheet <> name -> sheet' = sheet).
Proof.
  revert i. induction wb as [|ws rest IH]; intros i Hi; [discriminate|].
  cbn [ExcelJS.addRow]. destruct (String.eqb (ws_name ws) name) eqn:Hname.
  - destruct i as [|i]; cbn in Hi |- *.
    + injection Hi as <-. eexists. split; [reflexivity|]. split; [reflexivity|].
      split; [apply prefix_app_r; reflexivity|].
      intros Hne. exfalso. apply Hne, String.eqb_eq, Hname.
    + exists sheet. split; [assumption|]. split; [reflexivity|]. split; reflexivity.
  - destruct i as [|i]; cbn in Hi |- *.
    + injection Hi as <-. exists ws. split; [reflexivity|]. split; [reflexivity|].
      split; reflexivity.
    + apply IH, Hi.
Qed.

End Workbooks.

(** ** Cell text that a write and a read keep *)

Section CellText.

Import ExcelJS.

Lemma plainChar_kept (a : ascii) :
  plainChar a = true -> isDropped a = false /\ Ascii.eqb a "013" = false.
Proof.
  destruct a as [[] [] [] [] [] [] [] []]; vm_compute; intros H;
    first [discriminate H | split; reflexivity].
Qed.

Lemma plainText_cons (a : ascii) (s : string) :
  plainText (String a s) = true -> plainChar a = true /\ plainText s = true.
Proof.
  cbn [plainText]. rewrite !andb_true_iff. intros [[Ha _] Hs]. split; assumption.
Qed.

Lemma dropControl_plain (s : string) : plainText s = true -> dropControl s = s.
Proof.
  induction s as [|a s IH]; [reflexivity|]. intros H.
  apply plainText_cons in H as [Ha Hs]. cbn [dropControl].
  destruct (plainChar_kept a Ha) as [-> _]. rewrite (IH Hs). reflexivity.
Qed.

Lemma normalizeEol_plain (s : string) : plainText s = true -> normalizeEol s = s.
Proof.
  induction s as [|a s IH]; [reflexivity|]. intros H.
  apply plainText_cons in H as [Ha Hs]. cbn [normalizeEol].
  destruct (plainChar_kept a Ha) as [_ ->]. rewrite (IH Hs). reflexivity.
Qed.

Lemma escapeAt_plain (s : string) : plainText s = true -> escapeAt s = None.
Proof.
  intros H. destruct s as [|u [|x [|h1 [|h2 [|h3 [|h4 [|v rest]]]]]]]; try reflexivity.
  unfold escapeAt.
  destruct (Ascii.eqb u "_") eqn:Hu; [|reflexivity].
  destruct (Ascii.eqb x "x") eqn:Hx; [|reflexivity].
  exfalso. revert H. cbn [plainText]. rewrite Hu, Hx, !andb_true_iff.
  intros [[_ Hno] _]. discriminate Hno.
Qed.

Lemma decodeEscapes_plain (s : string) : plainText s = true -> decodeEscapes 0 s = s.
Proof.
  induction s as [|a s IH]; [reflexivity|]. intros H.
  cbn [decodeEscapes]. rewrite (escapeAt_plain _ H).
  apply plainText_cons in H as [_ Hs]. rewrite (IH Hs). reflexivity.
Qed.

(** Plain text is read back as it was written. *)
Lemma storedText_plain (s : string) : plainText s = true -> storedText s = s.
Proof.
  intros H. unfold storedText.
  rewrite (dropControl_plain s H), (normalizeEol_plain s H). apply decodeEscapes_plain, H.
Qed.

Lemma storedRow_plain (values : Row) :
  plainRow values = true -> List.map storedText values = values.
Proof.
  induction values as [|v values IH]; [reflexivity|].
  cbn [plainRow forallb List.map]. rewrite andb_true_iff. intros [Hv Hrest].
  rewrite (storedText_plain v Hv), (IH Hrest). reflexivity.
Qed.

Lemma storedRows_plain (rows : list Row) :
  forallb plainRow rows = true -> List.map (List.map storedText) rows = rows.
Proof.
  induction rows as [|r rows IH]; [reflexivity|].
  cbn [forallb List.map]. rewrite andb_true_iff. intros [Hr Hrest].
  rewrite (storedRow_plain r Hr), (IH Hrest). reflexivity.
Qed.

(** A plain workbook is loaded back as it was written. *)
Lemma stored_plain (wb : Workbook) : plainWorkbook wb = true -> stored wb = wb.
Proof.
  induction wb as [|ws wb IH]; [reflexivity|].
  cbn [plainWorkbook forallb stored List.map]. rewrite !andb_true_iff.
  intros [[_ Hrows] Hrest].
  rewrite (storedRows_plain _ Hrows). fold (stored wb). rewrite (IH Hrest).
  destruct ws; reflexivity.
Qed.

Lemma plainWorkbook_addRow (name : string) (values : Row) (wb : Workbook) :
  plainWorkbook wb = true -> plainRow values = true ->
  plainWorkbook (addRow name values wb) = true.
Proof.
  intros Hwb Hv. induction wb as [|ws wb IH]; [reflexivity|].
  revert Hwb. cbn [plainWorkbook forallb addRow]. rewrite !andb_true_iff.
  intros [[Hname Hrows] Hrest].
  destruct (String.eqb (ws_name ws) name); cbn [forallb ws_name ws_rows].
  - rewrite Hname, forallb_app, Hrows. cbn [forallb]. rewrite Hv. exact Hrest.
  - rewrite Hname, Hrows. exact (IH Hrest).
Qed.

Lemma plainWorkbook_added (wb : Workbook) :
  plainWorkbook wb = true -> plainWorkbook (wb ++ [mkWorksheet "Attendance" []]) = true.
Proof.
  intros Hwb. unfold plainWorkbook. rewrite forallb_app. fold (plainWorkbook wb).
  rewrite Hwb. reflexivity.
Qed.

(** The sheets of a written workbook keep their names and places. *)
Lemma getWorksheet_stored (name : string) (wb : Workbook) :
  getWorksheet name (stored wb) =
  match getWorksheet name wb with
  | Some sheet => Some (mkWorksheet (ws_name sheet) (List.map (List.map storedText) (ws_rows sheet)))
  | None => None
  end.
Proof.
  unfold getWorksheet, stored.
  induction wb as [|ws wb IH]; [reflexivity|].
  cbn [List.map List.find ws_name]. destruct (String.eqb (ws_name ws) name); [reflexivity|].
  exact IH.
Qed.

Lemma attendanceRows_stored (wb : Workbook) :
  attendanceRows (stored wb) = List.map (List.map storedText) (attendanceRows wb).
Proof.
  unfold attendanceRows. rewrite getWorksheet_stored.
  destruct (getWorksheet "Attendance" wb); reflexivity.
Qed.

End CellText.

(** ** The workbook the Excel block writes *)

(** The sheet the handler writes to exists once the workbook is opened;
    its rows are those of the located sheet, or the header alone. *)
Lemma attendanceRows_opened (xf : option XlsxData) (opened : Workbook) :
  openedWorkbook xf = inr opened ->
  exists sheet,
    ExcelJS.getWorksheet "Attendance" opened = Some sheet /\
    ws_rows sheet = rowsBefore xf.
Proof.
  unfold openedWorkbook, rowsBefore.
  destruct xf as [[|wb]|].
  - intros [= <-]. eexists. split; reflexivity.
  - destruct (ExcelJS.getWorksheet "Attendance" wb) as [located|] eqn:Hloc.
    + intros [= <-]. exists located. split; [assumption|reflexivity].
    + rewrite createAttendanceSheet_run.
      destruct (ExcelJS.nameTaken "Attendance" wb); [discriminate|].
      intros [= <-]. eexists. split.
      * apply getWorksheet_addRow, getWorksheet_added, Hloc.
      * reflexivity.
  - intros [= <-]. eexists. split; reflexivity.
Qed.

Lemma attendanceRows_addRow (values : Row) (xf : option XlsxData) (opened : Workbook) :
  openedWorkbook xf = inr opened ->
  attendanceRows (ExcelJS.addRow "Attendance" values opened) = rowsBefore xf ++ [values].
Proof.
  intros Hopen. destruct (attendanceRows_opened xf opened Hopen) as (sheet & Hsheet & Hrows).
  unfold attendanceRows. rewrite (getWorksheet_addRow _ _ _ _ Hsheet). cbn [ws_rows].
  rewrite Hrows. reflexivity.
Qed.

(** A plain workbook stays plain when it is opened for writing. *)
Lemma plainWorkbook_opened (xf : option XlsxData) (opened : Workbook) :
  (forall wb, xf = Some (XlsxBook wb) -> plainWorkbook wb = true) ->
  openedWorkbook xf = inr opened ->
  plainWorkbook opened = true.
Proof.
  intros Hplain. unfold openedWorkbook.
  destruct xf as [[|wb]|].
  - intros [= <-]. reflexivity.
  - specialize (Hplain wb eq_refl).
    destruct (ExcelJS.getWorksheet "Attendance" wb).
    + intros [= <-]. exact Hplain.
    + rewrite createAttendanceSheet_run.
      destruct (ExcelJS.nameTaken "Attendance" wb); [discriminate|].
      intros [= <-]. apply plainWorkbook_addRow; [|reflexivity].
      apply plainWorkbook_added, Hplain.
  - intros [= <-]. reflexivity.
Qed.

(** The Excel file after an accepted, non-suppressed submission. *)
Lemma handle_mark_xlsx {rt : DateRuntime} (cfg : Config) (clk : MarkClock) (req : Request)
  (w : World) (opened : Workbook) :
  accepted req = true ->
  let dc := decide_submission cfg req (currentDb w) in
  suppressedBy clk req dc (currentDb w) = None ->
  xlsx_writable w = true ->
  openedWorkbook (xlsx_file w) = inr opened ->
  xlsx_file (snd (handle_mark cfg clk req w)) =
  Some (XlsxBook (ExcelJS.stored
                    (ExcelJS.addRow "Attendance" (storedRow clk req dc) opened))) /\
  xlsx_writable (snd (handle_mark cfg clk req w)) = true.
Proof.
  intros Hacc dc Hsup Hx Hopen.
  rewrite (handle_mark_accepted cfg clk req w Hacc). unfold markOutcome.
  fold dc. rewrite Hsup.
  destruct (afterLoad_xlsx w) as [Hfile Hperm].
  rewrite (afterExcel_written _ (afterLoad w) opened)
    by (rewrite ?Hperm, ?Hfile; assumption).
  destruct (attendance (currentDb w)); [destruct (db_writable w)|]; split; reflexivity.
Qed.

(** The Excel file is left as it was when it cannot be written or when
    the sheet can neither be found nor made. *)
Lemma handle_mark_xlsx_kept {rt : DateRuntime} (cfg : Config) (clk : MarkClock) (req : Request)
  (w : World) :
  xlsx_writable w = false \/ sheetAvailable (xlsx_file w) = false ->
  xlsx_file (snd (handle_mark cfg clk req w)) = xlsx_file w.
Proof.
  intros Hkept. rewrite handle_mark_run. destruct (accepted req); [|reflexivity].
  destruct (afterLoad_xlsx w) as [Hfile Hperm].
  assert (Hsame : forall row, xlsx_file (afterExcel row (afterLoad w)) = xlsx_file w).
  { intros row. destruct Hkept as [Hx|Hav].
    - rewrite afterExcel_readonly by (rewrite Hperm; exact Hx). exact Hfile.
    - rewrite afterExcel_clash by (rewrite Hfile; exact Hav). exact Hfile. }
  unfold markOutcome. destruct (suppressedBy _ _ _ _); [exact Hfile|].
  destruct (attendance (currentDb w)); [destruct (db_writable w)|]; cbn [snd];
    apply Hsame.
Qed.

(** C7.  Take an accepted submission that the history guard lets through,
    with attendance.xlsx writable.  The data row is identity, name, date,
    time, address, status in that order.
    When the workbook has a sheet named Attendance, or none whose name is
    Attendance in another letter case (as when the file is absent or
    unreadable), and the texts involved are plain: the Excel block does not
    throw, and the file then holds a workbook whose Attendance sheet is,
    when it had to be made, the header row ID, Name, Date, Time, IP Address,
    Status followed by the one data row, and otherwise the rows of the
    located sheet followed by the one data row; every sheet of the old
    workbook is still at its place with its name and its old rows first, and
    every sheet of another name is exactly as it was.
    When no sheet is named Attendance but one has that name in another
    letter case, [addWorksheet] throws "Worksheet name already exists", the
    block is left, and the file stays as it was: no sheet is made and no
    row is written. *)
Theorem excel_write_appends_one_row (rt : DateRuntime) (cfg : Config) (clk : MarkClock)
  (req : Request) (w : World) :
  accepted req = true ->
  let dc := decide_submission cfg req (currentDb w) in
  suppressedBy clk req dc (currentDb w) = None ->
  xlsx_writable w = true ->
  let dataRow :=
    [body_student_id req; body_student_name req;
     JsString.split0 "T" (toISOString (t_excel clk)); toLocaleTimeString (t_excel clk);
     d_clientIp dc; d_status dc] in
  (sheetAvailable (xlsx_file w) = true ->
   plainRow dataRow = true ->
   (forall wb, xlsx_file w = Some (XlsxBook wb) -> plainWorkbook wb = true) ->
   (exists w1, saveToExcel dataRow (afterLoad w) = (inr tt, w1)) /\
   exists wb',
     xlsx_file (snd (handle_mark cfg clk req w)) = Some (XlsxBook wb') /\
     attendanceRows wb' =
       match xlsx_file w with
       | Some (XlsxBook wb) =>
           match ExcelJS.getWorksheet "Attendance" wb with
           | Some located => ws_rows located
           | None => [["ID"; "Name"; "Date"; "Time"; "IP Address"; "Status"]]
           end
       | _ => [["ID"; "Name"; "Date"; "Time"; "IP Address"; "Status"]]
       end ++ [dataRow] /\
     (forall wb i sheet,
        xlsx_file w = Some (XlsxBook wb) ->
        wb !! i = Some sheet ->
        exists sheet',
          wb' !! i = Some sheet' /\
          ws_name sheet' = ws_name sheet /\
          ws_rows sheet `prefix_of` ws_rows sheet' /\
          (ws_name sheet <> "Attendance" -> sheet' = sheet))) /\
  (sheetAvailable (xlsx_file w) = false ->
   (exists w1,
      saveToExcel dataRow (afterLoad w) =
        (inl (Error "Worksheet name already exists: Attendance"), w1)) /\
   xlsx_file (snd (handle_mark cfg clk req w)) = xlsx_file w /\
   exists wb,
     xlsx_file w = Some (XlsxBook wb) /\
     ExcelJS.getWorksheet "Attendance" wb = None /\
     ExcelJS.nameTaken "Attendance" wb = true).
Proof.
  intros Hacc dc Hsup Hx dataRow.
  destruct (afterLoad_xlsx w) as [Hfile0 Hperm0]. split.
  - intros Hav Hrow Hbook.
    pose proof (openedWorkbook_available _ Hav) as Hopen.
    set (opened := match xlsx_file w with
                   | Some (XlsxBook wb) =>
                       match ExcelJS.getWorksheet "Attendance" wb with
                       | Some _ => wb
                       | None => ExcelJS.addRow "Attendance" headerRow
                                   (wb ++ [mkWorksheet "Attendance" []])
                       end
                   | _ => [mkWorksheet "Attendance" [headerRow]]
                   end) in Hopen.
    split.
    { rewrite saveToExcel_run, Hfile0, Hperm0, Hopen, Hx. eauto. }
    destruct (handle_mark_xlsx cfg clk req w opened Hacc Hsup Hx Hopen) as [Hfile _].
    fold dc in Hfile. change (storedRow clk req dc) with dataRow in Hfile.
    assert (Hplain : plainWorkbook (ExcelJS.addRow "Attendance" dataRow opened) = true).
    { apply plainWorkbook_addRow; [|exact Hrow].
      apply (plainWorkbook_opened (xlsx_file w)); assumption. }
    rewrite (stored_plain _ Hplain) in Hfile.
    eexists. split; [exact Hfile|]. split.
    + apply (attendanceRows_addRow dataRow (xlsx_file w) opened Hopen).
    + intros wb i sheet Hwb Hi. subst opened. rewrite Hwb.
      destruct (ExcelJS.getWorksheet "Attendance" wb).
      * apply addRow_keeps_rows, Hi.
      * apply (lookup_app_l_Some _ [mkWorksheet "Attendance" []]) in Hi.
        apply (addRow_keeps_rows "Attendance" headerRow) in Hi
          as (s1 & Hs1 & Hn1 & Hp1 & Hsame1).
        apply (addRow_keeps_rows "Attendance" dataRow) in Hs1
          as (s2 & Hs2 & Hn2 & Hp2 & Hsame2).
        exists s2. split; [exact Hs2|]. split; [congruence|].
        split; [etransitivity; eassumption|].
        intros Hne. rewrite Hsame2, Hsame1 by congruence. reflexivity.
  - intros Hav. split; [|split].
    + rewrite saveToExcel_run, Hfile0, (openedWorkbook_clash _ Hav). eauto.
    + apply handle_mark_xlsx_kept. right. exact Hav.
    + revert Hav. unfold sheetAvailable.
      destruct (xlsx_file w) as [[|wb]|]; try discriminate.
      destruct (ExcelJS.getWorksheet "Attendance" wb) eqn:Hloc; [discriminate|].
      intros Hav. exists wb. split; [reflexivity|]. split; [exact Hloc|].
      apply negb_false_iff, Hav.
Qed.

Lemma excel_write_appends_one_row_witness :
  (exists wb',
     xlsx_file (snd (handle_mark (rt := Sample.rt) Sample.cfg Sample.clk Sample.ada_elsewhere
                       Sample.xlsx_only)) = Some (XlsxBook wb') /\
     attendanceRows wb' =
       [["ID"; "Name"; "Date"; "Time"; "IP Address"; "Status"];
        ["U002"; "Ada"; "2024-01-01"; "13:45:00"; "203.0.113.9"; "Present"];
        ["U002"; "Ada"; "2024-01-01"; "05:00:00"; "198.51.100.7"; "Absent"]]%string) /\
  xlsx_file (snd (handle_mark (rt := Sample.rt) Sample.cfg Sample.clk Sample.ada
                    Sample.renamed_sheet)) = xlsx_file Sample.renamed_sheet.
Proof.
  split.
  - destruct (excel_write_appends_one_row Sample.rt Sample.cfg Sample.clk Sample.ada_elsewhere
                Sample.xlsx_only eq_refl eq_refl eq_refl) as [Hwritten _].
    destruct (Hwritten eq_refl eq_refl) as (_ & wb' & Hfile & Hrows & _).
    + intros wb [= <-]. reflexivity.
    + exists wb'. split; [exact Hfile | exact Hrows].
  - destruct (excel_write_appends_one_row Sample.rt Sample.cfg Sample.clk Sample.ada
                Sample.renamed_sheet eq_refl eq_refl eq_refl) as [_ Hclash].
    destruct (Hclash eq_refl) as (_ & Hkept & _). exact Hkept.
Defined.

(** ** Reading the Tabular Store back *)

Lemma eachRow_acc (rowNumber : nat) (rows : list Row) (records : list ReportRow) :
  eachRow rowNumber rows records = records ++ eachRow rowNumber rows [].
Proof.
  revert rowNumber records. induction rows as [|values rows IH]; intros rowNumber records.
  - cbn. rewrite app_nil_r. reflexivity.
  - cbn [eachRow]. rewrite IH. rewrite (IH (S rowNumber) (if Nat.eqb rowNumber 1 then [] else _)).
    destruct (Nat.eqb rowNumber 1); [reflexivity|].
    destruct (readRow values); [|reflexivity].
    rewrite <- app_assoc. reflexivity.
Qed.

(** Reading a sheet with one more row: the row is read after the others,
    unless it is row 1. *)
Lemma eachRow_app (rowNumber : nat) (rows : list Row) (values : Row) :
  eachRow rowNumber (rows ++ [values]) [] =
  eachRow rowNumber rows [] ++
  (if Nat.eqb (rowNumber + length rows) 1 then []
   else match readRow values with
        | Some r => [r]
        | None => []
        end).
Proof.
  revert rowNumber. induction rows as [|r rows IH]; intros rowNumber.
  - cbn [app length eachRow]. rewrite Nat.add_0_r.
    destruct (Nat.eqb rowNumber 1); [reflexivity|]. destruct (readRow values); reflexivity.
  - cbn [app length eachRow].
    rewrite (eachRow_acc (S rowNumber) (rows ++ [values])),
            (eachRow_acc (S rowNumber) rows), IH.
    replace (S rowNumber + length rows)%nat with (rowNumber + S (length rows))%nat by lia.
    rewrite app_assoc. reflexivity.
Qed.

Lemma cellText_trim (values : Row) (k : nat) (v : string) :
  nth_error values (k - 1) = Some v -> cellText values k = JsString.trim v.
Proof.
  intros Hv. unfold cellText. rewrite Hv.
  destruct (JsString.truthy v) eqn:Ht; [reflexivity|].
  destruct v; [reflexivity|discriminate].
Qed.

(** The record read from a six-cell row. *)
Lemma readRow_six (i n d t a s : string) :
  readRow [i; n; d; t; a; s] =
  if JsString.truthy (JsString.trim i) || JsString.truthy (JsString.trim n)
  then Some (mkReportRow (JsString.trim i) (JsString.trim n) (JsString.trim d)
               (JsString.trim t) (JsString.trim a) (JsString.trim s))
  else None.
Proof.
  unfold readRow.
  rewrite (cellText_trim _ 1 i), (cellText_trim _ 2 n), (cellText_trim _ 3 d),
          (cellText_trim _ 4 t), (cellText_trim _ 5 a), (cellText_trim _ 6 s);
    reflexivity.
Qed.

Section RecordsRun.

Context {rt : DateRuntime}.

Lemma fetchRecords_run (w : World) :
  fetchRecords w =
  match xlsx_file w with
  | None => (inr [], w)
  | Some XlsxGarbage =>
      (inr (List.map fallbackRow
              (match attendance (currentDb w) with Some l => l | None => [] end)),
       afterLoad w)
  | Some (XlsxBook wb) =>
      (inr (match reportSheet wb with
            | Some sheet => eachRow 1 (ws_rows sheet) []
            | None => []
            end), w)
  end.
Proof.
  unfold fetchRecords, reportSheet.
  rewrite try_catch_run, bind_run. unfold ExcelJS.existsSync.
  destruct (xlsx_file w) as [[|wb]|] eqn:Hx; cbn [bool_decide decide_rel].
  - cbn. unfold ExcelJS.readFile. rewrite bind_run, Hx.
    rewrite bind_run, getAllAttendance_run. reflexivity.
  - cbn. unfold ExcelJS.readFile. rewrite bind_run, Hx.
    destruct (ExcelJS.getWorksheet "Attendance" wb); [reflexivity|].
    destruct (head wb); reflexivity.
  - reflexivity.
Qed.

End RecordsRun.

(** C6 (as stated, refuted).  U002 submits with the display name " Ada".
    The row written to attendance.xlsx holds " Ada"; the report read back
    from that file holds "Ada". *)
Lemma roundtrip_drops_blanks :
  let w' := snd (handle_mark (rt := Sample.rt) Sample.cfg Sample.clk Sample.padded
                   Sample.registered) in
  xlsx_file w' =
    Some (XlsxBook
            [mkWorksheet "Attendance"
               [["ID"; "Name"; "Date"; "Time"; "IP Address"; "Status"];
                ["U002"; " Ada"; "2024-01-01"; "05:00:00"; "203.0.113.9"; "Present"]]])%string /\
  fst (handle_records (rt := Sample.rt) Sample.cfg Sample.padded w') =
    mkResponse 200
      (BArray [mkReportRow "U002" "Ada" "2024-01-01" "05:00:00" "203.0.113.9" "Present"]) /\
  ~ (exists r,
       fst (handle_records (rt := Sample.rt) Sample.cfg Sample.padded w') =
         mkResponse 200 (BArray [r]) /\
       name r = body_student_name Sample.padded).
Proof.
  cbn zeta. split; [reflexivity|]. split; [reflexivity|].
  intros (r & Hr & Hname).
  change (fst (handle_records (rt := Sample.rt) Sample.cfg Sample.padded
                 (snd (handle_mark (rt := Sample.rt) Sample.cfg Sample.clk Sample.padded
                         Sample.registered))))
    with (mkResponse 200
            (BArray [mkReportRow "U002" "Ada" "2024-01-01" "05:00:00" "203.0.113.9" "Present"]))
    in Hr.
  injection Hr as <-. discriminate Hname.
Qed.

(** The rows the Excel block finds are plain when the workbook is. *)
Lemma rowsBefore_plain (xf : option XlsxData) :
  (forall wb, xf = Some (XlsxBook wb) -> plainWorkbook wb = true) ->
  forallb plainRow (rowsBefore xf) = true.
Proof.
  intros Hplain. unfold rowsBefore. destruct xf as [[|wb]|]; try reflexivity.
  specialize (Hplain wb eq_refl). unfold ExcelJS.getWorksheet.
  induction wb as [|ws wb IH]; [reflexivity|].
  revert Hplain. cbn [plainWorkbook forallb List.find]. rewrite !andb_true_iff.
  intros [[_ Hrows] Hrest].
  destruct (String.eqb (ws_name ws) "Attendance"); [exact Hrows|exact (IH Hrest)].
Qed.

(** The report after a submission has written its row: the records of the
    rows that were there, and the record of the new row, each as the file
    gives the text back. *)
Lemma fetchRecords_after_mark {rt : DateRuntime} (cfg : Config) (clk : MarkClock)
  (req : Request) (w : World) :
  accepted req = true ->
  let dc := decide_submission cfg req (currentDb w) in
  suppressedBy clk req dc (currentDb w) = None ->
  xlsx_writable w = true ->
  sheetAvailable (xlsx_file w) = true ->
  (forall wb located,
     xlsx_file w = Some (XlsxBook wb) ->
     ExcelJS.getWorksheet "Attendance" wb = Some located ->
     ws_rows located <> []) ->
  let w' := snd (handle_mark cfg clk req w) in
  fetchRecords w' =
    (inr (eachRow 1 (List.map (List.map ExcelJS.storedText) (rowsBefore (xlsx_file w))) [] ++
          match readRow (List.map ExcelJS.storedText (storedRow clk req dc)) with
          | Some r => [r]
          | None => []
          end), w').
Proof.
  intros Hacc dc Hsup Hx Hav Hheader w'.
  pose proof (openedWorkbook_available _ Hav) as Hopen.
  destruct (handle_mark_xlsx cfg clk req w _ Hacc Hsup Hx Hopen) as [Hfile _].
  fold dc in Hfile. fold w' in Hfile.
  destruct (attendanceRows_opened _ _ Hopen) as (sheet & Hsheet & Hrows).
  rewrite fetchRecords_run, Hfile. unfold reportSheet.
  rewrite getWorksheet_stored, (getWorksheet_addRow _ _ _ _ Hsheet). cbn [ws_rows].
  rewrite Hrows, List.map_app. cbn [List.map].
  assert (Hne : rowsBefore (xlsx_file w) <> []).
  { unfold rowsBefore. destruct (xlsx_file w) as [[|wb]|]; try discriminate.
    destruct (ExcelJS.getWorksheet "Attendance" wb) as [located|] eqn:Hloc;
      [|discriminate].
    apply (Hheader wb located); [reflexivity|assumption]. }
  rewrite eachRow_app, List.length_map.
  destruct (rowsBefore (xlsx_file w)) as [|r0 rows0]; [congruence|].
  cbn [length Nat.add Nat.eqb]. reflexivity.
Qed.

(** C6 (amended).  After an accepted, non-suppressed submission has written
    its row (attendance.xlsx writable; a sheet named Attendance there or
    able to be made, and not empty if there), with plain text in the
    workbook and in the written fields (printable characters, no underscore
    followed by x): reading the file back returns the records read before
    followed by one record for the new row, whose six fields are the
    written fields with leading and trailing white space removed; the row
    is skipped when identity and name are both blank.  When no written field
    has leading or trailing white space the record reproduces identity,
    name, date, time, address and status exactly. *)
Theorem tabular_roundtrip_up_to_trim (rt : DateRuntime) (cfg : Config) (clk : MarkClock)
  (req : Request) (w : World) :
  accepted req = true ->
  let dc := decide_submission cfg req (currentDb w) in
  suppressedBy clk req dc (currentDb w) = None ->
  xlsx_writable w = true ->
  sheetAvailable (xlsx_file w) = true ->
  (forall wb located,
     xlsx_file w = Some (XlsxBook wb) ->
     ExcelJS.getWorksheet "Attendance" wb = Some located ->
     ws_rows located <> []) ->
  (forall wb, xlsx_file w = Some (XlsxBook wb) -> plainWorkbook wb = true) ->
  let i := body_student_id req in
  let n := body_student_name req in
  let d := JsString.split0 "T" (toISOString (t_excel clk)) in
  let t := toLocaleTimeString (t_excel clk) in
  let a := d_clientIp dc in
  let s := d_status dc in
  plainRow [i; n; d; t; a] = true ->
  let before := eachRow 1 (rowsBefore (xlsx_file w)) [] in
  let w' := snd (handle_mark cfg clk req w) in
  fetchRecords w' =
    (inr (before ++
          if JsString.truthy (JsString.trim i) || JsString.truthy (JsString.trim n)
          then [mkReportRow (JsString.trim i) (JsString.trim n) (JsString.trim d)
                  (JsString.trim t) (JsString.trim a) s]
          else []), w') /\
  (JsString.trim i = i -> JsString.trim n = n -> JsString.trim d = d ->
   JsString.trim t = t -> JsString.trim a = a ->
   fetchRecords w' = (inr (before ++ [mkReportRow i n d t a s]), w')).
Proof.
  intros Hacc dc Hsup Hx Hav Hheader Hbook i n d t a s Hfields before w'.
  assert (Hs : s = "Present" \/ s = "Absent").
  { subst s dc. unfold decide_submission. cbn [d_status].
    destruct (attendanceLogic_two_valued (extractClientIp req)
                (isPrivateIp (extractClientIp req))
                (JsString.or (JsString.or (expectedIpOf (currentDb w) (body_student_id req))
                                (ALLOWED_IP cfg)) "")) as [-> | ->]; [left|right];
      reflexivity. }
  assert (Hrow : plainRow [i; n; d; t; a; s] = true).
  { revert Hfields. cbn [plainRow forallb]. rewrite !andb_true_iff.
    intros (Hi & Hn & Hd & Ht & Ha & _). repeat split; try assumption.
    destruct Hs as [-> | ->]; reflexivity. }
  assert (Hread : fetchRecords w' =
    (inr (before ++
          if JsString.truthy (JsString.trim i) || JsString.truthy (JsString.trim n)
          then [mkReportRow (JsString.trim i) (JsString.trim n) (JsString.trim d)
                  (JsString.trim t) (JsString.trim a) s]
          else []), w')).
  { subst w'. rewrite (fetchRecords_after_mark cfg clk req w Hacc Hsup Hx Hav Hheader).
    fold dc. unfold storedRow. fold i n d t a s.
    rewrite (storedRow_plain _ Hrow), (storedRows_plain _ (rowsBefore_plain _ Hbook)).
    fold before. rewrite readRow_six.
    assert (Htrim : JsString.trim s = s) by (destruct Hs as [-> | ->]; reflexivity).
    rewrite Htrim. destruct (_ || _); reflexivity. }
  split; [exact Hread|].
  intros Hi Hn Hd Ht Ha. rewrite Hread, Hi, Hn, Hd, Ht, Ha.
  unfold accepted in Hacc. rewrite !andb_true_iff in Hacc.
  destruct Hacc as [[Hid _] _]. fold i in Hid. rewrite Hid. reflexivity.
Qed.

Lemma tabular_roundtrip_up_to_trim_witness :
  let w' := snd (handle_mark (rt := Sample.rt) Sample.cfg Sample.clk Sample.ada_elsewhere
                   Sample.xlsx_only) in
  fetchRecords (rt := Sample.rt) w' =
    (inr [mkReportRow "U002" "Ada" "2024-01-01" "13:45:00" "203.0.113.9" "Present";
          mkReportRow "U002" "Ada" "2024-01-01" "05:00:00" "198.51.100.7" "Absent"], w').
Proof.
  cbn zeta.
  apply (tabular_roundtrip_up_to_trim Sample.rt Sample.cfg Sample.clk Sample.ada_elsewhere
           Sample.xlsx_only eq_refl eq_refl eq_refl eq_refl); try reflexivity.
  - intros wb located [= <-] [= <-]. discriminate.
  - intros wb [= <-]. reflexivity.
Defined.

(** Text that is not plain comes back changed: an escape in the name is
    read as the character it names, and a control character is left
    out. *)
Example scenario_escape_decoded :
  let w' := snd (handle_mark (rt := Sample.rt) Sample.cfg Sample.clk Sample.escaped
                   Sample.registered) in
  fst (handle_records (rt := Sample.rt) Sample.cfg Sample.escaped w') =
    mkResponse 200
      (BArray [mkReportRow "U002" "AdaA" "2024-01-01" "05:00:00" "203.0.113.9" "Present"]) /\
  ExcelJS.storedText (String "007" "Ada") = "Ada".
Proof. cbn zeta. split; reflexivity. Qed.

(** ** Dates and times of a fixed-offset server *)

Lemma split0_prefix (c : ascii) (s rest : string) :
  JsString.includes c s = false ->
  JsString.split0 c (s +:+ String c rest) = s.
Proof.
  unfold JsString.split0. induction s as [|a s IH]; cbn [JsString.includes].
  - intros _. unfold String.append. cbn [JsString.split]. rewrite Ascii.eqb_refl. reflexivity.
  - destruct (Ascii.eqb a c) eqn:Hac; [discriminate|]. intros Hs.
    change (String a s +:+ String c rest) with (String a (s +:+ String c rest)).
    cbn [JsString.split]. rewrite Hac. specialize (IH Hs).
    destruct (JsString.split c (s +:+ String c rest)); [discriminate IH || (subst; reflexivity)|].
    subst. reflexivity.
Qed.

Lemma slice0_prefix (s rest : string) :
  JsString.slice0 (String.length s) (s +:+ rest) = s.
Proof.
  unfold JsString.slice0. induction s as [|a s IH].
  - destruct rest; reflexivity.
  - change (String a s +:+ rest) with (String a (s +:+ rest)).
    cbn [String.length String.substring]. rewrite IH. reflexivity.
Qed.

Module FixedOffsetFacts.
Import FixedOffset.

Lemma digit_not_T (n : Z) : Ascii.eqb (digit n) "T" = false.
Proof.
  unfold digit.
  assert (Hn : (Z.to_nat (n mod 10) < 10)%nat).
  { pose proof (Z.mod_pos_bound n 10 ltac:(lia)). lia. }
  remember (Z.to_nat (n mod 10)) as k eqn:Hk. clear Hk.
  do 10 (destruct k as [|k]; [reflexivity|]). lia.
Qed.

(** East of UTC, one minute before UTC midnight is already the next
    local day; west of UTC, UTC midnight is still the previous one. *)
Lemma local_day_differs (off : Z) :
  off <> 0 -> -1440 < off < 1440 ->
  exists t : Instant, 0 <= t < endOfTime /\ isoDate t <> localDate off t.
Proof.
  intros Hne Hrange. destruct (Z_lt_le_dec 0 off) as [Hpos|Hneg].
  - exists 86340000. split; [unfold endOfTime; lia|]. unfold localDate, isoDate, msPerDay.
    replace ((86340000 + off * 60000) / 86400000) with 1
      by (apply Z.div_unique with (r := off * 60000 - 60000); lia).
    vm_compute. discriminate.
  - exists 86400000. split; [unfold endOfTime; lia|]. unfold localDate, isoDate, msPerDay.
    replace ((86400000 + off * 60000) / 86400000) with 0
      by (apply Z.div_unique with (r := 86400000 + off * 60000); lia).
    vm_compute. discriminate.
Qed.

Lemma digitVal_digit (k : Z) : digitVal (digit k) = Some (k mod 10).
Proof.
  unfold digit. pose proof (Z.mod_pos_bound k 10 ltac:(lia)) as Hk.
  remember (k mod 10) as r eqn:Hr. clear Hr.
  assert (Hcases : r = 0 \/ r = 1 \/ r = 2 \/ r = 3 \/ r = 4 \/ r = 5 \/ r = 6 \/
                   r = 7 \/ r = 8 \/ r = 9) by lia.
  repeat (destruct Hcases as [->|Hcases]; [reflexivity|]). subst r. reflexivity.
Qed.

(** Parsing a string laid out as an ISO timestamp gives back the numbers
    that were rendered. *)
Lemma parseIso_fields (y m d h mi s ms : Z) :
  0 <= y <= 9999 -> 0 <= m <= 99 -> 0 <= d <= 99 -> 0 <= h <= 99 ->
  0 <= mi <= 99 -> 0 <= s <= 99 -> 0 <= ms <= 999 ->
  parseIso (pad4 y +:+ "-" +:+ pad2 m +:+ "-" +:+ pad2 d +:+ "T" +:+
            pad2 h +:+ ":" +:+ pad2 mi +:+ ":" +:+ pad2 s +:+ "." +:+ pad3 ms +:+ "Z") =
  if (1 <=? m) && (m <=? 12) && (1 <=? d) && (d <=? 31) &&
     (h <=? 23) && (mi <=? 59) && (s <=? 59)
  then Some (days_from_civil y m d * msPerDay + h * 3600000 + mi * 60000 + s * 1000 + ms)
  else None.
Proof.
  intros Hy Hm Hd Hh Hmi Hs Hms.
  unfold parseIso. cbv [pad4 pad3 pad2 String.append].
  cbv [String.length Nat.eqb charAt String.get andb Ascii.eqb Bool.eqb].
  cbv [field String.substring number].
  rewrite !digitVal_digit.
  cbv [mbind option_bind].
  replace (10 * (10 * (10 * (10 * 0 + (y / 1000) mod 10) + (y / 100) mod 10) +
                 (y / 10) mod 10) + y mod 10) with y
    by (Z.div_mod_to_equations; lia).
  replace (10 * (10 * 0 + (m / 10) mod 10) + m mod 10) with m
    by (Z.div_mod_to_equations; lia).
  replace (10 * (10 * 0 + (d / 10) mod 10) + d mod 10) with d
    by (Z.div_mod_to_equations; lia).
  replace (10 * (10 * 0 + (h / 10) mod 10) + h mod 10) with h
    by (Z.div_mod_to_equations; lia).
  replace (10 * (10 * 0 + (mi / 10) mod 10) + mi mod 10) with mi
    by (Z.div_mod_to_equations; lia).
  replace (10 * (10 * 0 + (s / 10) mod 10) + s mod 10) with s
    by (Z.div_mod_to_equations; lia).
  replace (10 * (10 * (10 * 0 + (ms / 100) mod 10) + (ms / 10) mod 10) + ms mod 10) with ms
    by (Z.div_mod_to_equations; lia).
  reflexivity.
Qed.

(** The two calendar conversions are inverse to each other, and the civil
    date of a day before year 10000 has a four-digit year. *)
Lemma civil_roundtrip (z : Z) :
  let '(y, m, d) := civil_from_days z in
  days_from_civil y m d = z /\ 1 <= m <= 12 /\ 1 <= d <= 31 /\
  (0 <= z < 2932897 -> 0 <= y <= 9999).
Proof.
  unfold civil_from_days, days_from_civil.
  set (z' := z + 719468).
  set (era := z' / 146097).
  set (doe := z' - era * 146097).
  assert (Hdoe : 0 <= doe < 146097) by (subst doe era; Z.div_mod_to_equations; lia).
  set (yoe := (doe - doe / 1460 + doe / 36524 - doe / 146096) / 365).
  assert (Hyoe : 0 <= yoe <= 399) by (subst yoe; Z.div_mod_to_equations; lia).
  set (doy := doe - (365 * yoe + yoe / 4 - yoe / 100)).
  assert (Hdoy : 0 <= doy <= 365) by (subst doy yoe; Z.div_mod_to_equations; lia).
  set (mp := (5 * doy + 2) / 153).
  assert (Hmp : 0 <= mp <= 11) by (subst mp; Z.div_mod_to_equations; lia).
  assert (Hera : 0 <= z < 2932897 -> 4 <= era <= 24)
    by (intros Hz; subst era z'; Z.div_mod_to_equations; lia).
  destruct (mp <? 10) eqn:Hlt.
  - apply Z.ltb_lt in Hlt.
    replace (mp + 3 <=? 2) with false by (symmetry; apply Z.leb_gt; lia).
    replace (2 <? mp + 3) with true by (symmetry; apply Z.ltb_lt; lia).
    replace (mp + 3 - 3) with mp by lia.
    replace ((yoe + era * 400) / 400) with era by (Z.div_mod_to_equations; lia).
    split; [|split; [lia|split]].
    + fold mp. subst doy. Z.div_mod_to_equations. lia.
    + subst mp. Z.div_mod_to_equations. lia.
    + intros Hz. specialize (Hera Hz). lia.
  - apply Z.ltb_ge in Hlt.
    replace (mp - 9 <=? 2) with true by (symmetry; apply Z.leb_le; lia).
    replace (2 <? mp - 9) with false by (symmetry; apply Z.ltb_ge; lia).
    replace (mp - 9 + 9) with mp by lia.
    replace (yoe + era * 400 + 1 - 1) with (yoe + era * 400) by lia.
    replace ((yoe + era * 400) / 400) with era by (Z.div_mod_to_equations; lia).
    split; [|split; [lia|split]].
    + fold mp. subst doy. Z.div_mod_to_equations. lia.
    + subst mp. Z.div_mod_to_equations. lia.
    + intros Hz. specialize (Hera Hz).
      assert (Hlast : era = 24 -> yoe <= 398).
      { intros He. subst mp doy yoe doe era z'. Z.div_mod_to_equations. lia. }
      lia.
Qed.

(** The days of the instants from the epoch to the end of year 9999. *)
Lemma day_of_instant (t : Instant) :
  0 <= t < endOfTime -> 0 <= t / msPerDay < 2932897.
Proof.
  unfold endOfTime, msPerDay. intros Ht. Z.div_mod_to_equations. lia.
Qed.

(** On those days the year is written with four digits. *)
Lemma dayString_four (day : Z) :
  0 <= day < 2932897 ->
  exists y m d,
    civil_from_days day = (y, m, d) /\
    dayString day = pad4 y +:+ "-" +:+ pad2 m +:+ "-" +:+ pad2 d.
Proof.
  intros Hday. unfold dayString, yearString.
  pose proof (civil_roundtrip day) as Hciv.
  destruct (civil_from_days day) as [[y m] d].
  destruct Hciv as (_ & _ & _ & Hy). specialize (Hy Hday).
  replace ((0 <=? y) && (y <=? 9999)) with true
    by (symmetry; apply andb_true_iff; split; apply Z.leb_le; lia).
  exists y, m, d. split; reflexivity.
Qed.

Lemma dayString_shape (day : Z) :
  0 <= day < 2932897 ->
  String.length (dayString day) = 10%nat /\
  JsString.includes "T" (dayString day) = false.
Proof.
  intros Hday. destruct (dayString_four day Hday) as (y & m & d & _ & ->).
  cbv [pad4 pad3 pad2 String.append]. split; [reflexivity|].
  cbn [JsString.includes]. rewrite !digit_not_T. reflexivity.
Qed.

(** Both ways the handlers cut the date out of an ISO string give the
    UTC calendar date. *)
Lemma isoString_date (t : Instant) :
  0 <= t < endOfTime ->
  JsString.split0 "T" (isoString t) = isoDate t /\
  JsString.slice0 10 (isoString t) = isoDate t.
Proof.
  intros Ht. unfold isoString, isoDate.
  destruct (dayString_shape (t / msPerDay) (day_of_instant t Ht)) as [Hlen HnoT]. split.
  - apply split0_prefix, HnoT.
  - rewrite <- Hlen at 1. apply slice0_prefix.
Qed.

(** Dates and times of day are plain text. *)
Lemma digit_plain (n : Z) :
  plainChar (digit n) = true /\ Ascii.eqb (digit n) "_" = false.
Proof.
  unfold digit.
  assert (Hn : (Z.to_nat (n mod 10) < 10)%nat).
  { pose proof (Z.mod_pos_bound n 10 ltac:(lia)). lia. }
  remember (Z.to_nat (n mod 10)) as k eqn:Hk. clear Hk.
  do 10 (destruct k as [|k]; [split; reflexivity|]). lia.
Qed.

Lemma isoDate_plain (t : Instant) :
  0 <= t < endOfTime -> plainText (isoDate t) = true.
Proof.
  intros Ht. unfold isoDate.
  destruct (dayString_four (t / msPerDay) (day_of_instant t Ht)) as (y & m & d & _ & ->).
  cbv [pad4 pad3 pad2 String.append]. cbn [plainText].
  repeat match goal with
         | |- context [plainChar (digit ?k)] =>
             destruct (digit_plain k) as [-> ->]
         end.
  reflexivity.
Qed.

Lemma clockTime_plain (t : Instant) : plainText (clockTime t) = true.
Proof.
  unfold clockTime. cbv [pad2 String.append]. cbn [plainText].
  repeat match goal with
         | |- context [plainChar (digit ?k)] =>
             destruct (digit_plain k) as [-> ->]
         end.
  reflexivity.
Qed.

(** [new Date(d.toISOString())] is [d] again, up to year 9999. *)
Lemma parseIso_isoString (t : Instant) :
  0 <= t < endOfTime -> parseIso (isoString t) = Some t.
Proof.
  intros Ht. pose proof (day_of_instant t Ht) as Hday.
  unfold isoString, isoDate, dayString, yearString, clockTime, endOfTime in *.
  pose proof (civil_roundtrip (t / msPerDay)) as Hciv.
  destruct (civil_from_days (t / msPerDay)) as [[y m] d].
  destruct Hciv as (Hdays & Hm & Hd & Hy).
  specialize (Hy Hday).
  replace ((0 <=? y) && (y <=? 9999)) with true
    by (symmetry; apply andb_true_iff; split; apply Z.leb_le; lia).
  set (h := (t mod msPerDay) / 3600000).
  set (mi := ((t mod msPerDay) / 60000) mod 60).
  set (s := ((t mod msPerDay) / 1000) mod 60).
  set (ms := t mod 1000).
  assert (Hh : 0 <= h <= 23) by (subst h; unfold msPerDay; Z.div_mod_to_equations; lia).
  assert (Hmi : 0 <= mi <= 59) by (subst mi; Z.div_mod_to_equations; lia).
  assert (Hs : 0 <= s <= 59) by (subst s; Z.div_mod_to_equations; lia).
  assert (Hms : 0 <= ms <= 999) by (subst ms; Z.div_mod_to_equations; lia).
  transitivity
    (parseIso (pad4 y +:+ "-" +:+ pad2 m +:+ "-" +:+ pad2 d +:+ "T" +:+
               pad2 h +:+ ":" +:+ pad2 mi +:+ ":" +:+ pad2 s +:+ "." +:+ pad3 ms +:+ "Z")).
  { reflexivity. }
  rewrite parseIso_fields by lia.
  replace (1 <=? m) with true by (symmetry; apply Z.leb_le; lia).
  replace (m <=? 12) with true by (symmetry; apply Z.leb_le; lia).
  replace (1 <=? d) with true by (symmetry; apply Z.leb_le; lia).
  replace (d <=? 31) with true by (symmetry; apply Z.leb_le; lia).
  replace (h <=? 23) with true by (symmetry; apply Z.leb_le; lia).
  replace (mi <=? 59) with true by (symmetry; apply Z.leb_le; lia).
  replace (s <=? 59) with true by (symmetry; apply Z.leb_le; lia).
  cbn [andb]. f_equal. rewrite Hdays.
  subst h mi s ms. unfold msPerDay. Z.div_mod_to_equations. lia.
Qed.

(** Two instants before year 10000 have the same ISO date prefix exactly
    when they lie on the same UTC day. *)
Lemma same_prefix_same_day (t1 t2 : Instant) :
  0 <= t1 < endOfTime -> 0 <= t2 < endOfTime ->
  (JsString.slice0 10 (isoString t1) = JsString.slice0 10 (isoString t2) <->
   t1 / msPerDay = t2 / msPerDay).
Proof.
  intros H1 H2.
  destruct (isoString_date t1 H1) as [_ ->]. destruct (isoString_date t2 H2) as [_ ->].
  unfold isoDate. split; [|intros ->; reflexivity].
  intros Hday.
  assert (Hmid : forall t, 0 <= t < endOfTime ->
            parseIso (dayString (t / msPerDay) +:+ "T00:00:00.000Z") =
            Some (msPerDay * (t / msPerDay))).
  { intros t Ht.
    assert (Hin : 0 <= msPerDay * (t / msPerDay) < endOfTime)
      by (unfold msPerDay, endOfTime in *; Z.div_mod_to_equations; lia).
    etransitivity; [|exact (parseIso_isoString _ Hin)]. f_equal.
    unfold isoString, isoDate, clockTime.
    replace (msPerDay * (t / msPerDay) / msPerDay) with (t / msPerDay)
      by (unfold msPerDay; Z.div_mod_to_equations; lia).
    replace ((msPerDay * (t / msPerDay)) mod msPerDay) with 0
      by (unfold msPerDay; Z.div_mod_to_equations; lia).
    replace ((msPerDay * (t / msPerDay)) mod 1000) with 0
      by (unfold msPerDay; Z.div_mod_to_equations; lia).
    reflexivity. }
  pose proof (Hmid t1 H1) as P1. pose proof (Hmid t2 H2) as P2.
  rewrite Hday, P2 in P1. injection P1 as P1. unfold msPerDay in *. lia.
Qed.

End FixedOffsetFacts.

(** ** Which store a read uses *)

(** C4 (as stated, refuted).  With one record in db.json and attendance.xlsx
    deleted, the report is the empty array, not the stored record.  And the
    history check does not look at the Tabular Store: with today's Present
    row of U002 in attendance.xlsx but not in db.json, a matching submission
    is not suppressed and a second Present row of the same day is written. *)
Lemma report_empty_when_xlsx_deleted :
  xlsx_file Sample.deleted_xlsx = None /\
  db.getAllAttendance Sample.deleted_xlsx = (inr [Sample.present], Sample.deleted_xlsx) /\
  handle_records (rt := Sample.rt) Sample.cfg Sample.ada Sample.deleted_xlsx =
    (mkResponse 200 (BArray []), Sample.deleted_xlsx) /\
  member "alreadyMarked"
    (fst (handle_mark (rt := Sample.rt) Sample.cfg Sample.clk Sample.ada Sample.xlsx_only)) = None /\
  xlsx_file (snd (handle_mark (rt := Sample.rt) Sample.cfg Sample.clk Sample.ada Sample.xlsx_only)) =
    Some (XlsxBook
            [mkWorksheet "Attendance"
               [["ID"; "Name"; "Date"; "Time"; "IP Address"; "Status"];
                ["U002"; "Ada"; "2024-01-01"; "13:45:00"; "203.0.113.9"; "Present"];
                ["U002"; "Ada"; "2024-01-01"; "05:00:00"; "203.0.113.9"; "Present"]]])%string.
Proof. repeat split. Qed.

(** C4 (amended).  The report reads attendance.xlsx first.  When the file
    exists but cannot be loaded, the report is one record per element of
    the attendance list of db.json, in order, with identity, name, address
    and status as stored, and with date and time re-derived from the stored
    timestamp: for a timestamp that parses to instant [t], the date is the
    part of the ISO rendering of [t] before the T and the time is the
    local time of day of [t]; both are empty for a timestamp that does not
    parse.  When the file loads, the report comes from its sheet alone and
    db.json is not read.  When the file does not exist, the report is empty.
    The duplicate check of the mark handler reads db.json only: its answer
    is the same in every state of attendance.xlsx.  On a fixed-offset
    server, a timestamp written by [toISOString] before year 10000 is
    reported with its UTC calendar date and its local time of day. *)
Theorem report_store_selection (rt : DateRuntime) (cfg : Config) :
  (forall w,
     xlsx_file w = Some XlsxGarbage ->
     fetchRecords w =
       (inr (List.map fallbackRow
               (match attendance (currentDb w) with Some l => l | None => [] end)),
        afterLoad w)) /\
  (forall record,
     id (fallbackRow record) = student_id record /\
     name (fallbackRow record) = student_name record /\
     ip (fallbackRow record) = clientIp record /\
     rstatus (fallbackRow record) = status record /\
     (forall t, Date_parse (timestamp record) = Some t ->
        date (fallbackRow record) = JsString.split0 "T" (toISOString t) /\
        time (fallbackRow record) = toLocaleTimeString t) /\
     (Date_parse (timestamp record) = None ->
        date (fallbackRow record) = "" /\ time (fallbackRow record) = "")) /\
  (forall w wb,
     xlsx_file w = Some (XlsxBook wb) ->
     fetchRecords w =
       (inr (match reportSheet wb with
             | Some sheet => eachRow 1 (ws_rows sheet) []
             | None => []
             end), w)) /\
  (forall w, xlsx_file w = None -> fetchRecords w = (inr [], w)) /\
  (forall clk req w xf xw,
     fst (handle_mark cfg clk req (mkWorld (db_file w) (db_writable w) xf xw)) =
     fst (handle_mark cfg clk req w)) /\
  (forall off t record,
     0 <= t < FixedOffset.endOfTime ->
     timestamp record = FixedOffset.isoString t ->
     date (fallbackRow (rt := FixedOffset.runtime off) record) = FixedOffset.isoDate t /\
     time (fallbackRow (rt := FixedOffset.runtime off) record) =
       FixedOffset.clockTime (t + off * 60000)).
Proof.
  split; [|split; [|split; [|split; [|split]]]].
  - intros w Hx. rewrite fetchRecords_run, Hx. reflexivity.
  - intros record. unfold fallbackRow.
    destruct (Date_parse (timestamp record)) as [t|]; cbn [id name ip rstatus date time];
      rewrite !or_empty_r; repeat split; try reflexivity; try discriminate.
    + injection H as <-. reflexivity.
    + injection H as <-. reflexivity.
  - intros w wb Hx. rewrite fetchRecords_run, Hx. reflexivity.
  - intros w Hx. rewrite fetchRecords_run, Hx. reflexivity.
  - intros clk req w xf xw. apply handle_mark_response_ignores_xlsx.
  - intros off t record Ht Hts. unfold fallbackRow.
    cbn [toISOString toLocaleTimeString Date_parse FixedOffset.runtime].
    rewrite Hts, (FixedOffsetFacts.parseIso_isoString t Ht).
    destruct (FixedOffsetFacts.isoString_date t Ht) as [-> _].
    split; reflexivity.
Qed.

Lemma report_store_selection_witness :
  handle_records (rt := Sample.rt) Sample.cfg Sample.ada Sample.corrupt_xlsx =
    (mkResponse 200
       (BArray [mkReportRow "U002" "Ada" "2024-01-01" "13:45:00" "203.0.113.9" "Present"]),
     Sample.corrupt_xlsx).
Proof.
  destruct (report_store_selection Sample.rt Sample.cfg) as (Hfallback & _).
  unfold handle_records, records. cbn [negb orb JsString.truthy].
  change (negb (JsString.truthy (ADMIN_TOKEN Sample.cfg)) ||
          negb (String.eqb (JsString.or (authorization Sample.ada) "") (ADMIN_TOKEN Sample.cfg)))
    with false.
  cbv iota. rewrite bind_run, (Hfallback Sample.corrupt_xlsx eq_refl). reflexivity.
Defined.


(** C9.  On a server whose local zone is [off] minutes east of UTC, for
    instants from the epoch to the end of year 9999.  The row that the mark
    handler writes for an accepted, non-suppressed submission (file
    writable, sheet there or able to be made) has six cells, of which the
    Date cell is the UTC calendar date of the instant read for the Excel
    block and the Time cell the local time of day of that instant.  The
    handler answers "already marked" exactly when the rules give Present and
    db.json holds a Present record of the submitting student whose timestamp
    starts with the UTC calendar date of the instant the check reads; for a
    timestamp written by [toISOString] that is the test that the two
    instants lie on the same UTC day.  Whenever the zone is not UTC there is
    an instant whose UTC date differs from its local date, so that the Date
    cell is not the day on which the Time cell was read on the local
    clock. *)
Theorem excel_date_utc_time_local (off : Z) :
  (forall cfg clk req w,
     accepted req = true ->
     let dc := decide_submission cfg req (currentDb w) in
     suppressedBy (rt := FixedOffset.runtime off) clk req dc (currentDb w) = None ->
     xlsx_writable w = true ->
     sheetAvailable (xlsx_file w) = true ->
     0 <= t_excel clk < FixedOffset.endOfTime ->
     exists wb' cells,
       xlsx_file (snd (handle_mark (rt := FixedOffset.runtime off) cfg clk req w)) =
         Some (XlsxBook wb') /\
       last (attendanceRows wb') = Some cells /\
       length cells = 6%nat /\
       cells !! 2%nat = Some (FixedOffset.isoDate (t_excel clk)) /\
       cells !! 3%nat = Some (FixedOffset.clockTime (t_excel clk + off * 60000))) /\
  (forall cfg clk req w,
     accepted req = true ->
     0 <= t_today clk < FixedOffset.endOfTime ->
     let dc := decide_submission cfg req (currentDb w) in
     (member "alreadyMarked"
        (fst (handle_mark (rt := FixedOffset.runtime off) cfg clk req w)) = Some (JBool true) <->
      d_status dc = "Present" /\
      exists r,
        In r (attendanceOf w) /\
        student_id r = body_student_id req /\
        status r = "Present" /\
        JsString.slice0 10 (timestamp r) = FixedOffset.isoDate (t_today clk))) /\
  (forall t now,
     0 <= t < FixedOffset.endOfTime -> 0 <= now < FixedOffset.endOfTime ->
     (JsString.slice0 10 (FixedOffset.isoString t) = FixedOffset.isoDate now <->
      t / FixedOffset.msPerDay = now / FixedOffset.msPerDay)) /\
  (off <> 0 -> -1440 < off < 1440 ->
   exists t : Instant,
     0 <= t < FixedOffset.endOfTime /\ FixedOffset.isoDate t <> FixedOffset.localDate off t).
Proof.
  split; [|split; [|split]].
  - intros cfg clk req w Hacc dc Hsup Hx Hav Ht.
    pose proof (openedWorkbook_available _ Hav) as Hopen.
    destruct (handle_mark_xlsx (rt := FixedOffset.runtime off) cfg clk req w _ Hacc Hsup Hx
                Hopen) as [Hfile _].
    eexists. eexists. split; [exact Hfile|].
    rewrite attendanceRows_stored, (attendanceRows_addRow _ _ _ Hopen), List.map_app.
    cbn [List.map]. rewrite last_snoc. split; [reflexivity|].
    unfold storedRow. cbn [List.map length lookup list_lookup].
    cbn [toISOString toLocaleTimeString FixedOffset.runtime].
    destruct (FixedOffsetFacts.isoString_date (t_excel clk) Ht) as [-> _].
    rewrite (storedText_plain _ (FixedOffsetFacts.isoDate_plain _ Ht)).
    unfold FixedOffset.localeTimeString.
    rewrite (storedText_plain _ (FixedOffsetFacts.clockTime_plain _)).
    split; [reflexivity|]. split; reflexivity.
  - intros cfg clk req w Hacc Ht dc.
    rewrite (handle_mark_accepted cfg clk req w Hacc). unfold markOutcome. fold dc.
    assert (Htoday : JsString.slice0 10 (toISOString (DateRuntime := FixedOffset.runtime off)
                                           (t_today clk)) =
                     FixedOffset.isoDate (t_today clk)).
    { cbn [toISOString FixedOffset.runtime].
      apply (FixedOffsetFacts.isoString_date (t_today clk) Ht). }
    destruct (suppressedBy clk req dc (currentDb w)) as [found|] eqn:Hsup.
    + split; [intros _|reflexivity].
      unfold suppressedBy in Hsup.
      destruct (alreadyMarkedPresent _ _) as [found'|] eqn:Hfind; [|discriminate Hsup].
      destruct (String.eqb (d_status dc) "Present") eqn:Hst; [|discriminate Hsup].
      apply String.eqb_eq in Hst. split; [exact Hst|].
      destruct (attendance (currentDb w)) as [l|] eqn:Hl.
      * destruct (alreadyMarkedPresent_Some _ _ _ _ _ Hl Hfind) as [Hin (Hid & Hday & Hpr)].
        exists found'. unfold attendanceOf. rewrite Hl.
        split; [exact Hin|]. split; [exact Hid|]. split; [exact Hpr|].
        rewrite Hday. exact Htoday.
      * unfold alreadyMarkedPresent, historyOf in Hfind. rewrite Hl in Hfind.
        discriminate Hfind.
    + assert (Hrhs : ~ (d_status dc = "Present" /\
                        exists r,
                          In r (attendanceOf w) /\
                          student_id r = body_student_id req /\
                          status r = "Present" /\
                          JsString.slice0 10 (timestamp r) =
                            FixedOffset.isoDate (t_today clk))).
      { intros (Hst & r & Hin & Hid & Hpr & Hday).
        unfold attendanceOf in Hin.
        destruct (attendance (currentDb w)) as [l|] eqn:Hl; [|destruct Hin].
        destruct (alreadyMarkedPresent_complete
                    (JsString.slice0 10 (toISOString (DateRuntime := FixedOffset.runtime off)
                                           (t_today clk)))
                    (body_student_id req) (currentDb w) l r Hl Hin) as [found Hfound].
        { split; [exact Hid|]. split; [|exact Hpr]. rewrite Hday. symmetry. exact Htoday. }
        unfold suppressedBy in Hsup. rewrite Hfound, Hst in Hsup. discriminate Hsup. }
      destruct (attendance (currentDb w)); [destruct (db_writable w)|]; cbn [fst];
        (split; [discriminate | intros Hyes; destruct (Hrhs Hyes)]).
  - intros t now Ht Hnow.
    destruct (FixedOffsetFacts.isoString_date now Hnow) as [_ <-].
    apply FixedOffsetFacts.same_prefix_same_day; assumption.
  - apply FixedOffsetFacts.local_day_differs.
Qed.

Lemma excel_date_utc_time_local_witness :
  (exists wb' cells,
     xlsx_file (snd (handle_mark (rt := Sample.rt) Sample.cfg Sample.clk Sample.ada
                       Sample.registered)) = Some (XlsxBook wb') /\
     last (attendanceRows wb') = Some cells /\
     cells !! 2%nat = Some "2024-01-01"%string /\
     cells !! 3%nat = Some "05:00:00"%string) /\
  FixedOffset.localDate 330 (t_excel Sample.clk) = "2024-01-02" /\
  member "alreadyMarked"
    (fst (handle_mark (rt := Sample.rt) Sample.cfg Sample.clk Sample.ada Sample.marked)) =
    Some (JBool true) /\
  exists t : Instant,
    0 <= t < FixedOffset.endOfTime /\ FixedOffset.isoDate t <> FixedOffset.localDate 330 t.
Proof.
  destruct (excel_date_utc_time_local 330) as (Hrow & Hguard & _ & Hdiff).
  split; [|split; [|split]].
  - destruct (Hrow Sample.cfg Sample.clk Sample.ada Sample.registered eq_refl eq_refl eq_refl
                eq_refl) as (wb' & cells & Hfile & Hlast & _ & Hdate & Htime).
    { vm_compute. split; [discriminate|reflexivity]. }
    exists wb', cells. repeat split; assumption.
  - reflexivity.
  - apply (Hguard Sample.cfg Sample.clk Sample.ada Sample.marked eq_refl).
    { vm_compute. split; [discriminate|reflexivity]. }
    split; [reflexivity|]. exists Sample.present.
    split; [left; reflexivity|]. repeat split; reflexivity.
  - apply Hdiff; [discriminate|lia].
Defined.

(** ** Scenarios *)

(** A submission from a private address is Absent, on a server that has
    stored nothing yet; db.json and attendance.xlsx are created. *)
Example scenario_private_address :
  let out := handle_mark (rt := Sample.rt) Sample.cfg Sample.clk
               (mkRequest "U001" "Ada" "" "::ffff:10.0.0.5" "" "") Sample.fresh in
  member "status" (fst out) = Some (JStr "Absent") /\
  member "reason" (fst out) = Some (JStr "private_ip") /\
  member "clientIp" (fst out) = Some (JStr "10.0.0.5") /\
  member "proxy" (fst out) = Some (JStr "") /\
  (exists record,
     db_file (snd out) = Some (DbJson (mkDb (Some ∅) (Some [record]))) /\
     allowedIp record = JNull) /\
  xlsx_file (snd out) =
    Some (XlsxBook
            [mkWorksheet "Attendance"
               [["ID"; "Name"; "Date"; "Time"; "IP Address"; "Status"];
                ["U001"; "Ada"; "2024-01-01"; "05:00:00"; "10.0.0.5"; "Absent"]]])%string.
Proof. vm_compute. repeat split. eexists. split; reflexivity. Qed.

(** The first address of a forwarding chain decides, and the chain sets the
    proxy flag. *)
Example scenario_forwarding_chain :
  let req := mkRequest "U002" "Ada" " 203.0.113.9 , 10.0.0.1" "192.168.1.1" "" "" in
  extractClientIp req = "203.0.113.9" /\
  possibleProxy req = JBool true /\
  member "status" (fst (handle_mark (rt := Sample.rt) Sample.cfg Sample.clk req Sample.registered))
  = Some (JStr "Present").
Proof. repeat split. Qed.

(** The same student submitting twice on one day from the expected address:
    the second answer is [alreadyMarked] and stores nothing. *)
Example scenario_second_submission :
  let first := handle_mark (rt := Sample.rt) Sample.cfg Sample.clk Sample.ada Sample.registered in
  let second := handle_mark (rt := Sample.rt) Sample.cfg
                  (mkMarkClock 1704153000000 1704153000005 1704153000010)
                  Sample.ada (snd first) in
  member "reason" (fst first) = Some (JStr "ip_matched") /\
  member "alreadyMarked" (fst second) = Some (JBool true) /\
  member "message" (fst second) =
    Some (JStr "Already marked present today (2024-01-01T23:30:00.010Z).") /\
  snd second = snd first.
Proof. repeat split. Qed.

(** Two Absent submissions on one day are both recorded. *)
Example scenario_absent_twice :
  let first := handle_mark (rt := Sample.rt) Sample.cfg Sample.clk Sample.ada_elsewhere
                 Sample.registered in
  let second := handle_mark (rt := Sample.rt) Sample.cfg Sample.clk Sample.ada_elsewhere
                  (snd first) in
  exists r1 r2,
    db_file (snd second) = Some (DbJson (mkDb (Some Sample.registry) (Some [r1; r2]))) /\
    status r1 = "Absent" /\ status r2 = "Absent" /\
    reason r1 = "ip_mismatch" /\ reason r2 = "ip_mismatch".
Proof. vm_compute. do 2 eexists. repeat split. Qed.

(** ** Further properties: the client address *)

Lemma truthy_false (s : string) : JsString.truthy s = false <-> s = EmptyString.
Proof. destruct s; cbn; split; intros; congruence. Qed.

Lemma mark_depends_on_address (rt : DateRuntime) (cfg : Config) (clk : MarkClock)
  (req1 req2 : Request) :
  body_student_id req1 = body_student_id req2 ->
  body_student_name req1 = body_student_name req2 ->
  extractClientIp req1 = extractClientIp req2 ->
  possibleProxy req1 = possibleProxy req2 ->
  forall w, handle_mark cfg clk req1 w = handle_mark cfg clk req2 w.
Proof.
  intros Hid Hname Hip Hproxy w. unfold handle_mark, mark.
  rewrite Hid, Hname, Hip, Hproxy. reflexivity.
Qed.

(** X1.  A non-empty X-Forwarded-For header decides alone: two submissions
    that differ only in the socket and connection addresses get the same
    answer and leave the same files, so the address of the peer is never
    looked at when the header is present. *)
Theorem forwarded_header_overrides_socket (rt : DateRuntime) (cfg : Config) (clk : MarkClock)
  (studentId studentName forwarded socket1 connection1 socket2 connection2 auth1 auth2 : string)
  (w : World) :
  forwarded <> "" ->
  extractClientIp (mkRequest studentId studentName forwarded socket1 connection1 auth1) =
  extractClientIp (mkRequest studentId studentName forwarded socket2 connection2 auth2) /\
  handle_mark cfg clk (mkRequest studentId studentName forwarded socket1 connection1 auth1) w =
  handle_mark cfg clk (mkRequest studentId studentName forwarded socket2 connection2 auth2) w.
Proof.
  intros Hfw. apply truthy_true in Hfw.
  assert (Hip : extractClientIp (mkRequest studentId studentName forwarded socket1 connection1 auth1) =
                extractClientIp (mkRequest studentId studentName forwarded socket2 connection2 auth2)).
  { unfold extractClientIp. cbn [x_forwarded_for socket_remoteAddress connection_remoteAddress].
    rewrite Hfw. cbn [negb andb]. rewrite Hfw. reflexivity. }
  split; [exact Hip|].
  apply mark_depends_on_address; [reflexivity|reflexivity|exact Hip|reflexivity].
Qed.

Lemma forwarded_header_overrides_socket_witness :
  member "status"
    (fst (handle_mark (rt := Sample.rt) Sample.cfg Sample.clk
            (mkRequest "U002" "Ada" "203.0.113.9" "198.51.100.7" "" "") Sample.registered)) =
  member "status"
    (fst (handle_mark (rt := Sample.rt) Sample.cfg Sample.clk
            (mkRequest "U002" "Ada" "203.0.113.9" "10.0.0.5" "10.0.0.5" "") Sample.registered)).
Proof.
  destruct (forwarded_header_overrides_socket Sample.rt Sample.cfg Sample.clk "U002" "Ada"
              "203.0.113.9" "198.51.100.7" "" "10.0.0.5" "10.0.0.5" "" "" Sample.registered)
    as [_ Hsame]; [discriminate|].
  rewrite Hsame. reflexivity.
Defined.

(** X2.  A forwarding chain whose first entry is blank makes the address
    unresolvable even when the socket address is known: the header is taken
    first, its first entry trims to nothing, and the submission is answered
    400 without any file being touched. *)
Theorem blank_first_hop_rejected (rt : DateRuntime) (cfg : Config) (clk : MarkClock)
  (req : Request) (w : World) :
  JsString.includes "," (x_forwarded_for req) = true ->
  JsString.trim (JsString.split0 "," (x_forwarded_for req)) = "" ->
  body_student_id req <> "" -> body_student_name req <> "" ->
  extractClientIp req = "" /\
  handle_mark cfg clk req w =
    (json 400 [("message", JStr "Could not determine your IP address.");
               ("success", JBool false)], w).
Proof.
  intros Hcomma Hblank Hid Hname.
  assert (Hfw : JsString.truthy (x_forwarded_for req) = true).
  { destruct (x_forwarded_for req); [discriminate Hcomma|reflexivity]. }
  assert (Hip : extractClientIp req = "").
  { unfold extractClientIp. rewrite Hfw. cbn [negb andb]. rewrite Hfw. cbn [negb andb].
    rewrite Hfw, Hcomma. cbn [andb]. rewrite Hblank. reflexivity. }
  split; [exact Hip|].
  apply truthy_true in Hid, Hname.
  rewrite handle_mark_rejected.
  - unfold rejection. rewrite Hid, Hname. reflexivity.
  - unfold accepted. rewrite Hip, Hid, Hname. reflexivity.
Qed.

Lemma blank_first_hop_rejected_witness :
  http_status
    (fst (handle_mark (rt := Sample.rt) Sample.cfg Sample.clk
            (mkRequest "U002" "Ada" " , 203.0.113.9" "203.0.113.9" "" "") Sample.registered))
  = 400.
Proof.
  pose proof (blank_first_hop_rejected Sample.rt Sample.cfg Sample.clk
                (mkRequest "U002" "Ada" " , 203.0.113.9" "203.0.113.9" "" "") Sample.registered
                eq_refl eq_refl ltac:(discriminate) ltac:(discriminate)) as [_ Hrun].
  rewrite Hrun. reflexivity.
Defined.

(** X3.  A direct connection (no forwarding header) from an IPv4-mapped
    IPv6 address is seen under its IPv4 address, and from the IPv6 loopback
    under 127.0.0.1; the address extracted is never the IPv6 loopback
    literal itself, whatever the request. *)
Theorem mapped_and_loopback_addresses :
  (forall studentId studentName a connection auth,
     JsString.includes "," a = false -> a <> "::1" ->
     extractClientIp
       (mkRequest studentId studentName "" ("::ffff:" +:+ a) connection auth) = a) /\
  (forall studentId studentName connection auth,
     extractClientIp (mkRequest studentId studentName "" "::1" connection auth) = "127.0.0.1" /\
     extractClientIp (mkRequest studentId studentName "" "::ffff:::1" connection auth) =
       "127.0.0.1") /\
  (forall req, extractClientIp req <> "::1").
Proof.
  split; [|split].
  - intros studentId studentName a connection auth Hcomma Hne.
    assert (Hdirect : forall s,
      JsString.truthy s = true -> JsString.includes "," s = false ->
      JsString.startsWith "::ffff:" s = true ->
      extractClientIp (mkRequest studentId studentName "" s connection auth) =
      JsString.or (if String.eqb (JsString.replace "::ffff:" "" s) "::1"
                   then "127.0.0.1"%string else JsString.replace "::ffff:" "" s) "").
    { intros s Hs Hc Hp. unfold extractClientIp.
      cbn [x_forwarded_for socket_remoteAddress connection_remoteAddress].
      cbn [JsString.truthy String.eqb negb andb].
      repeat (first [rewrite Hs | rewrite Hc | rewrite Hp]; cbn [negb andb]).
      reflexivity. }
    rewrite Hdirect; [|reflexivity|exact Hcomma|destruct a; reflexivity].
    replace (JsString.replace "::ffff:" "" ("::ffff:" +:+ a)) with a
      by (destruct a; reflexivity).
    apply String.eqb_neq in Hne. rewrite Hne. apply or_empty_r.
  - intros studentId studentName connection auth. split; reflexivity.
  - intros req. unfold extractClientIp.
    match goal with
    | |- JsString.or (if String.eqb ?x "::1" then _ else _) "" <> _ =>
        destruct (String.eqb x "::1") eqn:Heq
    end.
    + discriminate.
    + rewrite or_empty_r. apply String.eqb_neq. exact Heq.
Qed.

Lemma mapped_and_loopback_addresses_witness :
  extractClientIp (mkRequest "U001" "Ada" "" "::ffff:10.0.0.5" "" "") = "10.0.0.5" /\
  isPrivateIp (extractClientIp (mkRequest "U001" "Ada" "" "::ffff:10.0.0.5" "" "")) = true.
Proof.
  destruct mapped_and_loopback_addresses as (Hmapped & _ & _).
  pose proof (Hmapped "U001"%string "Ada"%string "10.0.0.5"%string ""%string ""%string
                eq_refl ltac:(discriminate)) as Hm.
  split; [exact Hm | reflexivity].
Defined.

(** ** Further properties: the private classification *)

Section DottedDecimal.

Import FixedOffset.

Lemma digit_neq (n : Z) (c : ascii) :
  (nat_of_ascii c < 48 \/ 57 < nat_of_ascii c)%nat -> Ascii.eqb (digit n) c = false.
Proof.
  intros Hc. apply Ascii.eqb_neq. intros Heq.
  assert (Hk : (Z.to_nat (n mod 10) < 10)%nat).
  { pose proof (Z.mod_pos_bound n 10 ltac:(lia)). lia. }
  unfold digit in Heq. apply (f_equal nat_of_ascii) in Heq.
  rewrite nat_ascii_embedding in Heq by lia. lia.
Qed.

Lemma ascii_dec_refl (a : ascii) : exists e, ascii_dec a a = left e.
Proof. destruct (ascii_dec a a) as [e|Hne]; [eauto|congruence]. Qed.

Lemma prefix_nil (s : string) : String.prefix "" s = true.
Proof. destruct s; reflexivity. Qed.

(** Comparing two texts up to their first dot. *)
Lemma prefix_to_dot (p s q r : string) :
  JsString.includes "." p = false -> JsString.includes "." s = false ->
  String.prefix (p +:+ String "." q) (s +:+ String "." r) =
  String.eqb p s && String.prefix q r.
Proof.
  revert s. induction p as [|a p IH]; intros s Hp Hs.
  - destruct s as [|b s].
    + change (String.prefix (String "." q) (String "." r) = String.prefix q r).
      cbn [String.prefix]. destruct (ascii_dec_refl ".") as [e ->]. reflexivity.
    + cbn [JsString.includes] in Hs. destruct (Ascii.eqb b ".") eqn:Hb; [discriminate|].
      change (String.prefix (String "." q) (String b (s +:+ String "." r)) = false).
      cbn [String.prefix]. destruct (ascii_dec "." b) as [<-|_]; [|reflexivity].
      rewrite Ascii.eqb_refl in Hb. discriminate.
  - cbn [JsString.includes] in Hp. destruct (Ascii.eqb a ".") eqn:Ha; [discriminate|].
    destruct s as [|b s].
    + change (String.prefix (String a (p +:+ String "." q)) (String "." r) = false).
      cbn [String.prefix]. destruct (ascii_dec a ".") as [->|_]; [|reflexivity].
      rewrite Ascii.eqb_refl in Ha. discriminate.
    + cbn [JsString.includes] in Hs. destruct (Ascii.eqb b ".") eqn:Hb; [discriminate|].
      change (String.prefix (String a (p +:+ String "." q)) (String b (s +:+ String "." r)) =
              Ascii.eqb a b && String.eqb p s && String.prefix q r).
      cbn [String.prefix]. destruct (ascii_dec a b) as [<-|Hne].
      * rewrite Ascii.eqb_refl. apply IH; assumption.
      * apply Ascii.eqb_neq in Hne. rewrite Hne. reflexivity.
Qed.

Lemma eqb_to_dot (p s q r : string) :
  JsString.includes "." p = false -> JsString.includes "." s = false ->
  String.eqb (p +:+ String "." q) (s +:+ String "." r) =
  String.eqb p s && String.eqb q r.
Proof.
  revert s. induction p as [|a p IH]; intros s Hp Hs.
  - destruct s as [|b s].
    + change (String.eqb (String "." q) (String "." r) = String.eqb q r).
      cbn [String.eqb]. rewrite Ascii.eqb_refl. reflexivity.
    + cbn [JsString.includes] in Hs. destruct (Ascii.eqb b ".") eqn:Hb; [discriminate|].
      change (String.eqb (String "." q) (String b (s +:+ String "." r)) = false).
      cbn [String.eqb]. rewrite Ascii.eqb_sym, Hb. reflexivity.
  - cbn [JsString.includes] in Hp. destruct (Ascii.eqb a ".") eqn:Ha; [discriminate|].
    destruct s as [|b s].
    + change (String.eqb (String a (p +:+ String "." q)) (String "." r) = false).
      cbn [String.eqb]. rewrite Ha. reflexivity.
    + cbn [JsString.includes] in Hs. destruct (Ascii.eqb b ".") eqn:Hb; [discriminate|].
      change (String.eqb (String a (p +:+ String "." q)) (String b (s +:+ String "." r)) =
              Ascii.eqb a b && String.eqb p s && String.eqb q r).
      cbn [String.eqb]. rewrite IH by assumption.
      destruct (Ascii.eqb a b); reflexivity.
Qed.

Lemma digit_not_dot (n : Z) : Ascii.eqb (digit n) "." = false.
Proof. apply digit_neq. left. apply Nat.ltb_lt. reflexivity. Qed.

Lemma digit_not_l (n : Z) : Ascii.eqb (digit n) "l" = false.
Proof. apply digit_neq. right. apply Nat.ltb_lt. reflexivity. Qed.

Lemma octet_shape (a : Z) :
  JsString.includes "." (octet a) = false /\
  forall rest, JsString.truthy (octet a +:+ rest) = true /\
               String.eqb (octet a +:+ rest) "localhost" = false.
Proof.
  unfold octet.
  destruct (a <? 10); [|destruct (a <? 100)]; cbn [JsString.includes];
    rewrite ?digit_not_dot; (split; [reflexivity|]); intros rest;
    (split; [reflexivity|]);
    cbv [String.append]; cbn [String.eqb]; rewrite digit_not_l; reflexivity.
Qed.

Lemma octet_number (a : Z) : 0 <= a <= 255 -> number 0 (octet a) = Some a.
Proof.
  intros Ha. unfold octet.
  destruct (a <? 10) eqn:H10; [|destruct (a <? 100) eqn:H100];
    cbn [number]; rewrite !FixedOffsetFacts.digitVal_digit; f_equal;
    try apply Z.ltb_lt in H10; try apply Z.ltb_ge in H10;
    try apply Z.ltb_lt in H100; try apply Z.ltb_ge in H100;
    Z.div_mod_to_equations; lia.
Qed.

Lemma octet_eqb (x a : Z) :
  0 <= x <= 255 -> 0 <= a <= 255 -> String.eqb (octet x) (octet a) = (x =? a).
Proof.
  intros Hx Ha. destruct (Z.eqb_spec x a) as [->|Hne].
  - apply String.eqb_refl.
  - apply String.eqb_neq. intros Heq. apply Hne.
    pose proof (octet_number x Hx) as Nx. pose proof (octet_number a Ha) as Na.
    rewrite Heq in Nx. congruence.
Qed.

End DottedDecimal.

Lemma startsWith_one_octet (x a : Z) (rest : string) :
  0 <= x <= 255 -> 0 <= a <= 255 ->
  JsString.startsWith (octet x +:+ String "." "") (octet a +:+ String "." rest) = (x =? a).
Proof.
  intros Hx Ha. unfold JsString.startsWith.
  rewrite prefix_to_dot by apply octet_shape.
  rewrite octet_eqb, prefix_nil, andb_true_r by assumption. reflexivity.
Qed.

Lemma startsWith_two_octets (x y a b : Z) (rest : string) :
  0 <= x <= 255 -> 0 <= y <= 255 -> 0 <= a <= 255 -> 0 <= b <= 255 ->
  JsString.startsWith (octet x +:+ String "." (octet y +:+ String "." ""))
    (octet a +:+ String "." (octet b +:+ String "." rest)) = (x =? a) && (y =? b).
Proof.
  intros Hx Hy Ha Hb. unfold JsString.startsWith.
  rewrite prefix_to_dot by apply octet_shape.
  rewrite octet_eqb by assumption. f_equal.
  apply startsWith_one_octet; assumption.
Qed.

Lemma eqb_four_octets (x y z u a b c d : Z) :
  0 <= x <= 255 -> 0 <= y <= 255 -> 0 <= z <= 255 -> 0 <= u <= 255 ->
  0 <= a <= 255 -> 0 <= b <= 255 -> 0 <= c <= 255 -> 0 <= d <= 255 ->
  String.eqb
    (octet a +:+ String "." (octet b +:+ String "." (octet c +:+ String "." (octet d))))
    (octet x +:+ String "." (octet y +:+ String "." (octet z +:+ String "." (octet u)))) =
  (a =? x) && (b =? y) && (c =? z) && (d =? u).
Proof.
  intros. rewrite !eqb_to_dot by apply octet_shape.
  rewrite !octet_eqb by assumption. rewrite !andb_assoc. reflexivity.
Qed.

(** Evaluate the comparisons of two numerals in the goal. *)
Ltac eval_numeral_eqb :=
  repeat match goal with
         | |- context [Z.eqb (Zpos ?p) (Zpos ?q)] =>
             let v := eval vm_compute in (Z.eqb (Zpos p) (Zpos q)) in
             change (Z.eqb (Zpos p) (Zpos q)) with v
         end;
  cbn [orb andb].

(** X4.  On an address written as four decimal octets, the prefix tests of
    [isPrivateIp] decide exactly the private-use ranges 10.0.0.0/8,
    172.16.0.0/12 and 192.168.0.0/16 and the single address 127.0.0.1; the
    rest of 127.0.0.0/8 and every other address is not private. *)
Theorem isPrivateIp_dotted_quad (a b c d : Z) :
  0 <= a <= 255 -> 0 <= b <= 255 -> 0 <= c <= 255 -> 0 <= d <= 255 ->
  isPrivateIp (dottedQuad a b c d) = inPrivateRange a b c d.
Proof.
  intros Ha Hb Hc Hd. unfold isPrivateIp, inPrivateRange.
  change (dottedQuad a b c d)
    with (octet a +:+ String "." (octet b +:+ String "." (octet c +:+ String "." (octet d)))).
  destruct (octet_shape a) as [_ Hshape].
  destruct (Hshape (String "." (octet b +:+ String "." (octet c +:+ String "." (octet d)))))
    as [-> ->]. cbn [negb].
  change "10."%string with (octet 10 +:+ String "." "").
  change "192.168."%string with (octet 192 +:+ String "." (octet 168 +:+ String "." "")).
  change "172.16."%string with (octet 172 +:+ String "." (octet 16 +:+ String "." "")).
  change "172.17."%string with (octet 172 +:+ String "." (octet 17 +:+ String "." "")).
  change "172.18."%string with (octet 172 +:+ String "." (octet 18 +:+ String "." "")).
  change "172.19."%string with (octet 172 +:+ String "." (octet 19 +:+ String "." "")).
  change "172.20."%string with (octet 172 +:+ String "." (octet 20 +:+ String "." "")).
  change "172.21."%string with (octet 172 +:+ String "." (octet 21 +:+ String "." "")).
  change "172.22."%string with (octet 172 +:+ String "." (octet 22 +:+ String "." "")).
  change "172.23."%string with (octet 172 +:+ String "." (octet 23 +:+ String "." "")).
  change "172.24."%string with (octet 172 +:+ String "." (octet 24 +:+ String "." "")).
  change "172.25."%string with (octet 172 +:+ String "." (octet 25 +:+ String "." "")).
  change "172.26."%string with (octet 172 +:+ String "." (octet 26 +:+ String "." "")).
  change "172.27."%string with (octet 172 +:+ String "." (octet 27 +:+ String "." "")).
  change "172.28."%string with (octet 172 +:+ String "." (octet 28 +:+ String "." "")).
  change "172.29."%string with (octet 172 +:+ String "." (octet 29 +:+ String "." "")).
  change "172.30."%string with (octet 172 +:+ String "." (octet 30 +:+ String "." "")).
  change "172.31."%string with (octet 172 +:+ String "." (octet 31 +:+ String "." "")).
  change "127.0.0.1"%string
    with (octet 127 +:+ String "." (octet 0 +:+ String "." (octet 0 +:+ String "." (octet 1)))).
  rewrite startsWith_one_octet by lia.
  rewrite !startsWith_two_octets by lia.
  rewrite eqb_four_octets by lia.
  rewrite orb_false_r.
  destruct (Z.eq_dec a 10) as [->|H10]; [reflexivity|].
  destruct (Z.eq_dec a 192) as [->|H192].
  { eval_numeral_eqb. rewrite (Z.eqb_sym 168 b).
    destruct (b =? 168); reflexivity. }
  destruct (Z.eq_dec a 127) as [->|H127]; [reflexivity|].
  destruct (Z.eq_dec a 172) as [->|H172].
  - eval_numeral_eqb.
    destruct (Z_le_dec 16 b) as [Hlo|Hlo]; [destruct (Z_le_dec b 31) as [Hhi|Hhi]|].
    + assert (Hcases : b = 16 \/ b = 17 \/ b = 18 \/ b = 19 \/ b = 20 \/ b = 21 \/
                       b = 22 \/ b = 23 \/ b = 24 \/ b = 25 \/ b = 26 \/ b = 27 \/
                       b = 28 \/ b = 29 \/ b = 30 \/ b = 31) by lia.
      repeat (destruct Hcases as [->|Hcases]; [reflexivity|]). subst b. reflexivity.
    + replace (b <=? 31) with false by (symmetry; apply Z.leb_gt; lia).
      rewrite andb_false_r, orb_false_r.
      repeat match goal with
             | |- context [Z.eqb ?k b] =>
                 replace (Z.eqb k b) with false by (symmetry; apply Z.eqb_neq; lia)
             end.
      reflexivity.
    + replace (16 <=? b) with false by (symmetry; apply Z.leb_gt; lia).
      repeat match goal with
             | |- context [Z.eqb ?k b] =>
                 replace (Z.eqb k b) with false by (symmetry; apply Z.eqb_neq; lia)
             end.
      reflexivity.
  - repeat match goal with
           | |- context [Z.eqb ?k a] =>
               replace (Z.eqb k a) with false by (symmetry; apply Z.eqb_neq; lia)
           | |- context [Z.eqb a ?k] =>
               replace (Z.eqb a k) with false by (symmetry; apply Z.eqb_neq; lia)
           end.
    reflexivity.
Qed.

Lemma isPrivateIp_dotted_quad_witness :
  isPrivateIp "172.31.255.254" = true /\
  isPrivateIp "172.32.0.1" = false /\
  isPrivateIp "127.0.0.2" = false.
Proof.
  pose proof (isPrivateIp_dotted_quad 172 31 255 254 ltac:(lia) ltac:(lia) ltac:(lia) ltac:(lia))
    as H1.
  pose proof (isPrivateIp_dotted_quad 172 32 0 1 ltac:(lia) ltac:(lia) ltac:(lia) ltac:(lia))
    as H2.
  pose proof (isPrivateIp_dotted_quad 127 0 0 2 ltac:(lia) ltac:(lia) ltac:(lia) ltac:(lia))
    as H3.
  split; [exact H1|]. split; [exact H2|exact H3].
Defined.

(** ** Further properties: the proxy flag *)

Lemma split_not_nil (c : ascii) (s : string) : JsString.split c s <> [].
Proof.
  induction s as [|a s IH]; cbn [JsString.split]; [discriminate|].
  destruct (Ascii.eqb a c); [discriminate|].
  destruct (JsString.split c s); [contradiction|discriminate].
Qed.

Lemma split_length_includes (c : ascii) (s : string) :
  Nat.ltb 1 (List.length (JsString.split c s)) = JsString.includes c s.
Proof.
  induction s as [|a s IH]; cbn [JsString.split JsString.includes]; [reflexivity|].
  destruct (Ascii.eqb a c).
  - pose proof (split_not_nil c s) as Hne.
    destruct (JsString.split c s); [contradiction|reflexivity].
  - pose proof (split_not_nil c s) as Hne.
    destruct (JsString.split c s) as [|h t]; [contradiction|]. exact IH.
Qed.

(** X5.  The proxy flag in the answers is not always a boolean: without an
    X-Forwarded-For header it is the empty string; with one, it is [true]
    exactly when the header contains a comma.  Both the success answer of
    the mark route and the answer of /api/my-ip carry this value. *)
Theorem proxy_flag_value (rt : DateRuntime) (cfg : Config) (clk : MarkClock) (req : Request)
  (w : World) :
  possibleProxy req =
    (if String.eqb (x_forwarded_for req) "" then JStr ""
     else JBool (JsString.includes "," (x_forwarded_for req))) /\
  member "possibleProxy" (my_ip req) = Some (possibleProxy req) /\
  (member "reason" (fst (handle_mark cfg clk req w)) = None \/
   member "proxy" (fst (handle_mark cfg clk req w)) = Some (possibleProxy req)).
Proof.
  split; [|split].
  - unfold possibleProxy. rewrite or_empty_r. unfold JsString.truthy.
    destruct (String.eqb (x_forwarded_for req) "") eqn:He; cbn [negb].
    + apply String.eqb_eq in He. rewrite He. reflexivity.
    + rewrite split_length_includes. reflexivity.
  - reflexivity.
  - rewrite handle_mark_run. destruct (accepted req).
    + unfold markOutcome. destruct (suppressedBy _ _ _ _); [left; reflexivity|].
      destruct (attendance _); [destruct (db_writable w)|];
        [right; reflexivity | left; reflexivity | left; reflexivity].
    + left. unfold rejection. destruct (negb _ || negb _); reflexivity.
Qed.

(** ** Further properties: db.js *)

(** What [getExpectedIp] reads after an assignment to the registry. *)
Lemma expectedIpOf_assign_eq (us : gmap string UserEntry)
  (att : option (list AttendanceRecord)) (key : string) (entry : UserEntry) :
  key <> "__proto__" \/ is_Some (us !! key) ->
  expectedIpOf (mkDb (Some (db.assign key entry us)) att) key = expectedIp entry.
Proof.
  intros Hstored. unfold expectedIpOf. cbn [users].
  rewrite (assign_lookup_eq key entry us Hstored). apply or_empty_r.
Qed.

Lemma expectedIpOf_assign_ne (d : Db) (key other : string) (entry : UserEntry) :
  other <> key ->
  expectedIpOf (mkDb (Some (db.assign key entry (usersOf d))) (attendance d)) other =
  expectedIpOf d other.
Proof.
  intros Hne. unfold expectedIpOf, usersOf. cbn [users].
  rewrite (assign_lookup_ne key other entry _ Hne).
  destruct (users d) as [us|]; [reflexivity|]. rewrite lookup_empty. reflexivity.
Qed.

Lemma expectedIpOf_assign_proto (d : Db) (key : string) (entry : UserEntry) :
  key = "__proto__" -> usersOf d !! key = None ->
  expectedIpOf (mkDb (Some (db.assign key entry (usersOf d))) (attendance d)) key = "".
Proof.
  intros Hkey Hnone. unfold expectedIpOf. cbn [users].
  rewrite (assign_proto_absent key entry _ Hkey Hnone), Hnone. reflexivity.
Qed.

(** X6.  Registry round trip: after a successful [setExpectedIp(id, ip)],
    [getExpectedIp(id)] returns [ip] and does not change the file, for every
    id other than [__proto__], and for [__proto__] too when the registry
    already has a member of that name; for [__proto__] without such a member
    nothing was stored and it returns null.  [getExpectedIp] of every other
    student returns what it returned before. *)
Theorem expectedIp_set_then_get (rt : DateRuntime) (now : Instant) (studentId ip : string)
  (w : World) :
  db_writable w = true ->
  let w' := snd (db.setExpectedIp now studentId ip w) in
  fst (db.setExpectedIp now studentId ip w) = inr tt /\
  (studentId <> "__proto__" \/ is_Some (usersOf (currentDb w) !! studentId) ->
   db.getExpectedIp studentId w' = (inr ip, w')) /\
  (studentId = "__proto__" -> usersOf (currentDb w) !! studentId = None ->
   db.getExpectedIp studentId w' = (inr "", w')) /\
  (forall other, other <> studentId ->
     db.getExpectedIp other w' = (fst (db.getExpectedIp other w), w')).
Proof.
  intros Hw. cbn zeta. rewrite setExpectedIp_run. cbn zeta. rewrite Hw. cbn [fst snd].
  change (match users (currentDb w) with Some us => us | None => ∅ end)
    with (usersOf (currentDb w)).
  split; [reflexivity|]. split; [|split].
  - intros Hstored. rewrite getExpectedIp_run. unfold afterLoad. cbn [db_file].
    rewrite currentDb_stored, (expectedIpOf_assign_eq _ _ _ _ Hstored). reflexivity.
  - intros Hkey Hnone. rewrite getExpectedIp_run. unfold afterLoad. cbn [db_file].
    rewrite currentDb_stored, (expectedIpOf_assign_proto _ _ _ Hkey Hnone). reflexivity.
  - intros other Hne. rewrite !getExpectedIp_run. unfold afterLoad at 1. cbn [db_file fst].
    rewrite currentDb_stored, (expectedIpOf_assign_ne _ _ _ _ Hne). reflexivity.
Qed.

Lemma expectedIp_set_then_get_witness :
  fst (db.getExpectedIp "U001"
         (snd (db.setExpectedIp (rt := Sample.rt) 1704151800000 "U001" "198.51.100.7"
                 Sample.registered))) = inr "198.51.100.7"%string /\
  fst (db.getExpectedIp "__proto__"
         (snd (db.setExpectedIp (rt := Sample.rt) 1704151800000 "__proto__" "198.51.100.7"
                 Sample.registered))) = inr ""%string.
Proof.
  split.
  - destruct (expectedIp_set_then_get Sample.rt 1704151800000 "U001" "198.51.100.7"
                Sample.registered eq_refl) as (_ & Hget & _).
    cbn zeta in Hget. rewrite Hget; [reflexivity|]. left. discriminate.
  - destruct (expectedIp_set_then_get Sample.rt 1704151800000 "__proto__" "198.51.100.7"
                Sample.registered eq_refl) as (_ & _ & Hproto & _).
    cbn zeta in Hproto. rewrite Hproto; reflexivity.
Defined.

(** X7.  Attendance round trip: after a successful [addAttendance(r)],
    [getAllAttendance()] returns the old list followed by [r], and
    [getAttendanceForStudent(id)] returns the old history of [id], followed
    by [r] exactly when [r] is a record of [id]; stored order is kept. *)
Theorem attendance_add_then_read (record : AttendanceRecord) (l : list AttendanceRecord)
  (w : World) :
  db_writable w = true ->
  attendance (currentDb w) = Some l ->
  let w' := snd (db.addAttendance record w) in
  fst (db.addAttendance record w) = inr tt /\
  db.getAllAttendance w' = (inr (l ++ [record]), w') /\
  (forall studentId,
     db.getAttendanceForStudent studentId w' =
     (inr (historyOf (currentDb w) studentId ++
           if String.eqb (student_id record) studentId then [record] else []), w')).
Proof.
  intros Hw Hl. cbn zeta. rewrite addAttendance_run, Hl, Hw. cbn [fst snd].
  split; [reflexivity|]. split.
  - rewrite getAllAttendance_run. reflexivity.
  - intros studentId. rewrite getAttendanceForStudent_run. unfold afterLoad. cbn [db_file].
    rewrite currentDb_stored. unfold historyOf. cbn [attendance]. rewrite Hl.
    rewrite List.filter_app. cbn [List.filter].
    destruct (String.eqb (student_id record) studentId); reflexivity.
Qed.

Lemma attendance_add_then_read_witness :
  fst (db.getAttendanceForStudent "U002" (snd (db.addAttendance Sample.present Sample.marked))) =
  inr [Sample.present; Sample.present].
Proof.
  destruct (attendance_add_then_read Sample.present [Sample.present] Sample.marked
              eq_refl eq_refl) as (_ & _ & Hhist).
  cbn zeta in Hhist. rewrite Hhist. reflexivity.
Defined.

(** X8.  A corrupted db.json is never repaired by reading and is replaced
    by the first successful write: the three readers return the empty
    answer and leave the unparsable text in place, while [addAttendance] and
    [setExpectedIp] store a database that holds only what was just written
    (for the id [__proto__], which names no member, the empty registry).
    When the file cannot be written both writers throw "Failed to save to
    database" and the text stays. *)
Theorem corrupt_db_replaced_on_write (rt : DateRuntime) (dw : bool) (xf : option XlsxData)
  (xw : bool) :
  let w := mkWorld (Some DbGarbage) dw xf xw in
  (forall studentId,
     db.getExpectedIp studentId w = (inr "", w) /\
     db.getAttendanceForStudent studentId w = (inr [], w)) /\
  db.getAllAttendance w = (inr [], w) /\
  (forall record,
     db.addAttendance record w =
     if dw
     then (inr tt,
           mkWorld (Some (DbJson (mkDb (Some ∅) (Some [record])))) dw xf xw)
     else (inl (Error "Failed to save to database"), w)) /\
  (forall now studentId ip,
     db.setExpectedIp now studentId ip w =
     if dw
     then (inr tt,
           mkWorld
             (Some (DbJson
                      (mkDb (Some (if String.eqb studentId "__proto__" then ∅
                                   else {[ studentId := mkUserEntry ip (toISOString now) ]}))
                         (Some []))))
             dw xf xw)
     else (inl (Error "Failed to save to database"), w)).
Proof.
  cbn zeta. split; [|split; [|split]].
  - intros studentId. rewrite getExpectedIp_run, getAttendanceForStudent_run.
    split; reflexivity.
  - rewrite getAllAttendance_run. reflexivity.
  - intros record. rewrite addAttendance_run. destruct dw; reflexivity.
  - intros now studentId ip. rewrite setExpectedIp_run. destruct dw; [|reflexivity].
    cbn. unfold db.assign. rewrite lookup_empty.
    destruct (String.eqb studentId "__proto__"); reflexivity.
Qed.

(** X9.  The three readers of db.js never throw and never change what is
    stored, in any state of db.json (missing, unparsable, or an object
    lacking its [users] or [attendance] member): each returns a value, the
    database read afterwards is the one read before, and attendance.xlsx is
    untouched.  The only file effect is the creation of an empty db.json when
    none exists.  With the [attendance] member missing both attendance
    readers return the empty list, and with the [users] member missing
    [getExpectedIp] returns null. *)
Theorem db_readers_are_safe (w : World) :
  (forall studentId,
     exists ip history,
       db.getExpectedIp studentId w = (inr ip, afterLoad w) /\
       db.getAttendanceForStudent studentId w = (inr history, afterLoad w) /\
       (users (currentDb w) = None -> ip = "") /\
       (attendance (currentDb w) = None -> history = [])) /\
  (exists all,
     db.getAllAttendance w = (inr all, afterLoad w) /\
     (attendance (currentDb w) = None -> all = [])) /\
  currentDb (afterLoad w) = currentDb w /\
  xlsx_file (afterLoad w) = xlsx_file w /\
  (db_file w <> None -> afterLoad w = w).
Proof.
  split; [|split; [|split; [|split]]].
  - intros studentId. rewrite getExpectedIp_run, getAttendanceForStudent_run.
    do 2 eexists. split; [reflexivity|]. split; [reflexivity|].
    unfold expectedIpOf, historyOf. split; intros ->; reflexivity.
  - rewrite getAllAttendance_run. eexists. split; [reflexivity|]. intros ->. reflexivity.
  - apply currentDb_afterLoad.
  - destruct w as [[[|d]|] [] xf xw]; reflexivity.
  - intros Hfile. unfold afterLoad. destruct (db_file w); [reflexivity|contradiction].
Qed.

Lemma db_readers_are_safe_witness :
  db.getAttendanceForStudent "U002"
    (mkWorld (Some (DbJson (mkDb (Some Sample.registry) None))) true None true) =
  (inr [], mkWorld (Some (DbJson (mkDb (Some Sample.registry) None))) true None true).
Proof.
  destruct (db_readers_are_safe
              (mkWorld (Some (DbJson (mkDb (Some Sample.registry) None))) true None true))
    as (Hread & _ & _ & _ & Hsame).
  destruct (Hread "U002"%string) as (ip & history & _ & Hhist & _ & Hnone).
  rewrite Hhist, (Hnone eq_refl), Hsame by discriminate. reflexivity.
Defined.

(** ** Further properties: the admin routes *)

Section AdminRun.

Context {rt : DateRuntime}.
Variable cfg : Config.

Lemma authorized_negb (token : string) :
  negb (JsString.truthy (ADMIN_TOKEN cfg)) || negb (String.eqb token (ADMIN_TOKEN cfg)) =
  negb (authorized cfg token).
Proof. unfold authorized. rewrite negb_andb. reflexivity. Qed.

Lemma handle_set_expected_ip_run (now : Instant) (req : SetRequest) (w : World) :
  handle_set_expected_ip cfg now req w =
  if negb (authorized cfg (setToken req)) then (unauthorizedResponse, w)
  else if negb (JsString.truthy (set_student_id req)) ||
          negb (JsString.truthy (set_expected_ip req))
  then (json 400 [("success", JBool false);
                  ("message", JStr "student_id and expected_ip are required")], w)
  else if db_writable w
  then (json 200 [("success", JBool true);
                  ("message", JStr "Expected IP saved successfully");
                  ("student_id", JStr (set_student_id req));
                  ("expected_ip", JStr (set_expected_ip req))],
        snd (db.setExpectedIp now (set_student_id req) (set_expected_ip req) w))
  else (internalError cfg "Server error saving expected IP"
          (Error "Failed to save to database"), w).
Proof.
  unfold handle_set_expected_ip, set_expected_ip_route. fold (setToken req).
  rewrite authorized_negb. destruct (negb (authorized cfg (setToken req))); [reflexivity|].
  destruct (negb _ || negb _); [reflexivity|].
  rewrite bind_run, setExpectedIp_run. cbn zeta. destruct (db_writable w); reflexivity.
Qed.

Lemma handle_download_run (query_token authorization_header : string) (w : World) :
  handle_download cfg query_token authorization_header w =
  if negb (authorized cfg (downloadToken query_token authorization_header))
  then (SendJson unauthorizedResponse, w)
  else match xlsx_file w with
       | None => (SendJson (json 404 [("success", JBool false);
                                      ("message", JStr "No attendance records yet")]), w)
       | Some content => (SendFile "attendance.xlsx" content, w)
       end.
Proof.
  unfold handle_download, download. fold (downloadToken query_token authorization_header).
  rewrite authorized_negb.
  destruct (negb (authorized cfg (downloadToken query_token authorization_header)));
    [reflexivity|].
  destruct (xlsx_file w); reflexivity.
Qed.

Lemma handle_records_run (req : Request) (w : World) :
  handle_records cfg req w =
  if negb (authorized cfg (recordsToken req)) then (unauthorizedResponse, w)
  else match fetchRecords w with
       | (inr rows, w') => (mkResponse 200 (BArray rows), w')
       | (inl e, w') => (internalError cfg "Server error fetching records" e, w')
       end.
Proof.
  unfold handle_records, records. fold (recordsToken req).
  rewrite authorized_negb. destruct (negb (authorized cfg (recordsToken req))); [reflexivity|].
  rewrite bind_run. destruct (fetchRecords w) as [[e|rows] w']; reflexivity.
Qed.

Lemma handle_expected_ip_run (studentId : string) (w : World) :
  handle_expected_ip cfg studentId w =
  if negb (JsString.truthy studentId)
  then (json 400 [("success", JBool false); ("message", JStr "Student ID is required")], w)
  else (json 200 [("success", JBool true);
                  ("studentId", JStr studentId);
                  ("expectedIp", orNull (expectedIpOf (currentDb w) studentId))],
        afterLoad w).
Proof.
  unfold handle_expected_ip, expected_ip.
  destruct (negb (JsString.truthy studentId)); [reflexivity|].
  rewrite bind_run, getExpectedIp_run. reflexivity.
Qed.

End AdminRun.

(** X10.  Without the admin token nothing is served.  A request whose
    token differs from ADMIN_TOKEN, and every request when ADMIN_TOKEN is not
    configured (even one with an empty token), gets the 401 answer from
    set-expected-ip, download and records, and no file is read or
    written. *)
Theorem admin_routes_need_token (rt : DateRuntime) (cfg : Config) (w : World) :
  (forall token, ADMIN_TOKEN cfg = "" -> authorized cfg token = false) /\
  (forall token, token <> ADMIN_TOKEN cfg -> authorized cfg token = false) /\
  (forall now req,
     authorized cfg (setToken req) = false ->
     handle_set_expected_ip cfg now req w = (unauthorizedResponse, w)) /\
  (forall query_token authorization_header,
     authorized cfg (downloadToken query_token authorization_header) = false ->
     handle_download cfg query_token authorization_header w =
       (SendJson unauthorizedResponse, w)) /\
  (forall req,
     authorized cfg (recordsToken req) = false ->
     handle_records cfg req w = (unauthorizedResponse, w)).
Proof.
  split; [|split; [|split; [|split]]].
  - intros token Hunset. unfold authorized. rewrite Hunset. reflexivity.
  - intros token Hne. unfold authorized. apply String.eqb_neq in Hne. rewrite Hne.
    apply andb_false_r.
  - intros now req Hun. rewrite handle_set_expected_ip_run, Hun. reflexivity.
  - intros q h Hun. rewrite handle_download_run, Hun. reflexivity.
  - intros req Hun. rewrite handle_records_run, Hun. reflexivity.
Qed.

Lemma admin_routes_need_token_witness :
  handle_records (rt := Sample.rt) (mkConfig "203.0.113.9" "" "") Sample.ada Sample.marked =
    (unauthorizedResponse, Sample.marked) /\
  handle_set_expected_ip (rt := Sample.rt) Sample.cfg 1704151800000
    (mkSetRequest "guess" "" "U002" "198.51.100.7") Sample.marked =
    (unauthorizedResponse, Sample.marked).
Proof.
  split.
  - destruct (admin_routes_need_token Sample.rt (mkConfig "203.0.113.9" "" "") Sample.marked)
      as (_ & _ & _ & _ & Hrec).
    apply Hrec. reflexivity.
  - destruct (admin_routes_need_token Sample.rt Sample.cfg Sample.marked)
      as (_ & _ & Hset & _).
    apply Hset. reflexivity.
Defined.

(** X11.  The two routes that accept the token in two places read them in
    opposite order: set-expected-ip takes the authorization header first and
    the [token] query parameter only when the header is empty; download takes
    the query parameter first.  So a request carrying the right token in one
    place and a wrong, non-empty one in the other is served by one route and
    refused by the other; the records route reads the header alone. *)
Theorem token_precedence (rt : DateRuntime) (cfg : Config) (right wrong : string) :
  ADMIN_TOKEN cfg = right -> right <> "" -> wrong <> "" -> wrong <> right ->
  (forall studentId ip,
     authorized cfg (setToken (mkSetRequest right wrong studentId ip)) = true /\
     authorized cfg (setToken (mkSetRequest wrong right studentId ip)) = false /\
     authorized cfg (setToken (mkSetRequest "" right studentId ip)) = true) /\
  (authorized cfg (downloadToken right wrong) = true /\
   authorized cfg (downloadToken wrong right) = false /\
   authorized cfg (downloadToken "" right) = true) /\
  (forall w,
     fst (handle_download cfg wrong right w) = SendJson unauthorizedResponse /\
     fst (handle_download cfg right wrong w) <> SendJson unauthorizedResponse).
Proof.
  intros Htok Hright Hwrong Hne.
  assert (Hr : JsString.truthy right = true) by (apply truthy_true; assumption).
  assert (Hw : JsString.truthy wrong = true) by (apply truthy_true; assumption).
  assert (Hyes : authorized cfg right = true).
  { unfold authorized. rewrite Htok, Hr, String.eqb_refl. reflexivity. }
  assert (Hno : authorized cfg wrong = false).
  { unfold authorized. rewrite Htok. apply String.eqb_neq in Hne. rewrite Hne.
    apply andb_false_r. }
  assert (Hor1 : JsString.or (JsString.or right wrong) "" = right).
  { rewrite or_empty_r. unfold JsString.or. rewrite Hr. reflexivity. }
  assert (Hor2 : JsString.or (JsString.or wrong right) "" = wrong).
  { rewrite or_empty_r. unfold JsString.or. rewrite Hw. reflexivity. }
  assert (Hor3 : JsString.or (JsString.or "" right) "" = right).
  { rewrite or_empty_r. reflexivity. }
  split; [|split].
  - intros studentId ip. unfold setToken.
    cbn [set_authorization set_query_token]. rewrite Hor1, Hor2, Hor3. auto.
  - unfold downloadToken. rewrite Hor1, Hor2, Hor3. auto.
  - intros w. rewrite !handle_download_run. unfold downloadToken.
    rewrite Hor1, Hor2, Hyes, Hno. cbn [negb]. split; [reflexivity|].
    destruct (xlsx_file w); cbn [fst]; discriminate.
Qed.

Lemma token_precedence_witness :
  fst (handle_download (mkConfig "" "admin" "") "guess" "admin" Sample.marked) =
    SendJson unauthorizedResponse /\
  http_status
    (fst (handle_set_expected_ip (rt := Sample.rt) (mkConfig "" "admin" "") 1704151800000
            (mkSetRequest "admin" "guess" "U001" "198.51.100.7") Sample.marked)) = 200.
Proof.
  destruct (token_precedence Sample.rt (mkConfig "" "admin" "") "admin" "guess" eq_refl
              ltac:(discriminate) ltac:(discriminate) ltac:(discriminate))
    as (_ & _ & Hdown).
  split; [apply Hdown | reflexivity].
Defined.

(** X12.  Registering an address and then submitting from it.  After an
    authorized, successful set-expected-ip for a student (an id other than
    [__proto__], or one the registry already has a member for), a submission
    of that student whose extracted address equals the registered one is
    answered with status Present (newly marked, or already marked today)
    when the address is not private, and with status Absent, reason
    private_ip, when it is private: registering a private or loopback
    address never grants presence. *)
Theorem registered_address_then_mark (rt : DateRuntime) (cfg : Config) (now : Instant)
  (sreq : SetRequest) (clk : MarkClock) (req : Request) (w : World)
  (l : list AttendanceRecord) :
  authorized cfg (setToken sreq) = true ->
  set_student_id sreq <> "" -> set_expected_ip sreq <> "" ->
  set_student_id sreq <> "__proto__" \/
    is_Some (usersOf (currentDb w) !! set_student_id sreq) ->
  db_writable w = true ->
  attendance (currentDb w) = Some l ->
  body_student_id req = set_student_id sreq ->
  body_student_name req <> "" ->
  extractClientIp req = set_expected_ip sreq ->
  let w1 := snd (handle_set_expected_ip cfg now sreq w) in
  let r := fst (handle_mark cfg clk req w1) in
  http_status (fst (handle_set_expected_ip cfg now sreq w)) = 200 /\
  if isPrivateIp (set_expected_ip sreq)
  then member "status" r = Some (JStr "Absent") /\
       member "reason" r = Some (JStr "private_ip")
  else member "status" r = Some (JStr "Present").
Proof.
  intros Hauth Hsid Hsip Hstored Hw Hl Hid Hname Hip. cbn zeta.
  apply truthy_true in Hsid, Hsip, Hname.
  rewrite handle_set_expected_ip_run, Hauth, Hsid, Hsip, Hw. cbn [negb orb fst snd].
  split; [reflexivity|].
  rewrite setExpectedIp_run. cbn zeta. rewrite Hw. cbn [snd].
  change (match users (currentDb w) with Some us => us | None => ∅ end)
    with (usersOf (currentDb w)).
  assert (Hacc : accepted req = true).
  { unfold accepted. rewrite Hid, Hip, Hsid, Hsip, Hname. reflexivity. }
  rewrite (handle_mark_accepted cfg clk req _ Hacc). unfold markOutcome.
  rewrite currentDb_stored. cbn [db_writable attendance]. rewrite Hl.
  assert (Hallowed : d_allowedIp
            (decide_submission cfg req
               {| users := Some (db.assign (set_student_id sreq)
                                   (mkUserEntry (set_expected_ip sreq) (toISOString now))
                                   (usersOf (currentDb w)));
                  attendance := Some l |}) = set_expected_ip sreq).
  { unfold decide_submission. cbn [d_allowedIp].
    rewrite Hid, (expectedIpOf_assign_eq _ _ _ _ Hstored). cbn [expectedIp].
    rewrite !or_empty_r. unfold JsString.or. rewrite Hsip. reflexivity. }
  set (d1 := {| users := _; attendance := Some l |}) in *.
  assert (Hdc : d_status (decide_submission cfg req d1) =
                  (if isPrivateIp (set_expected_ip sreq) then "Absent" else "Present")%string /\
                (isPrivateIp (set_expected_ip sreq) = true ->
                 d_reason (decide_submission cfg req d1) = "private_ip")).
  { unfold decide_submission in *. cbn [d_status d_reason d_allowedIp] in *.
    rewrite Hallowed, Hip. unfold attendanceLogic.
    destruct (isPrivateIp (set_expected_ip sreq)); [split; reflexivity|].
    rewrite Hsip, String.eqb_refl. cbn [negb fst]. split; [reflexivity|discriminate]. }
  destruct Hdc as [Hst Hreason]. unfold suppressedBy.
  destruct (isPrivateIp (set_expected_ip sreq)).
  - rewrite !Hst, !Hreason by reflexivity.
    destruct (alreadyMarkedPresent _ _); cbn [String.eqb Ascii.eqb Bool.eqb fst];
      split; reflexivity.
  - rewrite !Hst.
    destruct (alreadyMarkedPresent _ _); cbn [String.eqb Ascii.eqb Bool.eqb fst];
      reflexivity.
Qed.

Lemma registered_address_then_mark_witness :
  member "status"
    (fst (handle_mark (rt := Sample.rt) Sample.cfg Sample.clk
            (mkRequest "U001" "Grace" "198.51.100.7" "" "" "")
            (snd (handle_set_expected_ip (rt := Sample.rt) Sample.cfg 1704151800000
                    (mkSetRequest "admin" "" "U001" "198.51.100.7") Sample.marked)))) =
  Some (JStr "Present").
Proof.
  pose proof (registered_address_then_mark Sample.rt Sample.cfg 1704151800000
                (mkSetRequest "admin" "" "U001" "198.51.100.7") Sample.clk
                (mkRequest "U001" "Grace" "198.51.100.7" "" "" "") Sample.marked
                [Sample.present] eq_refl ltac:(discriminate) ltac:(discriminate)
                ltac:(left; discriminate)
                eq_refl eq_refl eq_refl ltac:(discriminate) eq_refl) as [_ Hmark].
  exact Hmark.
Defined.

(** X13.  Which expected address a submission is compared with.  The
    student's own registry entry is used when there is one, and the
    process-wide ALLOWED_WIFI_IP only when there is none: the entry replaces
    the default, it does not add to it, so a student with an entry who
    submits from the default address is Absent with reason ip_mismatch.
    GET /api/expected-ip reports the entry alone, null when there is none,
    even if a default is configured. *)
Theorem expected_address_resolution (rt : DateRuntime) (cfg : Config) (clk : MarkClock)
  (req : Request) (w : World) (l : list AttendanceRecord) :
  accepted req = true ->
  db_writable w = true ->
  attendance (currentDb w) = Some l ->
  let entry := expectedIpOf (currentDb w) (body_student_id req) in
  let effective := if String.eqb entry "" then ALLOWED_IP cfg else entry in
  let r := fst (handle_mark cfg clk req w) in
  (member "alreadyMarked" r = Some (JBool true) \/
   member "expectedIp" r = Some (orNull effective)) /\
  (entry <> "" -> extractClientIp req = ALLOWED_IP cfg -> ALLOWED_IP cfg <> entry ->
   isPrivateIp (extractClientIp req) = false ->
   member "status" r = Some (JStr "Absent") /\
   member "reason" r = Some (JStr "ip_mismatch")) /\
  fst (handle_expected_ip cfg (body_student_id req) w) =
    json 200 [("success", JBool true);
              ("studentId", JStr (body_student_id req));
              ("expectedIp", orNull entry)].
Proof.
  intros Hacc Hw Hl. cbn zeta.
  assert (Heff : d_allowedIp (decide_submission cfg req (currentDb w)) =
                 if String.eqb (expectedIpOf (currentDb w) (body_student_id req)) ""
                 then ALLOWED_IP cfg
                 else expectedIpOf (currentDb w) (body_student_id req)).
  { unfold decide_submission. cbn [d_allowedIp]. rewrite or_empty_r.
    unfold JsString.or, JsString.truthy.
    destruct (String.eqb (expectedIpOf (currentDb w) (body_student_id req)) "");
      reflexivity. }
  rewrite (handle_mark_accepted cfg clk req w Hacc). unfold markOutcome.
  rewrite Hl, Hw. split; [|split].
  - destruct (suppressedBy _ _ _ _); cbn [fst]; [left; reflexivity|right].
    rewrite <- Heff. reflexivity.
  - intros Hentry Hfrom Hne Hpub.
    assert (Hdc : d_status (decide_submission cfg req (currentDb w)) = "Absent" /\
                  d_reason (decide_submission cfg req (currentDb w)) = "ip_mismatch").
    { unfold decide_submission in *. cbn [d_status d_reason d_allowedIp] in *.
      rewrite Heff. apply String.eqb_neq in Hentry. rewrite Hentry.
      unfold attendanceLogic. rewrite Hpub, Hfrom.
      apply String.eqb_neq in Hentry. apply truthy_true in Hentry. rewrite Hentry.
      apply String.eqb_neq in Hne. rewrite Hne. split; reflexivity. }
    destruct Hdc as [Hst Hreason]. unfold suppressedBy. rewrite !Hst, !Hreason.
    destruct (alreadyMarkedPresent _ _); cbn [String.eqb Ascii.eqb Bool.eqb fst];
      split; reflexivity.
  - rewrite handle_expected_ip_run.
    unfold accepted in Hacc. rewrite !andb_true_iff in Hacc. destruct Hacc as [[-> _] _].
    reflexivity.
Qed.

Lemma expected_address_resolution_witness :
  member "reason"
    (fst (handle_mark (rt := Sample.rt) (mkConfig "198.51.100.7" "admin" "") Sample.clk
            Sample.ada_elsewhere Sample.registered)) = Some (JStr "ip_mismatch") /\
  member "expectedIp"
    (fst (handle_expected_ip (mkConfig "198.51.100.7" "admin" "") "U001" Sample.registered)) =
    Some JNull.
Proof.
  split.
  - apply (expected_address_resolution Sample.rt (mkConfig "198.51.100.7" "admin" "")
             Sample.clk Sample.ada_elsewhere Sample.registered [] eq_refl eq_refl eq_refl);
      try reflexivity; discriminate.
  - destruct (expected_address_resolution Sample.rt (mkConfig "198.51.100.7" "admin" "")
                Sample.clk (mkRequest "U001" "Grace" "198.51.100.7" "" "" "")
                Sample.registered [] eq_refl eq_refl eq_refl) as (_ & _ & Hget).
    cbn [body_student_id] in Hget. rewrite Hget. reflexivity.
Defined.

(** X14.  Outcomes of an authorized set-expected-ip.  A missing student id
    or address gives 400 and writes nothing.  Otherwise, when db.json can be
    written the answer is 200 and the attendance list is as before; GET
    /api/expected-ip of that student then reports the address, for every id
    other than [__proto__] and for [__proto__] when the registry already has
    a member of that name, and reports null for [__proto__] otherwise, for
    which the 200 answer stored nothing.  When db.json cannot be written,
    the answer is 500 with the message Server error saving expected IP (and
    the cause only in development mode) and nothing is changed. *)
Theorem set_expected_ip_outcomes (rt : DateRuntime) (cfg : Config) (now : Instant)
  (req : SetRequest) (w : World) :
  authorized cfg (setToken req) = true ->
  let out := handle_set_expected_ip cfg now req w in
  (set_student_id req = "" \/ set_expected_ip req = "" ->
   http_status (fst out) = 400 /\ snd out = w) /\
  (set_student_id req <> "" -> set_expected_ip req <> "" ->
   if db_writable w
   then http_status (fst out) = 200 /\
        (set_student_id req <> "__proto__" \/
           is_Some (usersOf (currentDb w) !! set_student_id req) ->
         handle_expected_ip cfg (set_student_id req) (snd out) =
           (json 200 [("success", JBool true);
                      ("studentId", JStr (set_student_id req));
                      ("expectedIp", JStr (set_expected_ip req))], snd out)) /\
        (set_student_id req = "__proto__" ->
         usersOf (currentDb w) !! set_student_id req = None ->
         handle_expected_ip cfg (set_student_id req) (snd out) =
           (json 200 [("success", JBool true);
                      ("studentId", JStr (set_student_id req));
                      ("expectedIp", JNull)], snd out)) /\
        attendance (currentDb (snd out)) = attendance (currentDb w) /\
        xlsx_file (snd out) = xlsx_file w
   else http_status (fst out) = 500 /\
        member "message" (fst out) = Some (JStr "Server error saving expected IP") /\
        member "error" (fst out) =
          (if String.eqb (NODE_ENV cfg) "development"
           then Some (JStr "Failed to save to database") else None) /\
        snd out = w).
Proof.
  intros Hauth. cbn zeta. rewrite handle_set_expected_ip_run, Hauth. cbn [negb]. split.
  - intros [Hid|Hip].
    + rewrite Hid. split; reflexivity.
    + rewrite Hip, orb_true_r. split; reflexivity.
  - intros Hid Hip. apply truthy_true in Hid, Hip. rewrite Hid, Hip. cbn [negb orb].
    destruct (db_writable w) eqn:Hw; cbn [fst snd].
    + rewrite setExpectedIp_run. cbn zeta. rewrite Hw. cbn [snd].
      change (match users (currentDb w) with Some us => us | None => ∅ end)
        with (usersOf (currentDb w)).
      split; [reflexivity|]. split; [|split; [|split; reflexivity]].
      * intros Hstored.
        rewrite handle_expected_ip_run, Hid. cbn [negb]. unfold afterLoad. cbn [db_file].
        rewrite currentDb_stored, (expectedIpOf_assign_eq _ _ _ _ Hstored).
        cbn [expectedIp]. unfold orNull. rewrite Hip. reflexivity.
      * intros Hkey Hnone.
        rewrite handle_expected_ip_run, Hid. cbn [negb]. unfold afterLoad. cbn [db_file].
        rewrite currentDb_stored, (expectedIpOf_assign_proto _ _ _ Hkey Hnone).
        reflexivity.
    + split; [reflexivity|]. split; [reflexivity|]. split; [|reflexivity].
      unfold internalError. destruct (String.eqb (NODE_ENV cfg) "development"); reflexivity.
Qed.

Lemma set_expected_ip_outcomes_witness :
  http_status
    (fst (handle_set_expected_ip (rt := Sample.rt) Sample.cfg 1704151800000
            (mkSetRequest "admin" "" "U001" "198.51.100.7")
            (mkWorld (db_file Sample.marked) false None true))) = 500 /\
  http_status
    (fst (handle_set_expected_ip (rt := Sample.rt) Sample.cfg 1704151800000
            (mkSetRequest "admin" "" "U001" "") Sample.marked)) = 400 /\
  member "expectedIp"
    (fst (handle_expected_ip Sample.cfg "__proto__"
            (snd (handle_set_expected_ip (rt := Sample.rt) Sample.cfg 1704151800000
                    (mkSetRequest "admin" "" "__proto__" "198.51.100.7") Sample.marked)))) =
    Some JNull.
Proof.
  split; [|split].
  - destruct (set_expected_ip_outcomes Sample.rt Sample.cfg 1704151800000
                (mkSetRequest "admin" "" "U001" "198.51.100.7")
                (mkWorld (db_file Sample.marked) false None true) eq_refl) as [_ Hvalid].
    apply (Hvalid ltac:(discriminate) ltac:(discriminate)).
  - destruct (set_expected_ip_outcomes Sample.rt Sample.cfg 1704151800000
                (mkSetRequest "admin" "" "U001" "") Sample.marked eq_refl) as [Hmissing _].
    apply Hmissing. right. reflexivity.
  - destruct (set_expected_ip_outcomes Sample.rt Sample.cfg 1704151800000
                (mkSetRequest "admin" "" "__proto__" "198.51.100.7") Sample.marked eq_refl)
      as [_ Hvalid].
    destruct (Hvalid ltac:(discriminate) ltac:(discriminate)) as (_ & _ & Hproto & _).
    cbn [set_student_id] in Hproto. rewrite Hproto; reflexivity.
Defined.

(** X15.  An authorized download never changes a file and sends what is
    stored: 404 "No attendance records yet" when attendance.xlsx does not
    exist, the file as it is otherwise, loadable or not.  After an accepted,
    non-suppressed submission of plain text, with attendance.xlsx writable
    and a sheet named Attendance there or able to be made, the file sent is
    a workbook whose Attendance sheet ends with the row of that
    submission. *)
Theorem download_sends_stored_file (rt : DateRuntime) (cfg : Config)
  (query_token authorization_header : string) (w : World) :
  authorized cfg (downloadToken query_token authorization_header) = true ->
  snd (handle_download cfg query_token authorization_header w) = w /\
  (xlsx_file w = None ->
   fst (handle_download cfg query_token authorization_header w) =
   SendJson (json 404 [("success", JBool false);
                       ("message", JStr "No attendance records yet")])) /\
  (forall content,
     xlsx_file w = Some content ->
     fst (handle_download cfg query_token authorization_header w) =
     SendFile "attendance.xlsx" content) /\
  (forall clk req,
     accepted req = true ->
     let dc := decide_submission cfg req (currentDb w) in
     suppressedBy clk req dc (currentDb w) = None ->
     xlsx_writable w = true ->
     sheetAvailable (xlsx_file w) = true ->
     plainRow (storedRow clk req dc) = true ->
     exists wb,
       fst (handle_download cfg query_token authorization_header
              (snd (handle_mark cfg clk req w))) = SendFile "attendance.xlsx" (XlsxBook wb) /\
       last (attendanceRows wb) = Some (storedRow clk req dc)).
Proof.
  intros Hauth. split; [|split; [|split]].
  - rewrite handle_download_run, Hauth. destruct (xlsx_file w); reflexivity.
  - intros Hnone. rewrite handle_download_run, Hauth, Hnone. reflexivity.
  - intros content Hsome. rewrite handle_download_run, Hauth, Hsome. reflexivity.
  - intros clk req Hacc dc Hsup Hx Hav Hrow.
    pose proof (openedWorkbook_available _ Hav) as Hopen.
    destruct (handle_mark_xlsx cfg clk req w _ Hacc Hsup Hx Hopen) as [Hfile _].
    rewrite handle_download_run, Hauth, Hfile. cbn [negb fst].
    eexists. split; [reflexivity|].
    rewrite attendanceRows_stored, (attendanceRows_addRow _ _ _ Hopen), List.map_app.
    cbn [List.map]. rewrite last_snoc. fold dc. rewrite (storedRow_plain _ Hrow).
    reflexivity.
Qed.

Lemma download_sends_stored_file_witness :
  fst (handle_download Sample.cfg "admin" "" Sample.marked) =
    SendJson (json 404 [("success", JBool false);
                        ("message", JStr "No attendance records yet")]) /\
  fst (handle_download Sample.cfg "admin" "" Sample.corrupt_xlsx) =
    SendFile "attendance.xlsx" XlsxGarbage.
Proof.
  split.
  - apply (download_sends_stored_file Sample.rt Sample.cfg "admin" "" Sample.marked eq_refl).
    reflexivity.
  - apply (download_sends_stored_file Sample.rt Sample.cfg "admin" "" Sample.corrupt_xlsx
             eq_refl). reflexivity.
Defined.

(** ** What a submission does to the stored records *)

Lemma presentOncePerDay_snoc (l : list AttendanceRecord) (r : AttendanceRecord) :
  presentOncePerDay l ->
  (status r = "Present" ->
   forall r1, In r1 l -> student_id r1 = student_id r ->
     JsString.slice0 10 (timestamp r1) = JsString.slice0 10 (timestamp r) ->
     status r1 = "Present" -> False) ->
  presentOncePerDay (l ++ [r]).
Proof.
  intros Hl Hnew i j r1 r2 Hi Hj Hid Hday Hs1 Hs2.
  apply lookup_app_Some in Hi, Hj.
  destruct Hi as [Hi|[Hilen Hi]], Hj as [Hj|[Hjlen Hj]].
  - exact (Hl i j r1 r2 Hi Hj Hid Hday Hs1 Hs2).
  - exfalso. apply list_lookup_singleton_Some in Hj as [_ <-].
    apply (Hnew Hs2 r1); try assumption.
    apply list_elem_of_In. exact (list_elem_of_lookup_2 _ _ _ Hi).
  - exfalso. apply list_lookup_singleton_Some in Hi as [_ <-].
    apply (Hnew Hs1 r2); try (symmetry; assumption); try assumption.
    apply list_elem_of_In. exact (list_elem_of_lookup_2 _ _ _ Hj).
  - apply list_lookup_singleton_Some in Hi as [Hi _], Hj as [Hj _]. lia.
Qed.

Lemma attendanceOf_afterLoad (w : World) : attendanceOf (afterLoad w) = attendanceOf w.
Proof. unfold attendanceOf. rewrite currentDb_afterLoad. reflexivity. Qed.

Lemma attendanceOf_afterExcel (row : Row) (w : World) :
  attendanceOf (afterExcel row w) = attendanceOf w.
Proof. unfold attendanceOf. rewrite currentDb_afterExcel. reflexivity. Qed.

Lemma attendanceOf_afterAppend (record : AttendanceRecord) (l : list AttendanceRecord)
  (w : World) :
  attendanceOf (afterAppend record l w) = l ++ [record].
Proof. unfold attendanceOf, afterAppend. rewrite currentDb_stored. reflexivity. Qed.

(** ** The handler between its awaits, step by step *)

Section StagesRun.

Context {rt : DateRuntime}.
Variable cfg : Config.

Lemma mark_begin_rejected (clk : MarkClock) (req : Request) (w : World) :
  accepted req = false ->
  mark_begin cfg clk req w = (inr (Answered (rejection req)), w).
Proof.
  unfold accepted, mark_begin, rejection. intros Hacc.
  destruct (JsString.truthy (body_student_id req)); [|reflexivity].
  destruct (JsString.truthy (body_student_name req)); [|reflexivity].
  cbn [negb orb andb] in *. rewrite or_empty_r, Hacc. reflexivity.
Qed.

Lemma mark_begin_run (clk : MarkClock) (req : Request) (w : World) :
  accepted req = true ->
  mark_begin cfg clk req w =
  (inr match suppressedBy clk req (decide_submission cfg req (currentDb w)) (currentDb w) with
       | Some found => Answered (alreadyMarkedResponse found)
       | None => AtReadFile (decide_submission cfg req (currentDb w))
       end,
   afterLoad w).
Proof.
  unfold accepted. rewrite !andb_true_iff. intros [[Hid Hname] Hip].
  unfold mark_begin. rewrite Hid, Hname. cbn [negb orb].
  rewrite or_empty_r, Hip. cbn [negb].
  rewrite bind_run, try_catch_run, bind_run, getExpectedIp_run.
  cbn [mret M_ret].
  unfold suppressedBy, decide_submission. cbn [d_status]. rewrite !or_empty_r.
  destruct (attendanceLogic _ _ _) as [status0 reason0]. cbn [fst snd].
  rewrite bind_run, try_catch_run, bind_run, getAttendanceForStudent_run.
  rewrite afterLoad_idem, currentDb_afterLoad.
  destruct (alreadyMarkedPresent _ _) as [found|];
    [destruct (String.eqb status0 "Present")|]; reflexivity.
Qed.

Lemma mark_finish_run (clk : MarkClock) (req : Request) (dc : Decision) (w : World) :
  mark_finish clk req dc w =
  match attendance (currentDb w) with
  | Some l =>
      if db_writable w
      then (inr (Answered (successResponse (d_clientIp dc) (d_allowedIp dc) (d_isPrivate dc)
                             (d_proxy dc) (d_status dc) (d_reason dc))),
            afterAppend (storedRecord clk req dc) l w)
      else (inr (Answered saveErrorResponse), w)
  | None => (inr (Answered saveErrorResponse), afterLoad w)
  end.
Proof.
  unfold mark_finish. rewrite bind_run, try_catch_run, bind_run, addAttendance_run.
  unfold afterAppend.
  destruct (attendance (currentDb w)); [destruct (db_writable w)|]; reflexivity.
Qed.

Lemma mark_afterRead_run (clk : MarkClock) (req : Request) (dc : Decision) (w : World) :
  mark_afterRead clk req dc w =
  match openedWorkbook (xlsx_file w) with
  | inr workbook =>
      (inr (AtWriteFile dc (ExcelJS.addRow "Attendance" (storedRow clk req dc) workbook)), w)
  | inl _ => mark_finish clk req dc w
  end.
Proof.
  unfold mark_afterRead.
  rewrite bind_run, try_catch_run, bind_run, openAttendanceSheet_run.
  destruct (openedWorkbook (xlsx_file w)); reflexivity.
Qed.

Lemma mark_afterWrite_run (clk : MarkClock) (req : Request) (dc : Decision)
  (workbook : Workbook) (w : World) :
  mark_afterWrite clk req dc workbook w =
  mark_finish clk req dc
    (if xlsx_writable w
     then mkWorld (db_file w) (db_writable w) (Some (XlsxBook (ExcelJS.stored workbook)))
            (xlsx_writable w)
     else w).
Proof.
  unfold mark_afterWrite. rewrite bind_run, try_catch_run. unfold ExcelJS.writeFile.
  destruct (xlsx_writable w); reflexivity.
Qed.

(** A request served alone does what [handle_mark] says. *)
Lemma runAlone_run (clk : MarkClock) (req : Request) (w : World) :
  runAlone cfg clk req w =
  (inr (Answered (fst (handle_mark cfg clk req w))), snd (handle_mark cfg clk req w)).
Proof.
  unfold runAlone. rewrite handle_mark_run. destruct (accepted req) eqn:Hacc.
  2:{ rewrite bind_run, (mark_begin_rejected clk req w Hacc). reflexivity. }
  rewrite bind_run, (mark_begin_run clk req w Hacc). unfold markOutcome.
  set (dc := decide_submission cfg req (currentDb w)).
  destruct (suppressedBy clk req dc (currentDb w)); [reflexivity|].
  rewrite bind_run. cbn [resume]. rewrite mark_afterRead_run.
  destruct (afterLoad_xlsx w) as [Hfile Hperm].
  assert (Hfinish : forall v,
            currentDb v = currentDb w -> db_writable v = db_writable w -> afterLoad v = v ->
            mark_finish clk req dc v =
            match attendance (currentDb w) with
            | Some l =>
                if db_writable w
                then (inr (Answered (successResponse (d_clientIp dc) (d_allowedIp dc)
                                       (d_isPrivate dc) (d_proxy dc) (d_status dc)
                                       (d_reason dc))),
                      afterAppend (storedRecord clk req dc) l v)
                else (inr (Answered saveErrorResponse), v)
            | None => (inr (Answered saveErrorResponse), v)
            end).
  { intros v Hdb Hwr Hload. rewrite mark_finish_run, Hdb, Hwr, Hload. reflexivity. }
  unfold afterExcel.
  destruct (openedWorkbook (xlsx_file (afterLoad w))) as [e|workbook].
  - rewrite (Hfinish (afterLoad w) (currentDb_afterLoad w) (db_writable_afterLoad w)
               (afterLoad_idem w)).
    destruct (attendance (currentDb w)); [destruct (db_writable w)|]; reflexivity.
  - cbn [resume]. rewrite mark_afterWrite_run.
    destruct (xlsx_writable (afterLoad w)).
    + rewrite Hfinish.
      * destruct (attendance (currentDb w)); [destruct (db_writable w)|]; reflexivity.
      * exact (currentDb_afterLoad w).
      * exact (db_writable_afterLoad w).
      * destruct w as [[[|d]|] [] xf xw]; reflexivity.
    + rewrite (Hfinish (afterLoad w) (currentDb_afterLoad w) (db_writable_afterLoad w)
                 (afterLoad_idem w)).
      destruct (attendance (currentDb w)); [destruct (db_writable w)|]; reflexivity.
Qed.

(** Two Present records of one student and day break the invariant. *)
Lemma presentOncePerDay_twice (l : list AttendanceRecord) (r1 r2 : AttendanceRecord) :
  student_id r1 = student_id r2 ->
  JsString.slice0 10 (timestamp r1) = JsString.slice0 10 (timestamp r2) ->
  status r1 = "Present" -> status r2 = "Present" ->
  ~ presentOncePerDay (l ++ [r1; r2]).
Proof.
  intros Hid Hday Hs1 Hs2 Hinv.
  assert (H1 : (l ++ [r1; r2]) !! length l = Some r1).
  { rewrite lookup_app_r by lia. rewrite Nat.sub_diag. reflexivity. }
  assert (H2 : (l ++ [r1; r2]) !! S (length l) = Some r2).
  { rewrite lookup_app_r by lia.
    replace (S (length l) - length l)%nat with 1%nat by lia. reflexivity. }
  pose proof (Hinv _ _ _ _ H1 H2 Hid Hday Hs1 Hs2) as Heq. lia.
Qed.

(** The same request twice, overlapping: both are let through and both
    records are stored. *)
Lemma runOverlapped_run (clk1 clk2 : MarkClock) (req : Request) (w : World)
  (l : list AttendanceRecord) :
  accepted req = true ->
  db_writable w = true ->
  attendance (currentDb w) = Some l ->
  let dc := decide_submission cfg req (currentDb w) in
  suppressedBy clk1 req dc (currentDb w) = None ->
  suppressedBy clk2 req dc (currentDb w) = None ->
  exists w',
    runOverlapped cfg clk1 clk2 req w =
      (inr (Answered (successResponse (d_clientIp dc) (d_allowedIp dc) (d_isPrivate dc)
                        (d_proxy dc) (d_status dc) (d_reason dc)),
            Answered (successResponse (d_clientIp dc) (d_allowedIp dc) (d_isPrivate dc)
                        (d_proxy dc) (d_status dc) (d_reason dc))), w') /\
    attendanceOf w' = l ++ [storedRecord clk1 req dc; storedRecord clk2 req dc].
Proof.
  intros Hacc Hw Hl dc Hsup1 Hsup2. unfold runOverlapped.
  rewrite bind_run, (mark_begin_run clk1 req w Hacc). fold dc. rewrite Hsup1.
  rewrite bind_run, (mark_begin_run clk2 req (afterLoad w) Hacc).
  rewrite currentDb_afterLoad, afterLoad_idem. fold dc. rewrite Hsup2.
  set (u := afterLoad w).
  assert (Hdb : currentDb u = currentDb w) by apply currentDb_afterLoad.
  assert (Hwr : db_writable u = true) by (unfold u; rewrite db_writable_afterLoad; exact Hw).
  assert (Hfinish : forall clk v l0,
            attendance (currentDb v) = Some l0 -> db_writable v = true ->
            mark_finish clk req dc v =
            (inr (Answered (successResponse (d_clientIp dc) (d_allowedIp dc) (d_isPrivate dc)
                              (d_proxy dc) (d_status dc) (d_reason dc))),
             afterAppend (storedRecord clk req dc) l0 v)).
  { intros clk v l0 Hatt Hwv. rewrite mark_finish_run, Hatt, Hwv. reflexivity. }
  assert (Hwritten : forall workbook v l0,
            attendance (currentDb v) = Some l0 -> db_writable v = true ->
            attendance
              (currentDb (if xlsx_writable v
                          then mkWorld (db_file v) (db_writable v)
                                 (Some (XlsxBook (ExcelJS.stored workbook))) (xlsx_writable v)
                          else v)) = Some l0 /\
            db_writable (if xlsx_writable v
                         then mkWorld (db_file v) (db_writable v)
                                (Some (XlsxBook (ExcelJS.stored workbook))) (xlsx_writable v)
                         else v) = true).
  { intros workbook v l0 Hatt Hwv. destruct (xlsx_writable v); split; assumption. }
  assert (Happended : forall record l0 v,
            attendance (currentDb (afterAppend record l0 v)) = Some (l0 ++ [record]) /\
            db_writable (afterAppend record l0 v) = db_writable v /\
            xlsx_file (afterAppend record l0 v) = xlsx_file v).
  { intros record l0 v. repeat split. }
  rewrite bind_run. cbn [resume]. rewrite mark_afterRead_run.
  destruct (openedWorkbook (xlsx_file u)) as [e|workbook] eqn:Hopen.
  - rewrite (Hfinish clk1 u l) by (rewrite ?Hdb; assumption).
    destruct (Happended (storedRecord clk1 req dc) l u) as (Hatt1 & Hw1 & Hx1).
    rewrite bind_run. cbn [resume]. rewrite mark_afterRead_run, Hx1, Hopen.
    rewrite (Hfinish clk2 _ _ Hatt1) by (rewrite Hw1; exact Hwr).
    rewrite bind_run. cbn [resume].
    eexists. split; [reflexivity|].
    rewrite attendanceOf_afterAppend, <- app_assoc. reflexivity.
  - rewrite bind_run. cbn [resume]. rewrite mark_afterRead_run, Hopen.
    rewrite bind_run. cbn [resume]. rewrite mark_afterWrite_run.
    destruct (Hwritten (ExcelJS.addRow "Attendance" (storedRow clk1 req dc) workbook) u l)
      as [Hatt0 Hw0]; [rewrite Hdb; exact Hl|exact Hwr|].
    rewrite (Hfinish clk1 _ _ Hatt0 Hw0).
    set (v1 := afterAppend (storedRecord clk1 req dc) l _).
    destruct (Happended (storedRecord clk1 req dc) l
                (if xlsx_writable u
                 then mkWorld (db_file u) (db_writable u)
                        (Some (XlsxBook (ExcelJS.stored
                                           (ExcelJS.addRow "Attendance"
                                              (storedRow clk1 req dc) workbook))))
                        (xlsx_writable u)
                 else u)) as (Hatt1 & Hw1 & _).
    fold v1 in Hatt1, Hw1. rewrite Hw0 in Hw1.
    rewrite bind_run. cbn [resume]. rewrite mark_afterWrite_run.
    destruct (Hwritten (ExcelJS.addRow "Attendance" (storedRow clk2 req dc) workbook) v1
                (l ++ [storedRecord clk1 req dc]) Hatt1 Hw1) as [Hatt2 Hw2].
    rewrite (Hfinish clk2 _ _ Hatt2 Hw2).
    eexists. split; [reflexivity|].
    rewrite attendanceOf_afterAppend, <- app_assoc. reflexivity.
Qed.

End StagesRun.

(** X16.  The guard against a second Present record of one student and UTC
    day holds for requests served one after the other, and not for requests
    that overlap.  A request served alone (the steps of the handler run with
    no other request in between) does what [handle_mark] says, and it keeps
    the invariant "no two stored records of one student carry the same date
    and the status Present", as long as its first and last readings of the
    clock fall on the same UTC day.  But the handler waits for [readFile]
    and [writeFile] between its duplicate check and its JSON save: when the
    same Present request arrives again while the first one waits, both pass
    the check, both are answered Present, and db.json ends with two Present
    records of that student; with both on one UTC day the invariant is
    broken. *)
Theorem present_once_per_day_preserved (rt : DateRuntime) (cfg : Config) (clk : MarkClock)
  (req : Request) (w : World) :
  runAlone cfg clk req w =
    (inr (Answered (fst (handle_mark cfg clk req w))), snd (handle_mark cfg clk req w)) /\
  (JsString.slice0 10 (toISOString (t_json clk)) =
   JsString.slice0 10 (toISOString (t_today clk)) ->
   presentOncePerDay (attendanceOf w) ->
   presentOncePerDay (attendanceOf (snd (handle_mark cfg clk req w)))) /\
  (forall clk2 l,
     accepted req = true ->
     db_writable w = true ->
     attendance (currentDb w) = Some l ->
     let dc := decide_submission cfg req (currentDb w) in
     d_status dc = "Present" ->
     suppressedBy clk req dc (currentDb w) = None ->
     suppressedBy clk2 req dc (currentDb w) = None ->
     JsString.slice0 10 (toISOString (t_json clk)) =
     JsString.slice0 10 (toISOString (t_json clk2)) ->
     exists a b w',
       runOverlapped cfg clk clk2 req w = (inr (Answered a, Answered b), w') /\
       member "status" a = Some (JStr "Present") /\
       member "status" b = Some (JStr "Present") /\
       attendanceOf w' = l ++ [storedRecord clk req dc; storedRecord clk2 req dc] /\
       ~ presentOncePerDay (attendanceOf w')).
Proof.
  split; [apply runAlone_run|]. split.
  - intros Hclock Hinv. rewrite handle_mark_run.
    destruct (accepted req); [|exact Hinv].
    unfold markOutcome.
    destruct (suppressedBy clk req _ (currentDb w)) eqn:Hsup; cbn [snd].
    { rewrite attendanceOf_afterLoad. exact Hinv. }
    destruct (attendance (currentDb w)) as [l|] eqn:Hl;
      [destruct (db_writable w)|]; cbn [snd];
      try (rewrite attendanceOf_afterExcel, attendanceOf_afterLoad; exact Hinv).
    rewrite attendanceOf_afterAppend.
    assert (Hold : attendanceOf w = l) by (unfold attendanceOf; rewrite Hl; reflexivity).
    rewrite Hold in Hinv.
    apply presentOncePerDay_snoc; [exact Hinv|].
    cbn [storedRecord status student_id timestamp].
    intros Hst r1 Hin Hid Hday Hs1.
    destruct (alreadyMarkedPresent_complete
                (JsString.slice0 10 (toISOString (t_today clk))) (body_student_id req)
                (currentDb w) l r1 Hl Hin) as [found Hfound].
    { split; [exact Hid|]. split; [|exact Hs1]. rewrite Hday. exact Hclock. }
    unfold suppressedBy in Hsup. rewrite Hfound, Hst in Hsup. discriminate Hsup.
  - intros clk2 l Hacc Hw Hl dc Hst Hsup1 Hsup2 Hday.
    destruct (runOverlapped_run cfg clk clk2 req w l Hacc Hw Hl Hsup1 Hsup2)
      as (w' & Hrun & Hatt).
    fold dc in Hrun, Hatt.
    eexists. eexists. exists w'. split; [exact Hrun|].
    unfold successResponse. cbn [member body json fst snd List.find String.eqb].
    split; [rewrite Hst; reflexivity|]. split; [rewrite Hst; reflexivity|].
    split; [exact Hatt|]. rewrite Hatt.
    apply presentOncePerDay_twice; cbn [storedRecord student_id timestamp status];
      solve [reflexivity | assumption].
Qed.

Lemma present_once_per_day_preserved_witness :
  presentOncePerDay
    (attendanceOf (snd (handle_mark (rt := Sample.rt) Sample.cfg Sample.clk Sample.ada
                          Sample.marked))) /\
  exists w',
    snd (runOverlapped (rt := Sample.rt) Sample.cfg Sample.clk
           (mkMarkClock 1704151800020 1704151800025 1704151800030) Sample.ada
           Sample.registered) = w' /\
    ~ presentOncePerDay (attendanceOf w').
Proof.
  split.
  - apply (present_once_per_day_preserved Sample.rt Sample.cfg Sample.clk Sample.ada
             Sample.marked).
    + vm_compute. reflexivity.
    + intros i j r1 r2 Hi Hj _ _ _ _.
      destruct i as [|i]; [|discriminate Hi]. destruct j as [|j]; [|discriminate Hj].
      reflexivity.
  - destruct (present_once_per_day_preserved Sample.rt Sample.cfg Sample.clk Sample.ada
                Sample.registered) as (_ & _ & Hover).
    destruct (Hover (mkMarkClock 1704151800020 1704151800025 1704151800030) []
                eq_refl eq_refl eq_refl eq_refl eq_refl eq_refl)
      as (a & b & w' & Hrun & _ & _ & _ & Hbroken).
    { vm_compute. reflexivity. }
    exists w'. split; [rewrite Hrun; reflexivity|exact Hbroken].
Defined.

(** X17.  POST /api/attendance/mark only ever appends.  Whatever the
    request and the state of the files, the registry of expected addresses
    is as before, the file permissions are as before, and the attendance
    list is either unchanged or the old list followed by one record of the
    submitting student; the latter exactly when the answer is the 200
    success object with a reason.  No stored record is removed, reordered
    or rewritten. *)
Theorem mark_only_appends (rt : DateRuntime) (cfg : Config) (clk : MarkClock)
  (req : Request) (w : World) :
  let out := handle_mark cfg clk req w in
  users (currentDb (snd out)) = users (currentDb w) /\
  db_writable (snd out) = db_writable w /\
  xlsx_writable (snd out) = xlsx_writable w /\
  ((attendance (currentDb (snd out)) = attendance (currentDb w) /\
    member "reason" (fst out) = None) \/
   (exists record,
      attendanceOf (snd out) = attendanceOf w ++ [record] /\
      student_id record = body_student_id req /\
      student_name record = body_student_name req /\
      timestamp record = toISOString (t_json clk) /\
      member "reason" (fst out) = Some (JStr (reason record)) /\
      member "status" (fst out) = Some (JStr (status record)) /\
      http_status (fst out) = 200)).
Proof.
  cbn zeta. rewrite handle_mark_run.
  destruct (accepted req) eqn:Hacc; cbn [fst snd].
  2:{ split; [reflexivity|]. split; [reflexivity|]. split; [reflexivity|].
      left. split; [reflexivity|].
      unfold rejection. destruct (negb _ || negb _); reflexivity. }
  unfold markOutcome.
  assert (Hxw : forall row, xlsx_writable (afterExcel row (afterLoad w)) = xlsx_writable w).
  { intros row. rewrite xlsx_writable_afterExcel. apply afterLoad_xlsx. }
  assert (Hdw : forall row, db_writable (afterExcel row (afterLoad w)) = db_writable w).
  { intros row. destruct (afterExcel_db row (afterLoad w)) as [_ ->].
    apply db_writable_afterLoad. }
  destruct (suppressedBy clk req _ (currentDb w)) eqn:Hsup; cbn [fst snd].
  { rewrite currentDb_afterLoad, db_writable_afterLoad.
    split; [reflexivity|]. split; [reflexivity|].
    split; [apply afterLoad_xlsx|].
    left. split; reflexivity. }
  destruct (attendance (currentDb w)) as [l|] eqn:Hl;
    [destruct (db_writable w) eqn:Hw|]; cbn [fst snd];
    try (rewrite currentDb_afterExcel, currentDb_afterLoad, Hdw, Hxw, Hl;
         split; [reflexivity|]; split; [assumption || reflexivity|];
         split; [reflexivity|]; left; split; reflexivity).
  unfold afterAppend at 1 2 3. rewrite currentDb_stored.
  cbn [users db_writable xlsx_writable].
  rewrite currentDb_afterExcel, currentDb_afterLoad, Hdw, Hxw.
  split; [reflexivity|]. split; [reflexivity|]. split; [reflexivity|].
  right. eexists. rewrite attendanceOf_afterAppend.
  split; [unfold attendanceOf; rewrite Hl; reflexivity|].
  repeat split; reflexivity.
Qed.

(** Adding a row to a workbook that has the sheet. *)
Lemma attendanceRows_added (values : Row) (wb : Workbook) (sheet : Worksheet) :
  ExcelJS.getWorksheet "Attendance" wb = Some sheet ->
  attendanceRows (ExcelJS.addRow "Attendance" values wb) = attendanceRows wb ++ [values].
Proof.
  intros Hsheet. unfold attendanceRows.
  rewrite (getWorksheet_addRow _ _ _ _ Hsheet), Hsheet. reflexivity.
Qed.

(** X18.  The two stores are written one after the other, the Excel file
    first, and a failure of the second write does not undo the first.  For
    an accepted submission that the history guard lets through, with
    attendance.xlsx writable (a sheet named Attendance there or able to be
    made) and db.json not: the answer is 500, db.json holds what it held,
    and the Attendance sheet has gained one row, the row of the submission
    when its text is plain.  The guard reads db.json only, so the same
    request sent again is let through again and adds a second row. *)
Theorem failed_save_leaves_excel_row (rt : DateRuntime) (cfg : Config) (clk clk' : MarkClock)
  (req : Request) (w : World) :
  accepted req = true ->
  let dc := decide_submission cfg req (currentDb w) in
  suppressedBy clk req dc (currentDb w) = None ->
  suppressedBy clk' req dc (currentDb w) = None ->
  db_writable w = false ->
  xlsx_writable w = true ->
  sheetAvailable (xlsx_file w) = true ->
  let out := handle_mark cfg clk req w in
  let again := handle_mark cfg clk' req (snd out) in
  http_status (fst out) = 500 /\
  currentDb (snd out) = currentDb w /\
  http_status (fst again) = 500 /\
  exists wb wb',
    xlsx_file (snd out) = Some (XlsxBook wb) /\
    xlsx_file (snd again) = Some (XlsxBook wb') /\
    length (attendanceRows wb) = S (length (rowsBefore (xlsx_file w))) /\
    length (attendanceRows wb') = S (S (length (rowsBefore (xlsx_file w)))) /\
    (plainRow (storedRow clk req dc) = true ->
     last (attendanceRows wb) = Some (storedRow clk req dc)) /\
    (plainRow (storedRow clk' req dc) = true ->
     last (attendanceRows wb') = Some (storedRow clk' req dc)).
Proof.
  intros Hacc dc Hsup Hsup' Hw Hx Hav. cbn zeta.
  pose proof (openedWorkbook_available _ Hav) as Hopen.
  set (opened := match xlsx_file w with
                 | Some (XlsxBook wb) => _
                 | _ => _
                 end) in Hopen.
  destruct (afterLoad_xlsx w) as [Hfile0 Hperm0].
  set (w1 := afterExcel (storedRow clk req dc) (afterLoad w)).
  assert (Hout : handle_mark cfg clk req w = (saveErrorResponse, w1)).
  { rewrite (handle_mark_accepted cfg clk req w Hacc). unfold markOutcome.
    fold dc. rewrite Hsup, Hw. destruct (attendance (currentDb w)); reflexivity. }
  rewrite Hout. cbn [fst snd].
  assert (Hdb1 : currentDb w1 = currentDb w).
  { unfold w1. rewrite currentDb_afterExcel. apply currentDb_afterLoad. }
  set (book1 := ExcelJS.stored (ExcelJS.addRow "Attendance" (storedRow clk req dc) opened)).
  assert (Hw1 : w1 = mkWorld (db_file (afterLoad w)) (db_writable (afterLoad w))
                       (Some (XlsxBook book1)) true).
  { unfold w1. apply afterExcel_written; [rewrite Hperm0; exact Hx|].
    rewrite Hfile0. exact Hopen. }
  assert (Hfile1 : xlsx_file w1 = Some (XlsxBook book1)) by (rewrite Hw1; reflexivity).
  assert (Hx1 : xlsx_writable w1 = true) by (rewrite Hw1; reflexivity).
  assert (Hno1 : db_writable w1 = false).
  { rewrite Hw1. cbn [db_writable]. rewrite db_writable_afterLoad. exact Hw. }
  destruct (attendanceRows_opened _ _ Hopen) as (sheet & Hsheet & Hrows).
  assert (Hsheet1 : ExcelJS.getWorksheet "Attendance" book1 =
                    Some (mkWorksheet (ws_name sheet)
                            (List.map (List.map ExcelJS.storedText)
                               (ws_rows sheet ++ [storedRow clk req dc])))).
  { unfold book1. rewrite getWorksheet_stored, (getWorksheet_addRow _ _ _ _ Hsheet).
    reflexivity. }
  assert (Hopen1 : openedWorkbook (xlsx_file w1) = inr book1).
  { rewrite Hfile1. unfold openedWorkbook. rewrite Hsheet1. reflexivity. }
  set (w2 := afterExcel (storedRow clk' req dc) (afterLoad w1)).
  assert (Hagain : handle_mark cfg clk' req w1 = (saveErrorResponse, w2)).
  { rewrite (handle_mark_accepted cfg clk' req w1 Hacc). unfold markOutcome.
    rewrite Hdb1. fold dc. rewrite Hsup', Hno1.
    destruct (attendance (currentDb w)); reflexivity. }
  rewrite Hagain. cbn [fst snd].
  split; [reflexivity|]. split; [exact Hdb1|]. split; [reflexivity|].
  destruct (afterLoad_xlsx w1) as [Hfile1' Hperm1'].
  assert (Hw2 : xlsx_file w2 =
                Some (XlsxBook (ExcelJS.stored
                                  (ExcelJS.addRow "Attendance" (storedRow clk' req dc) book1)))).
  { unfold w2. rewrite (afterExcel_written _ (afterLoad w1) book1); [reflexivity| |].
    - rewrite Hperm1'. exact Hx1.
    - rewrite Hfile1'. exact Hopen1. }
  exists book1. eexists. split; [exact Hfile1|]. split; [exact Hw2|].
  assert (Hrows1 : attendanceRows book1 =
                   List.map (List.map ExcelJS.storedText)
                     (rowsBefore (xlsx_file w) ++ [storedRow clk req dc])).
  { unfold attendanceRows. rewrite Hsheet1. cbn [ws_rows]. rewrite Hrows. reflexivity. }
  assert (Hrows2 : attendanceRows
                     (ExcelJS.stored
                        (ExcelJS.addRow "Attendance" (storedRow clk' req dc) book1)) =
                   List.map (List.map ExcelJS.storedText)
                     (attendanceRows book1 ++ [storedRow clk' req dc])).
  { rewrite attendanceRows_stored, (attendanceRows_added _ _ _ Hsheet1). reflexivity. }
  rewrite Hrows2, Hrows1. rewrite !List.map_app, !List.length_app, !List.length_map.
  cbn [List.map length]. rewrite !last_snoc.
  split; [lia|]. split; [lia|]. split.
  - intros Hplain. rewrite (storedRow_plain _ Hplain). reflexivity.
  - intros Hplain. rewrite (storedRow_plain _ Hplain). reflexivity.
Qed.

Lemma failed_save_leaves_excel_row_witness :
  exists wb',
    xlsx_file
      (snd (handle_mark (rt := Sample.rt) Sample.cfg Sample.clk Sample.ada
              (snd (handle_mark (rt := Sample.rt) Sample.cfg Sample.clk Sample.ada
                      (mkWorld (db_file Sample.registered) false None true))))) =
      Some (XlsxBook wb') /\
    length (attendanceRows wb') = 3%nat.
Proof.
  destruct (failed_save_leaves_excel_row Sample.rt Sample.cfg Sample.clk Sample.clk
              Sample.ada (mkWorld (db_file Sample.registered) false None true)
              eq_refl eq_refl eq_refl eq_refl eq_refl eq_refl)
    as (_ & _ & _ & wb & wb' & _ & Hfile & _ & Hrows & _).
  exists wb'. split; [exact Hfile|]. exact Hrows.
Defined.

(** ** White space *)

Section Trim.

Import JsString.

Lemma trimEnd_cons (a : ascii) (s : string) :
  trimEnd (String a s) =
  match trimEnd s with
  | EmptyString => if isWhiteSpace a then EmptyString else String a EmptyString
  | r => String a r
  end.
Proof. reflexivity. Qed.

Lemma trimEnd_idem (s : string) : trimEnd (trimEnd s) = trimEnd s.
Proof.
  induction s as [|a s IH]; [reflexivity|].
  rewrite trimEnd_cons. destruct (trimEnd s) as [|b r] eqn:Hr.
  - destruct (isWhiteSpace a) eqn:Ha; [reflexivity|].
    rewrite trimEnd_cons. cbn [trimEnd]. rewrite Ha. reflexivity.
  - rewrite trimEnd_cons, IH. reflexivity.
Qed.

Lemma trimStart_shape (s : string) :
  trimStart s = EmptyString \/
  exists a r, trimStart s = String a r /\ isWhiteSpace a = false.
Proof.
  induction s as [|a s IH]; [left; reflexivity|].
  cbn [trimStart]. destruct (isWhiteSpace a) eqn:Ha; [exact IH|].
  right. exists a, s. split; [reflexivity|exact Ha].
Qed.

Lemma trimEnd_keeps_head (a : ascii) (s : string) :
  isWhiteSpace a = false -> exists r, trimEnd (String a s) = String a r.
Proof.
  intros Ha. rewrite trimEnd_cons, Ha. destruct (trimEnd s); eauto.
Qed.

Lemma trim_idem (s : string) : trim (trim s) = trim s.
Proof.
  unfold trim. destruct (trimStart_shape s) as [->|(a & r & -> & Ha)]; [reflexivity|].
  destruct (trimEnd_keeps_head a r Ha) as [r' Hr']. rewrite Hr'.
  cbn [trimStart]. rewrite Ha, <- Hr'. apply trimEnd_idem.
Qed.

Lemma cellText_trimmed (values : Row) (k : nat) :
  trim (cellText values k) = cellText values k.
Proof.
  unfold cellText. destruct (nth_error values (k - 1)) as [v|]; [|reflexivity].
  destruct (truthy v); [apply trim_idem|reflexivity].
Qed.

End Trim.

Lemma eachRow_from (rowNumber : nat) (rows : list Row) :
  (1 < rowNumber)%nat -> eachRow rowNumber rows [] = omap readRow rows.
Proof.
  revert rowNumber. induction rows as [|values rows IH]; intros rowNumber Hn; [reflexivity|].
  cbn [eachRow]. rewrite eachRow_acc, (IH (S rowNumber)) by lia.
  replace (Nat.eqb rowNumber 1) with false by (symmetry; apply Nat.eqb_neq; lia).
  cbn [omap list_omap]. destruct (readRow values); reflexivity.
Qed.

Lemma omap_length_le {A B : Type} (f : A -> option B) (l : list A) :
  (length (omap f l) <= length l)%nat.
Proof.
  induction l as [|x l IH]; [reflexivity|].
  cbn [omap list_omap length]. destruct (f x); cbn [length]; fold (omap f l); lia.
Qed.

(** X19.  What the report reads from a sheet.  The first row is skipped
    whatever it holds, every later row is read in order, and a row gives a
    record exactly when its identity or name cell is not blank: the report
    is the list of the records of rows 2, 3, ... that have one.  So it has
    at most one record per row after the first, and every reported record
    has an identity or a name and six fields without leading or trailing
    white space. *)
Theorem sheet_report_shape (rows : list Row) :
  eachRow 1 rows [] = omap readRow (drop 1 rows) /\
  (length (eachRow 1 rows []) <= length rows - 1)%nat /\
  (forall r, In r (eachRow 1 rows []) ->
     (id r <> "" \/ name r <> "") /\
     JsString.trim (id r) = id r /\ JsString.trim (name r) = name r /\
     JsString.trim (date r) = date r /\ JsString.trim (time r) = time r /\
     JsString.trim (ip r) = ip r /\ JsString.trim (rstatus r) = rstatus r).
Proof.
  assert (Hshape : eachRow 1 rows [] = omap readRow (drop 1 rows)).
  { destruct rows as [|header rows]; [reflexivity|].
    cbn [eachRow Nat.eqb drop]. apply eachRow_from. lia. }
  split; [exact Hshape|]. split.
  - rewrite Hshape. etransitivity; [apply omap_length_le|].
    rewrite length_drop. reflexivity.
  - intros r Hin. rewrite Hshape in Hin.
    apply list_elem_of_In, list_elem_of_omap in Hin as (values & _ & Hread).
    unfold readRow in Hread.
    destruct (JsString.truthy (cellText values 1) || JsString.truthy (cellText values 2))
      eqn:Hkeep; [|discriminate Hread].
    injection Hread as <-. cbn [id name date time ip rstatus].
    split; [|repeat split; apply cellText_trimmed].
    apply orb_true_iff in Hkeep as [Hk|Hk]; apply truthy_true in Hk; [left|right]; exact Hk.
Qed.

Lemma sheet_report_shape_witness :
  let rows := [["U001"; "Grace"; "2024-01-01"; "09:00:00"; "203.0.113.9"; "Present"];
               [" U002 "; "Ada "; "2024-01-01"; "09:05:00"; "203.0.113.9"; "Present"];
               [" "; ""; "2024-01-01"; "09:10:00"; "203.0.113.9"; "Absent"]]%string in
  let second := mkReportRow "U002" "Ada" "2024-01-01" "09:05:00" "203.0.113.9" "Present" in
  eachRow 1 rows [] = [second] /\ JsString.trim (id second) = id second.
Proof.
  cbn zeta.
  destruct (sheet_report_shape
              [["U001"; "Grace"; "2024-01-01"; "09:00:00"; "203.0.113.9"; "Present"];
               [" U002 "; "Ada "; "2024-01-01"; "09:05:00"; "203.0.113.9"; "Present"];
               [" "; ""; "2024-01-01"; "09:10:00"; "203.0.113.9"; "Absent"]]%string)
    as (Hshape & _ & Hall).
  split; [rewrite Hshape; reflexivity|].
  apply (Hall (mkReportRow "U002" "Ada" "2024-01-01" "09:05:00" "203.0.113.9" "Present")).
  rewrite Hshape. left. reflexivity.
Defined.

(** ** A submission from the form *)

(** X20.  What the form of app.js sends is trimmed before it is sent, and
    the server does no trimming of its own.  A form whose identity or name
    field is empty or white space only is answered 400 "Student ID and name
    are required." and nothing is written.  For a form submission that is
    accepted and stored (attendance.xlsx writable, a sheet named Attendance
    there or able to be made, and not empty if there) and whose trimmed
    identity and name are plain text, the last record that the report reads
    back from attendance.xlsx carries the identity and the name exactly as
    they were stored, namely the field values without their leading and
    trailing white space. *)
Theorem form_submission_is_trimmed (rt : DateRuntime) (cfg : Config) (clk : MarkClock)
  (idValue nameValue forwarded socketAddress connectionAddress : string) (w : World) :
  let req := submitForm idValue nameValue forwarded socketAddress connectionAddress in
  (JsString.trim idValue = "" \/ JsString.trim nameValue = "" ->
   handle_mark cfg clk req w =
     (json 400 [("message", JStr "Student ID and name are required.");
                ("success", JBool false)], w)) /\
  (accepted req = true ->
   let dc := decide_submission cfg req (currentDb w) in
   suppressedBy clk req dc (currentDb w) = None ->
   xlsx_writable w = true ->
   sheetAvailable (xlsx_file w) = true ->
   (forall wb located,
      xlsx_file w = Some (XlsxBook wb) ->
      ExcelJS.getWorksheet "Attendance" wb = Some located ->
      ws_rows located <> []) ->
   plainText (JsString.trim idValue) = true ->
   plainText (JsString.trim nameValue) = true ->
   let w' := snd (handle_mark cfg clk req w) in
   exists earlier r,
     fetchRecords w' = (inr (earlier ++ [r]), w') /\
     id r = JsString.trim idValue /\
     name r = JsString.trim nameValue /\
     id r = student_id (storedRecord clk req dc) /\
     name r = student_name (storedRecord clk req dc) /\
     rstatus r = d_status dc).
Proof.
  cbn zeta. split.
  - intros Hblank.
    assert (Hacc : accepted (submitForm idValue nameValue forwarded socketAddress
                               connectionAddress) = false).
    { unfold accepted, submitForm. cbn [body_student_id body_student_name].
      destruct Hblank as [-> | ->]; [reflexivity|].
      destruct (JsString.truthy (JsString.trim idValue)); reflexivity. }
    rewrite (handle_mark_rejected cfg clk _ w Hacc). unfold rejection, submitForm.
    cbn [body_student_id body_student_name].
    destruct Hblank as [-> | ->]; [reflexivity|].
    destruct (JsString.truthy (JsString.trim idValue)); reflexivity.
  - intros Hacc Hsup Hx Hav Hheader Hpid Hpname.
    rewrite (fetchRecords_after_mark cfg clk _ w Hacc Hsup Hx Hav Hheader).
    unfold storedRow, storedRecord, submitForm.
    cbn [body_student_id body_student_name student_id student_name List.map].
    rewrite (storedText_plain _ Hpid), (storedText_plain _ Hpname).
    rewrite readRow_six, !trim_idem.
    assert (Hid : JsString.truthy (JsString.trim idValue) = true).
    { unfold accepted, submitForm in Hacc. cbn [body_student_id] in Hacc.
      rewrite !andb_true_iff in Hacc. destruct Hacc as [[Hid _] _]. exact Hid. }
    rewrite Hid. cbn [orb]. eexists. eexists. split; [reflexivity|].
    cbn [id name rstatus]. repeat split.
    unfold decide_submission. cbn [d_status].
    match goal with
    | |- JsString.trim (ExcelJS.storedText (fst (attendanceLogic ?c ?p ?a))) = _ =>
        destruct (attendanceLogic_two_valued c p a) as [-> | ->]; reflexivity
    end.
Qed.

Lemma form_submission_is_trimmed_witness :
  exists r,
    fst (fetchRecords (rt := Sample.rt)
           (snd (handle_mark (rt := Sample.rt) Sample.cfg Sample.clk
                   (submitForm "  U002 " " Ada " "203.0.113.9" "" "") Sample.registered))) =
      inr [r] /\
    id r = "U002" /\ name r = "Ada".
Proof.
  destruct (form_submission_is_trimmed Sample.rt Sample.cfg Sample.clk
              "  U002 " " Ada " "203.0.113.9" "" "" Sample.registered) as [_ Hstored].
  destruct (Hstored eq_refl eq_refl eq_refl eq_refl) as (earlier & r & Hread & Hid & Hname & _).
  { intros wb located Hfile. discriminate Hfile. }
  { reflexivity. }
  { reflexivity. }
  exists r. split; [|split; assumption].
  rewrite Hread. cbn [fst].
  assert (Hlen : length (earlier ++ [r]) = 1%nat).
  { apply (f_equal fst) in Hread. cbn [fst] in Hread.
    assert (Hinj : forall (a b : list ReportRow), @inr exn _ a = inr b -> a = b)
      by (intros a b [= ->]; reflexivity).
    rewrite <- (Hinj _ _ Hread). reflexivity. }
  rewrite List.length_app in Hlen. cbn [length] in Hlen.
  destruct earlier as [|e earlier]; [reflexivity|cbn [length] in Hlen; lia].
Defined.

(** ** The routes that only read *)

Lemma afterLoad_content (w : World) :
  xlsx_file (afterLoad w) = xlsx_file w /\
  xlsx_writable (afterLoad w) = xlsx_writable w /\
  (db_file w <> None -> afterLoad w = w).
Proof.
  destruct w as [[[|d]|] [] xf xw]; repeat split; try reflexivity;
    intros Hfile; exfalso; apply Hfile; reflexivity.
Qed.

(** X21.  GET /api/attendance/records and GET /api/expected-ip change no
    stored content: after either, attendance.xlsx is the same file, db.json
    denotes the same database and the permissions are the same; when
    db.json exists the world is the same altogether (when it does not, the
    load may create it with the empty database).  Asking again gives the
    same answer and changes nothing more. *)
Theorem read_routes_keep_content (rt : DateRuntime) (cfg : Config) (req : Request)
  (studentId : string) (w : World) :
  let wr := snd (handle_records cfg req w) in
  let we := snd (handle_expected_ip cfg studentId w) in
  (xlsx_file wr = xlsx_file w /\ currentDb wr = currentDb w /\
   db_writable wr = db_writable w /\ xlsx_writable wr = xlsx_writable w /\
   (db_file w <> None -> wr = w)) /\
  (xlsx_file we = xlsx_file w /\ currentDb we = currentDb w /\
   db_writable we = db_writable w /\ xlsx_writable we = xlsx_writable w /\
   (db_file w <> None -> we = w)) /\
  handle_records cfg req wr = (fst (handle_records cfg req w), wr) /\
  handle_expected_ip cfg studentId we = (fst (handle_expected_ip cfg studentId w), we).
Proof.
  cbn zeta.
  destruct (afterLoad_content w) as (Hxf & Hxw & Hsame).
  assert (Hkeep : forall w', w' = w \/ w' = afterLoad w ->
            xlsx_file w' = xlsx_file w /\ currentDb w' = currentDb w /\
            db_writable w' = db_writable w /\ xlsx_writable w' = xlsx_writable w /\
            (db_file w <> None -> w' = w)).
  { intros w' [-> | ->]; [repeat split; reflexivity|].
    split; [exact Hxf|]. split; [apply currentDb_afterLoad|].
    split; [apply db_writable_afterLoad|]. split; [exact Hxw|exact Hsame]. }
  assert (Hr : handle_records cfg req w = (fst (handle_records cfg req w), w) \/
               handle_records cfg req w = (fst (handle_records cfg req w), afterLoad w)).
  { rewrite handle_records_run. destruct (negb _); [left; reflexivity|].
    rewrite fetchRecords_run. destruct (xlsx_file w) as [[|wb]|];
      [right|left|left]; reflexivity. }
  assert (He : handle_expected_ip cfg studentId w =
                 (fst (handle_expected_ip cfg studentId w), w) \/
               handle_expected_ip cfg studentId w =
                 (fst (handle_expected_ip cfg studentId w), afterLoad w)).
  { rewrite handle_expected_ip_run. destruct (negb _); [left|right]; reflexivity. }
  split; [|split; [|split]].
  - apply Hkeep. destruct Hr as [-> | ->]; [left|right]; reflexivity.
  - apply Hkeep. destruct He as [-> | ->]; [left|right]; reflexivity.
  - rewrite !handle_records_run. destruct (negb _); [reflexivity|].
    rewrite !fetchRecords_run. destruct (xlsx_file w) as [[|wb]|] eqn:Hfile; cbn [fst snd].
    + rewrite Hxf, currentDb_afterLoad, afterLoad_idem. reflexivity.
    + rewrite Hfile. reflexivity.
    + rewrite Hfile. reflexivity.
  - rewrite !handle_expected_ip_run. destruct (negb _); [reflexivity|].
    cbn [fst snd]. rewrite currentDb_afterLoad, afterLoad_idem. reflexivity.
Qed.

Lemma read_routes_keep_content_witness :
  snd (handle_records (rt := Sample.rt) Sample.cfg Sample.ada Sample.corrupt_xlsx) =
    Sample.corrupt_xlsx /\
  snd (handle_expected_ip Sample.cfg "U002" Sample.marked) = Sample.marked.
Proof.
  split.
  - destruct (read_routes_keep_content Sample.rt Sample.cfg Sample.ada "U002"
                Sample.corrupt_xlsx) as ((_ & _ & _ & _ & Hsame) & _).
    apply Hsame. discriminate.
  - destruct (read_routes_keep_content Sample.rt Sample.cfg Sample.ada "U002"
                Sample.marked) as (_ & (_ & _ & _ & _ & Hsame) & _).
    apply Hsame. discriminate.
Defined.

(** X22.  GET /api/my-ip reports what POST /api/attendance/mark decides
    on.  For a request that mark accepts and stores, the address, the
    private flag and the proxy flag of the success object are the clientIp,
    isPrivate and possibleProxy of my-ip, and the stored record carries the
    same three.  When no address can be found, my-ip answers "(unknown)",
    not private, while mark refuses a request that has identity and name
    with 400 "Could not determine your IP address." *)
Theorem my_ip_agrees_with_mark (rt : DateRuntime) (cfg : Config) (clk : MarkClock)
  (req : Request) (w : World) :
  (accepted req = true ->
   db_writable w = true ->
   attendance (currentDb w) <> None ->
   suppressedBy clk req (decide_submission cfg req (currentDb w)) (currentDb w) = None ->
   let r := fst (handle_mark cfg clk req w) in
   member "clientIp" r = member "clientIp" (my_ip req) /\
   member "isPrivate" r = member "isPrivate" (my_ip req) /\
   member "proxy" r = member "possibleProxy" (my_ip req) /\
   exists record,
     last (attendanceOf (snd (handle_mark cfg clk req w))) = Some record /\
     Some (JStr (clientIp record)) = member "clientIp" (my_ip req) /\
     Some (JBool (isPrivate record)) = member "isPrivate" (my_ip req) /\
     Some (proxy record) = member "possibleProxy" (my_ip req)) /\
  (extractClientIp req = "" ->
   member "clientIp" (my_ip req) = Some (JStr "(unknown)") /\
   member "isPrivate" (my_ip req) = Some (JBool false) /\
   (body_student_id req <> "" -> body_student_name req <> "" ->
    handle_mark cfg clk req w =
      (json 400 [("message", JStr "Could not determine your IP address.");
                 ("success", JBool false)], w))).
Proof.
  split.
  - intros Hacc Hw Hatt Hsup. cbn zeta.
    assert (Hip : JsString.or (extractClientIp req) "(unknown)" = extractClientIp req).
    { unfold accepted in Hacc. rewrite !andb_true_iff in Hacc. destruct Hacc as [_ Hip].
      unfold JsString.or. rewrite Hip. reflexivity. }
    rewrite (handle_mark_accepted cfg clk req w Hacc). unfold markOutcome.
    rewrite Hsup, Hw. destruct (attendance (currentDb w)) as [l|]; [|congruence].
    cbn [fst snd]. unfold my_ip. rewrite Hip.
    split; [reflexivity|]. split; [reflexivity|]. split; [reflexivity|].
    eexists. rewrite attendanceOf_afterAppend. split; [apply last_snoc|].
    split; [reflexivity|]. split; reflexivity.
  - intros Hnone. unfold my_ip. rewrite Hnone.
    split; [reflexivity|]. split; [reflexivity|].
    intros Hid Hname.
    assert (Hacc : accepted req = false).
    { unfold accepted. rewrite Hnone, andb_false_r. reflexivity. }
    rewrite (handle_mark_rejected cfg clk req w Hacc). unfold rejection.
    apply truthy_true in Hid, Hname. rewrite Hid, Hname. reflexivity.
Qed.

Lemma my_ip_agrees_with_mark_witness :
  member "clientIp"
    (fst (handle_mark (rt := Sample.rt) Sample.cfg Sample.clk Sample.ada Sample.registered)) =
    member "clientIp" (my_ip Sample.ada) /\
  http_status
    (fst (handle_mark (rt := Sample.rt) Sample.cfg Sample.clk
            (mkRequest "U002" "Ada" "" "" "" "") Sample.registered)) = 400.
Proof.
  split.
  - destruct (my_ip_agrees_with_mark Sample.rt Sample.cfg Sample.clk Sample.ada
                Sample.registered) as [Hstored _].
    apply (Hstored eq_refl eq_refl ltac:(discriminate) eq_refl).
  - destruct (my_ip_agrees_with_mark Sample.rt Sample.cfg Sample.clk
                (mkRequest "U002" "Ada" "" "" "" "") Sample.registered) as [_ Hnone].
    destruct (Hnone eq_refl) as (_ & _ & Hmark).
    rewrite (Hmark ltac:(discriminate) ltac:(discriminate)). reflexivity.
Defined.

(** ** Two submissions of one student *)

(** X23.  Two submissions of one student, end to end, on a server with a
    fixed offset from UTC.  Let the first one be Present and stored at an
    instant [t_json clk1] before year 10000.  The same request sent again is
    answered "already marked" and changes nothing when the instant it reads
    lies on the same UTC day as the stored one; when it lies on another UTC
    day, and no older record of the student is a Present one of that day,
    it is stored as a second record after the first.  The server's offset
    plays no part: the day that counts is the UTC day. *)
Theorem second_submission_by_utc_day (off : Z) (cfg : Config) (clk1 clk2 : MarkClock)
  (req : Request) (w : World) (l : list AttendanceRecord) :
  accepted req = true ->
  db_writable w = true ->
  attendance (currentDb w) = Some l ->
  let dc := decide_submission cfg req (currentDb w) in
  d_status dc = "Present" ->
  suppressedBy (rt := FixedOffset.runtime off) clk1 req dc (currentDb w) = None ->
  0 <= t_json clk1 < FixedOffset.endOfTime ->
  0 <= t_today clk2 < FixedOffset.endOfTime ->
  let first := handle_mark (rt := FixedOffset.runtime off) cfg clk1 req w in
  let second := handle_mark (rt := FixedOffset.runtime off) cfg clk2 req (snd first) in
  attendanceOf (snd first) = l ++ [storedRecord (rt := FixedOffset.runtime off) clk1 req dc] /\
  (t_json clk1 / FixedOffset.msPerDay = t_today clk2 / FixedOffset.msPerDay ->
   member "alreadyMarked" (fst second) = Some (JBool true) /\
   snd second = snd first) /\
  (t_json clk1 / FixedOffset.msPerDay <> t_today clk2 / FixedOffset.msPerDay ->
   suppressedBy (rt := FixedOffset.runtime off) clk2 req dc (currentDb w) = None ->
   member "alreadyMarked" (fst second) = None /\
   member "status" (fst second) = Some (JStr "Present") /\
   attendanceOf (snd second) =
     l ++ [storedRecord (rt := FixedOffset.runtime off) clk1 req dc;
           storedRecord (rt := FixedOffset.runtime off) clk2 req dc]).
Proof.
  intros Hacc Hw Hl dc Hst Hsup1 Ht1 Ht2. cbn zeta.
  set (rt := FixedOffset.runtime off).
  set (r1 := storedRecord (rt := rt) clk1 req dc).
  set (w0 := afterExcel (storedRow (rt := rt) clk1 req dc) (afterLoad w)).
  assert (Hfirst : handle_mark (rt := rt) cfg clk1 req w =
                   (successResponse (d_clientIp dc) (d_allowedIp dc) (d_isPrivate dc)
                      (d_proxy dc) (d_status dc) (d_reason dc),
                    afterAppend r1 l w0)).
  { rewrite (handle_mark_accepted cfg clk1 req w Hacc). unfold markOutcome.
    fold dc. fold rt in Hsup1. rewrite Hsup1, Hl, Hw. reflexivity. }
  rewrite Hfirst. cbn [fst snd].
  set (w1 := afterAppend r1 l w0).
  assert (Hdb1 : currentDb w1 = mkDb (users (currentDb w)) (Some (l ++ [r1]))).
  { unfold w1, afterAppend. rewrite currentDb_stored. unfold w0.
    rewrite currentDb_afterExcel, currentDb_afterLoad. reflexivity. }
  assert (Hdc1 : decide_submission cfg req (currentDb w1) = dc).
  { rewrite Hdb1. reflexivity. }
  assert (Hw1 : db_writable w1 = true).
  { unfold w1, afterAppend. cbn [db_writable]. unfold w0.
    destruct (afterExcel_db (storedRow (rt := rt) clk1 req dc) (afterLoad w)) as [_ ->].
    rewrite db_writable_afterLoad. exact Hw. }
  assert (Hload1 : afterLoad w1 = w1) by reflexivity.
  assert (Hl1 : attendance (currentDb w1) = Some (l ++ [r1])).
  { rewrite Hdb1. reflexivity. }
  assert (Hday : JsString.slice0 10 (timestamp r1) =
                 JsString.slice0 10 (toISOString (DateRuntime := rt) (t_today clk2)) <->
                 t_json clk1 / FixedOffset.msPerDay = t_today clk2 / FixedOffset.msPerDay).
  { apply FixedOffsetFacts.same_prefix_same_day; assumption. }
  split; [apply attendanceOf_afterAppend|].
  rewrite (handle_mark_accepted cfg clk2 req w1 Hacc). unfold markOutcome.
  rewrite Hdc1, Hl1, Hw1, Hload1. split.
  - intros Hsame.
    destruct (alreadyMarkedPresent_complete
                (JsString.slice0 10 (toISOString (DateRuntime := rt) (t_today clk2)))
                (body_student_id req) (currentDb w1) (l ++ [r1]) r1 Hl1) as [found Hfound].
    { apply in_or_app. right. left. reflexivity. }
    { split; [reflexivity|]. split; [apply Hday, Hsame|exact Hst]. }
    unfold suppressedBy. rewrite Hfound, Hst. cbn [String.eqb Ascii.eqb Bool.eqb fst snd].
    split; reflexivity.
  - intros Hother Hsup2.
    assert (Hnone : suppressedBy (rt := rt) clk2 req dc (currentDb w1) = None).
    { unfold suppressedBy.
      destruct (alreadyMarkedPresent _ (historyOf (currentDb w1) _)) as [found|] eqn:Hfound;
        [exfalso|reflexivity].
      destruct (alreadyMarkedPresent_Some _ _ _ _ _ Hl1 Hfound) as [Hin Hon].
      apply in_app_or in Hin as [Hin|[<-|[]]].
      - destruct (alreadyMarkedPresent_complete _ _ (currentDb w) l found Hl Hin Hon)
          as [found' Hfound'].
        unfold suppressedBy in Hsup2. fold rt in Hsup2.
        rewrite Hfound', Hst in Hsup2. discriminate Hsup2.
      - destruct Hon as (_ & Hprefix & _). apply Hother, Hday, Hprefix. }
    rewrite Hnone. cbn [fst snd]. rewrite Hst.
    split; [reflexivity|]. split; [reflexivity|].
    rewrite attendanceOf_afterAppend, <- app_assoc. reflexivity.
Qed.

Lemma second_submission_by_utc_day_witness :
  let first := handle_mark (rt := FixedOffset.runtime 330) Sample.cfg Sample.clk Sample.ada
                 Sample.registered in
  member "alreadyMarked"
    (fst (handle_mark (rt := FixedOffset.runtime 330) Sample.cfg
            (mkMarkClock 1704153000000 1704153000005 1704153000010) Sample.ada (snd first))) =
    Some (JBool true) /\
  member "alreadyMarked"
    (fst (handle_mark (rt := FixedOffset.runtime 330) Sample.cfg
            (mkMarkClock 1704155400000 1704155400005 1704155400010) Sample.ada (snd first))) =
    None.
Proof.
  cbn zeta. split.
  - apply (second_submission_by_utc_day 330 Sample.cfg Sample.clk
             (mkMarkClock 1704153000000 1704153000005 1704153000010) Sample.ada
             Sample.registered [] eq_refl eq_refl eq_refl eq_refl eq_refl).
    + vm_compute. split; [discriminate|reflexivity].
    + vm_compute. split; [discriminate|reflexivity].
    + vm_compute. reflexivity.
  - apply (second_submission_by_utc_day 330 Sample.cfg Sample.clk
             (mkMarkClock 1704155400000 1704155400005 1704155400010) Sample.ada
             Sample.registered [] eq_refl eq_refl eq_refl eq_refl eq_refl).
    + vm_compute. split; [discriminate|reflexivity].
    + vm_compute. split; [discriminate|reflexivity].
    + vm_compute. discriminate.
    + vm_compute. reflexivity.
Defined.

(** ** What the form shows *)

(** X24.  The toast of the form after a submission.  It always shows the
    message of the answer.  It is an error toast exactly when the request
    was refused (400) or, not being suppressed, could not be saved to
    db.json (500).  In every other case it is a success toast: an Absent
    outcome that was stored is shown as a success, with the text
    "Marked Absent (IP ... does not match expected IP ...)." *)
Theorem toast_of_submission (rt : DateRuntime) (cfg : Config) (clk : MarkClock)
  (req : Request) (w : World) :
  let dc := decide_submission cfg req (currentDb w) in
  let toast := submitToast (fst (handle_mark cfg clk req w)) in
  textContent toast = member "message" (fst (handle_mark cfg clk req w)) /\
  (exists m, textContent toast = Some (JStr m)) /\
  (toastClass toast = "error" <->
   accepted req = false \/
   (accepted req = true /\ suppressedBy clk req dc (currentDb w) = None /\
    (db_writable w = false \/ attendance (currentDb w) = None))) /\
  (toastClass toast <> "error" -> toastClass toast = "success") /\
  (accepted req = true -> db_writable w = true -> attendance (currentDb w) <> None ->
   d_status dc = "Absent" ->
   toastClass toast = "success" /\
   textContent toast =
     Some (JStr ("Marked Absent (IP " +:+ d_clientIp dc +:+ " does not match expected IP " +:+
                 JsString.or (d_allowedIp dc) "(none)" +:+ ")."))).
Proof.
  cbn zeta. rewrite handle_mark_run.
  split; [reflexivity|].
  destruct (accepted req) eqn:Hacc.
  2:{ cbn [fst]. unfold rejection.
      split; [destruct (negb _ || negb _); eexists; reflexivity|].
      split; [split; [intros _; left; reflexivity|]|].
      - intros _. destruct (negb _ || negb _); reflexivity.
      - split; [|discriminate].
        intros Hne. exfalso. apply Hne. destruct (negb _ || negb _); reflexivity. }
  unfold markOutcome.
  destruct (suppressedBy clk req _ (currentDb w)) as [found|] eqn:Hsup; cbn [fst].
  { split; [eexists; reflexivity|]. split; [|split].
    - split; [discriminate|]. intros [Hno|(_ & Hno & _)]; discriminate Hno.
    - intros _. reflexivity.
    - intros _ _ _ Hst. exfalso. unfold suppressedBy in Hsup. rewrite Hst in Hsup.
      destruct (alreadyMarkedPresent _ _); discriminate Hsup. }
  destruct (attendance (currentDb w)) as [l|] eqn:Hl;
    [destruct (db_writable w) eqn:Hw|]; cbn [fst].
  - split; [eexists; reflexivity|]. split; [|split].
    + split; [discriminate|].
      intros [Hno|(_ & _ & [Hno|Hno])]; discriminate Hno.
    + intros _. reflexivity.
    + intros _ _ _ ->. split; reflexivity.
  - split; [eexists; reflexivity|]. split; [|split].
    + split; [|reflexivity]. intros _. right. repeat split. left. reflexivity.
    + intros Hne. exfalso. apply Hne. reflexivity.
    + intros _ Hno. discriminate Hno.
  - split; [eexists; reflexivity|]. split; [|split].
    + split; [|reflexivity]. intros _. right. repeat split. right. reflexivity.
    + intros Hne. exfalso. apply Hne. reflexivity.
    + intros _ _ Hno. exfalso. apply Hno. reflexivity.
Qed.

Lemma toast_of_submission_witness :
  toastClass
    (submitToast
       (fst (handle_mark (rt := Sample.rt) Sample.cfg Sample.clk
               (submitForm "U002" "Ada" "198.51.100.7" "" "") Sample.registered))) =
    "success" /\
  textContent
    (submitToast
       (fst (handle_mark (rt := Sample.rt) Sample.cfg Sample.clk
               (submitForm "U002" "Ada" "198.51.100.7" "" "") Sample.registered))) =
    Some (JStr "Marked Absent (IP 198.51.100.7 does not match expected IP 203.0.113.9).").
Proof.
  destruct (toast_of_submission Sample.rt Sample.cfg Sample.clk
              (submitForm "U002" "Ada" "198.51.100.7" "" "") Sample.registered)
    as (_ & _ & _ & _ & Habsent).
  destruct (Habsent eq_refl eq_refl ltac:(discriminate) eq_refl) as [Hclass Htext].
  split; [exact Hclass|exact Htext].
Defined.
